(** * A shallow embedding of shell.c

    The command interpreter of [shell.c] keeps a table of ten background
    jobs in two global arrays, launches commands through a double fork and
    offers the built-ins [exit], [btasks] and [cd].  This file embeds the C
    functions as Rocq functions over an explicit program state and proves
    properties of the job table, of the exit guard, of command launching and
    of the [cd] diagnostics.

    Everything the C code obtains from outside its own variables (system
    calls, the contents of an uninitialised local) is reached through the
    interface [OS]; the results that hold for the job table hold for every
    implementation of that interface.  A small executable model of process
    management, [posix], instantiates the interface for concrete runs. *)

From Stdlib Require Import ZArith List String Ascii Lia DecimalString.
From stdpp Require Import base list gmap strings.

Local Open Scope Z_scope.

(** ** Constants and text *)

(** [#define BACKGROUND_PROCESS 10] *)
Definition BACKGROUND_PROCESS : nat := 10.

(** Values of <sys/wait.h>, <stdlib.h> and <errno.h> on Linux. *)
Definition WNOHANG : Z := 1.
Definition EXIT_FAILURE : Z := 1.
Definition ENOENT : Z := 2.
Definition ECHILD : Z := 10.
Definition EAGAIN : Z := 11.
Definition EACCES : Z := 13.
Definition ENOTDIR : Z := 20.

Definition nl : string := String "010"%char EmptyString.
Definition tab : string := String "009"%char EmptyString.
Definition dquote : string := String "034"%char EmptyString.

(** What printf writes for a [%d] or [%ld] argument. *)
Definition dec (z : Z) : string := NilZero.string_of_int (Z.to_int z).

(** The status a parent reads after a child called [exit (code)]. *)
Definition W_EXITCODE (code : Z) : Z := Z.shiftl (Z.land code 255) 8.

(** ** Observable events *)

Inductive event :=
| EvWaitpid (pid options ret status : Z)
    (* waitpid (pid, &status, options) returned ret; status is the value
       of the variable [status] once the call is over *)
| EvWait (ret : Z)                      (* wait (NULL) returned ret *)
| EvStdout (text : string)              (* one printf call *)
| EvStderr (text : string).             (* one fprintf (stderr, ...) call *)

Record timeval := Timeval { tv_sec : Z; tv_usec : Z }.

Record rusage := Rusage {
  ru_utime : timeval;
  ru_stime : timeval;
  ru_nvcsw : Z;
  ru_nivcsw : Z;
  ru_majflt : Z;
  ru_minflt : Z
}.

(** ** The environment of the process

    [sys_waitpid pid status options] receives the value held by the int
    that its second argument points to and returns the call's result
    together with the value that int holds afterwards.  [sys_wait] is
    wait (NULL); [None] stands for a call that never returns.
    [sys_execvp] answers [None] when the program image was replaced and
    the new state when the call failed (it then returns -1 with errno set).
    [sys_indeterminate] is the value read from an int that was declared
    without an initialiser. *)
Class OS (sys : Type) := {
  sys_fork : sys → Z * sys;
  sys_execvp : string → list string → sys → option sys;
  sys_wait : sys → option (Z * sys);
  sys_waitpid : Z → Z → Z → sys → Z * Z * sys;
  sys_indeterminate : sys → Z * sys;
  sys_chdir : string → sys → Z * sys;
  sys_errno : sys → Z;
  sys_cwd : sys → string;
  sys_gettimeofday : sys → timeval * sys;
  sys_getrusage_children : sys → rusage;
  (* chdir: "on error, -1 is returned, and errno is set"; a failed call
     does not move the process *)
  sys_chdir_failure : ∀ path s,
    (sys_chdir path s).1 ≠ 0 →
    sys_errno (sys_chdir path s).2 ≠ 0 ∧
    sys_cwd (sys_chdir path s).2 = sys_cwd s
}.

(** ** Program state

    The two global arrays, the character storage that [char *] values
    point into, the environment and the log of what the process did. *)
Record shell (sys : Type) := Shell {
  bProcessIds : list Z;
  bProcessNames : list Z;
  mem : gmap Z string;
  os : sys;
  trace : list event
}.
Arguments Shell {sys}.
Arguments bProcessIds {sys}.
Arguments bProcessNames {sys}.
Arguments mem {sys}.
Arguments os {sys}.
Arguments trace {sys}.

(** How a piece of code ends. *)
Inductive flow (sys : Type) :=
| Next (st : shell sys)                 (* falls through / returns to its caller *)
| MainReturn (code : Z) (st : shell sys) (* [return code] in main *)
| Exit (code : Z) (st : shell sys)      (* exit (code) *)
| Exec (st : shell sys)                 (* execvp replaced the program *)
| Hang (st : shell sys)                 (* blocked in a call that never returns *)
| Crash (st : shell sys).               (* killed while reading through a null pointer *)
Arguments Next {sys}.
Arguments MainReturn {sys}.
Arguments Exit {sys}.
Arguments Exec {sys}.
Arguments Hang {sys}.
Arguments Crash {sys}.

Definition state_of {sys : Type} (f : flow sys) : shell sys :=
  match f with
  | Next st | MainReturn _ st | Exit _ st | Exec st | Hang st | Crash st => st
  end.

Section Program.
Context {sys : Type} `{!OS sys}.
Implicit Types st : shell sys.

Definition set_ids (ids : list Z) st : shell sys :=
  Shell ids (bProcessNames st) (mem st) (os st) (trace st).
Definition set_names (names : list Z) st : shell sys :=
  Shell (bProcessIds st) names (mem st) (os st) (trace st).
Definition set_os (s : sys) st : shell sys :=
  Shell (bProcessIds st) (bProcessNames st) (mem st) s (trace st).
Definition set_mem (m : gmap Z string) st : shell sys :=
  Shell (bProcessIds st) (bProcessNames st) m (os st) (trace st).
Definition emit (e : event) st : shell sys :=
  Shell (bProcessIds st) (bProcessNames st) (mem st) (os st) (trace st ++ [e]).

(** The C string a [char *] points to.  Reading through a pointer that
    points to no string is undefined in C; the model reads the empty text. *)
Definition cstring st (p : Z) : string := default EmptyString (mem st !! p).

(** What printf writes for a [%s] argument: the string the pointer points
    to, read in the storage [m], and for the null pointer the text (null),
    which the C library puts in its place. *)
Definition printf_s (m : gmap Z string) (p : Z) : string :=
  if p =? 0 then "(null)" else default EmptyString (m !! p).

(** Both arrays have their declared size. *)
Definition table_ok st : Prop :=
  length (bProcessIds st) = BACKGROUND_PROCESS ∧
  length (bProcessNames st) = BACKGROUND_PROCESS.

(** *** updateBackgroundProcess

    [update_slot i count] is the body of the for loop at slot [i]:
    [status] is declared there without initialiser and handed to waitpid;
    [pid], the call's result, is never looked at.  [update_loop n i count]
    is the loop with [n] iterations left, about to visit slot [i]. *)
Definition update_slot (i : nat) (count : Z) st : Z * shell sys :=
  match bProcessIds st !! i with
  | Some id =>
    if id =? 0 then (count, st)
    else
      let '(status0, s1) := sys_indeterminate (os st) in
      let '(pid, status, s2) := sys_waitpid id status0 WNOHANG s1 in
      let st1 := emit (EvWaitpid id WNOHANG pid status) (set_os s2 st) in
      if status =? 0
      then (count, set_ids (<[i:=0]> (bProcessIds st1)) st1)
      else (count + 1, st1)
  | None => (count, st)
  end.

Fixpoint update_loop (n i : nat) (count : Z) st : Z * shell sys :=
  match n with
  | O => (count, st)
  | S n' =>
    let '(count', st') := update_slot i count st in
    update_loop n' (S i) count' st'
  end.

Definition updateBackgroundProcess st : Z * shell sys :=
  update_loop BACKGROUND_PROCESS 0 0 st.

(** *** addBackgroundProcess

    [add_slot i] is the loop body at slot [i]: [Some] is the state in which
    the function returns from inside the loop, [None] lets the loop go on. *)

Definition added_text (i : nat) (p_pid : Z) : string :=
  tab +:+ tab +:+ "[" +:+ dec (Z.of_nat i) +:+ "] " +:+ dec p_pid +:+ nl +:+ nl.

Definition add_slot (i : nat) (p_pid p_cmdName : Z) st : option (shell sys) :=
  match bProcessIds st !! i with
  | Some id =>
    if id =? 0 then
      let st1 := set_ids (<[i:=p_pid]> (bProcessIds st)) st in
      let st2 := set_names (<[i:=p_cmdName]> (bProcessNames st1)) st1 in
      Some (emit (EvStdout (added_text i p_pid)) st2)
    else None
  | None => None
  end.

Fixpoint add_loop (n i : nat) (p_pid p_cmdName : Z) st : shell sys :=
  match n with
  | O => st
  | S n' =>
    match add_slot i p_pid p_cmdName st with
    | Some st' => st'
    | None => add_loop n' (S i) p_pid p_cmdName st
    end
  end.

Definition addBackgroundProcess (p_pid p_cmdName : Z) st : shell sys :=
  let '(_, st1) := updateBackgroundProcess st in
  add_loop BACKGROUND_PROCESS 0 p_pid p_cmdName st1.

(** *** listBackgroundProcess *)

Definition job_text (i : nat) (id : Z) (name : string) : string :=
  tab +:+ tab +:+ "[" +:+ dec (Z.of_nat i) +:+ "] " +:+ dec id +:+ tab +:+ name +:+ nl.

Definition list_slot (i : nat) st : shell sys :=
  match bProcessIds st !! i with
  | Some id =>
    if id =? 0 then st
    else
      let name := printf_s (mem st) (default 0 (bProcessNames st !! i)) in
      emit (EvStdout (job_text i id name)) st
  | None => st
  end.

Fixpoint list_loop (n i : nat) st : shell sys :=
  match n with
  | O => st
  | S n' => list_loop n' (S i) (list_slot i st)
  end.

Definition listBackgroundProcess st : shell sys :=
  let '(_, st1) := updateBackgroundProcess st in
  list_loop BACKGROUND_PROCESS 0 st1.

(** *** printChildrenStatistics

    The two [long] values are computed over Z: with the times the system
    reports they stay far inside 64 bits. *)
Definition rule_text : string := "----------------------------------------".

Definition printChildrenStatistics (startTime endTime : timeval) st : shell sys :=
  let usage := sys_getrusage_children (os st) in
  let st := emit (EvStdout (nl +:+ rule_text +:+ nl)) st in
  let st := emit (EvStdout ("Statistics" +:+ nl)) st in
  let st := emit (EvStdout (rule_text +:+ nl)) st in
  let wallClock := (tv_sec endTime - tv_sec startTime) * 1000000
                   + (tv_usec endTime - tv_usec startTime) in
  let st := emit (EvStdout (tab +:+ "Wall-clock time: " +:+ dec wallClock +:+ " ms" +:+ nl)) st in
  let cpuTime := (tv_sec (ru_utime usage) + tv_sec (ru_stime usage)) * 1000000
                 + tv_usec (ru_utime usage) + tv_usec (ru_stime usage) in
  let st := emit (EvStdout (tab +:+ "CPU time used (user and Kernel): " +:+ dec cpuTime +:+ " ms" +:+ nl)) st in
  let st := emit (EvStdout (tab +:+ "Voluntary context switches: " +:+ dec (ru_nvcsw usage) +:+ nl)) st in
  let st := emit (EvStdout (tab +:+ "Involuntary context switches: " +:+ dec (ru_nivcsw usage) +:+ nl)) st in
  let st := emit (EvStdout (tab +:+ "Page faults: " +:+ dec (ru_majflt usage) +:+ nl)) st in
  emit (EvStdout (tab +:+ "Page faults satisfied by cache read: " +:+ dec (ru_minflt usage) +:+ nl)) st.

(** *** runCommand

    [p_cmd] is the array of [char *] that main filled, closed by a null
    pointer.  The strings handed to execvp are those before the first
    null pointer. *)
Fixpoint until_null (p_cmd : list Z) : list Z :=
  match p_cmd with
  | [] => []
  | p :: rest => if p =? 0 then [] else p :: until_null rest
  end.

Definition argv_of st (p_cmd : list Z) : list string :=
  cstring st <$> until_null p_cmd.

Definition exec_error_text (err : Z) : string :=
  "Error no: " +:+ dec err +:+ " during execution of command, did you type correctly." +:+ nl.

Definition runCommand (p_cmd : list Z) (p_isBackground : bool) st : flow sys :=
  let '(pid, s1) := sys_fork (os st) in
  let st := set_os s1 st in
  if pid =? -1 then
    Next (emit (EvStderr "Couldn't fork the program, please retry.") st)
  else if pid =? 0 then
    let '(startTime, s2) := sys_gettimeofday (os st) in
    let st := set_os s2 st in
    let '(childPid, s3) := sys_fork (os st) in
    let st := set_os s3 st in
    if childPid =? -1 then
      Exit EXIT_FAILURE (emit (EvStderr "Couldn't fork the child process") st)
    else if childPid =? 0 then
      (* execvp reads the file name it is given: with [p_cmd[0]] null the
         process is killed by SIGSEGV inside the call *)
      if default 0 (p_cmd !! 0%nat) =? 0 then Crash st
      else
      match sys_execvp (cstring st (default 0 (p_cmd !! 0%nat))) (argv_of st p_cmd) (os st) with
      | None => Exec st
      | Some s4 =>
        (* execvp only returns after a failure, and then it returns -1 *)
        let err := -1 in
        let st := set_os s4 st in
        Exit err (emit (EvStderr (exec_error_text err)) st)
      end
    else
      match sys_wait (os st) with
      | None => Hang st
      | Some (r, s4) =>
        let st := emit (EvWait r) (set_os s4 st) in
        let '(endTime, s5) := sys_gettimeofday (os st) in
        let st := set_os s5 st in
        Exit 0 (printChildrenStatistics startTime endTime st)
      end
  else if p_isBackground then
    Next (addBackgroundProcess pid (default 0 (p_cmd !! 0%nat)) st)
  else
    match sys_wait (os st) with
    | None => Hang st
    | Some (r, s2) => Next (emit (EvWait r) (set_os s2 st))
    end.

(** *** runBuiltinCd *)

Definition cd_message (err : Z) : string :=
  if err =? ENOENT then "A component of the path does not name an existing directory"
  else if err =? EACCES then "Search permission are denied for any component of the pathname."
  else if err =? ENOTDIR then "A component of the path is not a directory."
  else "Unhandled error.".

Definition cd_error_text (path errorMsg : string) : string :=
  "Error running builtin " +:+ dquote +:+ "cd " +:+ path +:+ dquote +:+ ", " +:+ errorMsg +:+ nl.

Definition runBuiltinCd (p_path : Z) st : shell sys :=
  if p_path =? 0 then
    emit (EvStderr ("Please specify a directory parameter when using cd" +:+ nl)) st
  else
    let '(_, s1) := sys_chdir (cstring st p_path) (os st) in
    let st1 := set_os s1 st in
    let err := sys_errno s1 in
    if err =? 0 then st1
    else emit (EvStderr (cd_error_text (cstring st p_path) (cd_message err))) st1.

(** *** main

    One turn of the [for (;;)] loop, from the point where getCommand has
    filled [cmd] and [cmdc].  [cmdc] is read only when [cmd[0]] is not
    null, and getCommand has then set it to the number of tokens, at least
    one.  [Next] is the jump back to the prompt. *)
Definition still_running_text (bCount : Z) : string :=
  "There's still " +:+ dec bCount +:+ " background(s) process(es) running" +:+ nl.

Definition main_iteration (cmdc : nat) (cmd : list Z) st : flow sys :=
  let cmd0 := default 0 (cmd !! 0%nat) in
  if cmd0 =? 0 then Next st
  else if String.eqb (cstring st cmd0) "exit" then
    let st1 := listBackgroundProcess st in
    let '(bCount, st2) := updateBackgroundProcess st1 in
    if bCount =? 0 then MainReturn 0 st2
    else Next (emit (EvStdout (still_running_text bCount)) st2)
  else if String.eqb (cstring st cmd0) "btasks" || String.eqb (cstring st cmd0) "ap" then
    Next (listBackgroundProcess st)
  else if String.eqb (cstring st cmd0) "cd" then
    Next (runBuiltinCd (default 0 (cmd !! 1%nat)) st)
  else if String.eqb (cstring st (default 0 (cmd !! (cmdc - 1)%nat))) "&" then
    runCommand (<[(cmdc - 1)%nat := 0]> cmd) true st
  else
    runCommand cmd false st.

End Program.

(** ** An executable model of the environment

    [posix] follows one process.  It holds the direct children of that
    process, the exits that will happen while the process sleeps in wait,
    the results of the forks to come (0 makes the model follow the child),
    the values that uninitialised ints turn out to hold, and what chdir,
    execvp, the clock and the accounting answer.  Only a positive pid is
    given to waitpid by the shell; any other pid is answered like the pid
    of no child. *)
Inductive pstate := Running | Zombie (wstatus : Z).

Record posix := Posix {
  children : list (Z * pstate);
  pending_exits : list (Z * Z);
  fork_results : list Z;
  garbage : nat → Z;
  garbage_reads : nat;
  errno : Z;
  cwd : string;
  chdir_errno : string → Z;
  execvp_errno : string → Z;
  clock : list timeval;
  usage_children : rusage
}.

Definition with_children (c : list (Z * pstate)) (w : posix) : posix :=
  Posix c (pending_exits w) (fork_results w) (garbage w) (garbage_reads w)
        (errno w) (cwd w) (chdir_errno w) (execvp_errno w) (clock w) (usage_children w).
Definition with_pending (p : list (Z * Z)) (w : posix) : posix :=
  Posix (children w) p (fork_results w) (garbage w) (garbage_reads w)
        (errno w) (cwd w) (chdir_errno w) (execvp_errno w) (clock w) (usage_children w).
Definition with_forks (f : list Z) (w : posix) : posix :=
  Posix (children w) (pending_exits w) f (garbage w) (garbage_reads w)
        (errno w) (cwd w) (chdir_errno w) (execvp_errno w) (clock w) (usage_children w).
Definition with_reads (n : nat) (w : posix) : posix :=
  Posix (children w) (pending_exits w) (fork_results w) (garbage w) n
        (errno w) (cwd w) (chdir_errno w) (execvp_errno w) (clock w) (usage_children w).
Definition with_errno (e : Z) (w : posix) : posix :=
  Posix (children w) (pending_exits w) (fork_results w) (garbage w) (garbage_reads w)
        e (cwd w) (chdir_errno w) (execvp_errno w) (clock w) (usage_children w).
Definition with_cwd (d : string) (w : posix) : posix :=
  Posix (children w) (pending_exits w) (fork_results w) (garbage w) (garbage_reads w)
        (errno w) d (chdir_errno w) (execvp_errno w) (clock w) (usage_children w).
Definition with_clock (c : list timeval) (w : posix) : posix :=
  Posix (children w) (pending_exits w) (fork_results w) (garbage w) (garbage_reads w)
        (errno w) (cwd w) (chdir_errno w) (execvp_errno w) c (usage_children w).

Fixpoint child_state (c : list (Z * pstate)) (pid : Z) : option pstate :=
  match c with
  | [] => None
  | (p, s) :: rest => if p =? pid then Some s else child_state rest pid
  end.

Fixpoint remove_child (c : list (Z * pstate)) (pid : Z) : list (Z * pstate) :=
  match c with
  | [] => []
  | (p, s) :: rest => if p =? pid then rest else (p, s) :: remove_child rest pid
  end.

Fixpoint set_child (c : list (Z * pstate)) (pid : Z) (s' : pstate) : list (Z * pstate) :=
  match c with
  | [] => []
  | (p, s) :: rest => if p =? pid then (p, s') :: rest else (p, s) :: set_child rest pid s'
  end.

Fixpoint first_zombie (c : list (Z * pstate)) : option (Z * Z) :=
  match c with
  | [] => None
  | (p, Zombie ws) :: _ => Some (p, ws)
  | (_, Running) :: rest => first_zombie rest
  end.

(** A child terminates while the process is doing something else. *)
Definition child_exits (pid wstatus : Z) (w : posix) : posix :=
  with_children (set_child (children w) pid (Zombie wstatus)) w.

(** fork: the next scripted result; a positive one is a new running child,
    0 moves the model into the child, which has no children of its own. *)
Definition posix_fork (w : posix) : Z * posix :=
  match fork_results w with
  | [] => (-1, with_errno EAGAIN w)
  | r :: rest =>
    let w := with_forks rest w in
    if r =? 0 then (0, with_children [] w)
    else if 0 <? r then (r, with_children (children w ++ [(r, Running)]) w)
    else (-1, with_errno EAGAIN w)
  end.

(** waitpid (pid, &status, WNOHANG) for one child: a terminated child is
    collected and its status stored; for a running child the call returns
    0 and stores nothing; for a pid that is not a child it fails. *)
Definition posix_waitpid (pid status options : Z) (w : posix) : Z * Z * posix :=
  match child_state (children w) pid with
  | Some (Zombie ws) => (pid, ws, with_children (remove_child (children w) pid) w)
  | Some Running => (0, status, w)
  | None => (-1, status, with_errno ECHILD w)
  end.

(** wait (NULL): collects a terminated child when there is one (the one
    created first when there are several; POSIX leaves that choice open);
    fails without children; otherwise sleeps until the next exit of a
    child. *)
Fixpoint next_exit (c : list (Z * pstate)) (pending : list (Z * Z))
  : option (Z * list (Z * Z)) :=
  match pending with
  | [] => None
  | (p, ws) :: rest =>
    match child_state c p with
    | Some Running => Some (p, rest)
    | _ => next_exit c rest
    end
  end.

Definition posix_wait (w : posix) : option (Z * posix) :=
  match first_zombie (children w) with
  | Some (p, _) => Some (p, with_children (remove_child (children w) p) w)
  | None =>
    match children w with
    | [] => Some (-1, with_errno ECHILD w)
    | _ =>
      match next_exit (children w) (pending_exits w) with
      | Some (p, rest) =>
        Some (p, with_pending rest (with_children (remove_child (children w) p) w))
      | None => None
      end
    end
  end.

Definition posix_indeterminate (w : posix) : Z * posix :=
  (garbage w (garbage_reads w), with_reads (S (garbage_reads w)) w).

Definition posix_chdir (path : string) (w : posix) : Z * posix :=
  if chdir_errno w path =? 0 then (0, with_cwd path w)
  else (-1, with_errno (chdir_errno w path) w).

Definition posix_execvp (file : string) (argv : list string) (w : posix) : option posix :=
  if execvp_errno w file =? 0 then None
  else Some (with_errno (execvp_errno w file) w).

Definition posix_gettimeofday (w : posix) : timeval * posix :=
  match clock w with
  | [] => (Timeval 0 0, w)
  | t :: rest => (t, with_clock rest w)
  end.

Lemma posix_chdir_failure (path : string) (w : posix) :
  (posix_chdir path w).1 ≠ 0 →
  errno (posix_chdir path w).2 ≠ 0 ∧ cwd (posix_chdir path w).2 = cwd w.
Proof.
  unfold posix_chdir.
  destruct (chdir_errno w path =? 0) eqn:E; simpl.
  - intros Hne. contradiction.
  - intros _. split; [ | reflexivity ].
    apply Z.eqb_neq. exact E.
Qed.

#[global] Instance posix_OS : OS posix := {
  sys_fork := posix_fork;
  sys_execvp := posix_execvp;
  sys_wait := posix_wait;
  sys_waitpid := posix_waitpid;
  sys_indeterminate := posix_indeterminate;
  sys_chdir := posix_chdir;
  sys_errno := errno;
  sys_cwd := cwd;
  sys_gettimeofday := posix_gettimeofday;
  sys_getrusage_children := usage_children;
  sys_chdir_failure := posix_chdir_failure
}.

(** A process without children whose uninitialised ints read [g]. *)
Definition quiet (g : Z) : posix :=
  Posix [] [] [] (λ _, g) 0 0 "/" (λ _, 0) (λ _, 0) []
        (Rusage (Timeval 0 0) (Timeval 0 0) 0 0 0 0).

(** The state in which main starts: [bProcessIds] is initialised to zeros
    and [bProcessNames], a global without initialiser, holds null pointers. *)
Definition initial {sys : Type} (m : gmap Z string) (s : sys) : shell sys :=
  Shell (replicate BACKGROUND_PROCESS 0) (replicate BACKGROUND_PROCESS 0) m s [].

(** ** Sequences of registry operations

    Between two operations the environment may move on in any way:
    children terminate, the stack is overwritten, time passes. *)
Inductive registry_op (sys : Type) :=
| OpAdd (p_pid p_cmdName : Z)
| OpList
| OpReapAll
| OpEnvironment (change : sys → sys).
Arguments OpAdd {sys}.
Arguments OpList {sys}.
Arguments OpReapAll {sys}.
Arguments OpEnvironment {sys}.

Definition run_op {sys : Type} `{!OS sys} (op : registry_op sys) (st : shell sys)
  : shell sys :=
  match op with
  | OpAdd p_pid p_cmdName => addBackgroundProcess p_pid p_cmdName st
  | OpList => listBackgroundProcess st
  | OpReapAll => (updateBackgroundProcess st).2
  | OpEnvironment change => set_os (change (os st)) st
  end.

Definition run_ops {sys : Type} `{!OS sys} (ops : list (registry_op sys))
  (st : shell sys) : shell sys :=
  foldl (λ st op, run_op op st) st ops.

(** Background launches one after the other: each is a pid returned by
    fork together with the pointer to the program name. *)
Definition launch_all {sys : Type} `{!OS sys} (launches : list (Z * Z))
  (st : shell sys) : shell sys :=
  foldl (λ st l, addBackgroundProcess l.1 l.2 st) st launches.

(** ** Sample states for concrete runs *)

Definition sample_mem : gmap Z string :=
  <[1000 := "sleep"]> (<[1008 := "&"]> (<[2000 := "exit"]>
    (<[3000 := "cd"]> (<[3003 := "/nowhere"]> ∅)))).

(** Two jobs: 100 has terminated with status 0, 101 is running. *)
Definition two_jobs : shell posix :=
  Shell (100 :: 101 :: replicate 8 0) (1000 :: 1000 :: replicate 8 0) sample_mem
        (with_children [(100, Zombie 0); (101, Running)] (quiet 7)) [].

(** Ten running jobs. *)
Definition ten_pids : list Z := [100; 101; 102; 103; 104; 105; 106; 107; 108; 109].

Definition full_table : shell posix :=
  Shell ten_pids (replicate 10 1000) sample_mem
        (with_children ((λ p, (p, Running)) <$> ten_pids) (quiet 7)) [].

(** A table of ten jobs of which 100 and 101 have ended with status 0 and
    have not been collected; the other eight run. *)
Definition full_two_done : shell posix :=
  Shell ten_pids (replicate 10 1000) sample_mem
        (with_children ([(100, Zombie 0); (101, Zombie 0)] ++
                        ((λ p, (p, Running)) <$> drop 2 ten_pids)) (quiet 7)) [].

(** An empty table while process 100 runs. *)
Definition one_running : shell posix :=
  initial sample_mem (with_children [(100, Running)] (quiet 7)).

(** Two launched processes, both running, and an empty table. *)
Definition two_running : shell posix :=
  initial sample_mem (with_children [(100, Running); (101, Running)] (quiet 7)).

(** The shell after the command line [sleep &]: fork has created process
    100, which has gone into slot 0.  [g] is what uninitialised ints read;
    the next fork will create process 101. *)
Definition sleep_in_background (g : Z) : shell posix :=
  state_of (main_iteration 2 [1000; 1008; 0]
              (initial sample_mem (with_forks [100; 101] (quiet g)))).

(** Then process 100 ends with exit (EXIT_FAILURE), as the intermediate
    process does when its own fork fails. *)
Definition failed_job (g : Z) : shell posix :=
  set_os (child_exits 100 (W_EXITCODE EXIT_FAILURE) (os (sleep_in_background g)))
         (sleep_in_background g).

(** The shell after the command line [sleep &] has been entered twice:
    processes 100 and 101 have been created. *)
Definition two_sleeps_in_background (g : Z) : shell posix :=
  state_of (main_iteration 2 [1000; 1008; 0] (sleep_in_background g)).

(** Or process 100 ends with exit (0), and no reap pass has run since. *)
Definition finished_in_background : shell posix :=
  set_os (child_exits 100 (W_EXITCODE 0) (os (sleep_in_background 7)))
         (sleep_in_background 7).

(** The process that both forks of runCommand create (the one that calls
    execvp), on a system where no program can be found. *)
Definition in_grandchild : shell posix :=
  initial sample_mem
    (Posix [] [] [0; 0] (λ _, 7) 0 0 "/" (λ _, 0) (λ _, ENOENT) []
           (Rusage (Timeval 0 0) (Timeval 0 0) 0 0 0 0)).

(** The process in between, whose child 4242 ends with the status that
    exit (-1) leaves. *)
Definition in_intermediate : shell posix :=
  initial sample_mem
    (Posix [] [(4242, W_EXITCODE (-1))] [0; 4242] (λ _, 7) 0 0 "/" (λ _, 0) (λ _, ENOENT)
           [Timeval 5 100; Timeval 5 900]
           (Rusage (Timeval 0 300) (Timeval 0 200) 1 2 3 4)).

(** A shell on a system where no directory can be entered: chdir fails
    with ENOENT. *)
Definition nowhere_to_go : shell posix :=
  initial sample_mem
    (Posix [] [] [] (λ _, 7) 0 0 "/" (λ _, ENOENT) (λ _, 0) []
           (Rusage (Timeval 0 0) (Timeval 0 0) 0 0 0 0)).

(** Job 100 added under the name stored at address 1000, and the same
    state after the storage at that address has been overwritten. *)
Definition sleep_added : shell posix := addBackgroundProcess 100 1000 one_running.

Definition sleep_overwritten : shell posix :=
  set_mem (<[1000 := "rm"]> (mem sleep_added)) sleep_added.

(** ** Views of the job table used in the statements *)

(** The pids of the occupied slots, in slot order. *)
Fixpoint occupied (ids : list Z) : list Z :=
  match ids with
  | [] => []
  | id :: rest => if id =? 0 then occupied rest else id :: occupied rest
  end.

(** Number of jobs the table holds. *)
Definition live {sys : Type} (st : shell sys) : nat :=
  length (occupied (bProcessIds st)).

(** The entries of the table as (slot, pid, name pointer), slot [i] being
    the slot of the first element. *)
Fixpoint entries_from (i : nat) (ids names : list Z) : list (nat * Z * Z) :=
  match ids, names with
  | id :: ids', name :: names' =>
    if id =? 0 then entries_from (S i) ids' names'
    else (i, id, name) :: entries_from (S i) ids' names'
  | _, _ => []
  end.

Definition entries {sys : Type} (st : shell sys) : list (nat * Z * Z) :=
  entries_from 0 (bProcessIds st) (bProcessNames st).

(** The launches numbered from [i]: the entry expected for each of them
    when they fill consecutive slots starting at slot [i]. *)
Fixpoint numbered (i : nat) (launches : list (Z * Z)) : list (nat * Z * Z) :=
  match launches with
  | [] => []
  | l :: rest => (i, l.1, l.2) :: numbered (S i) rest
  end.

(** The status checks of one pass over the pids [pids]: for each pid in
    turn, waitpid with WNOHANG on an int of indeterminate content.  The
    result lists, per pid, what waitpid returned and the status the int
    held afterwards, and gives the environment after the last call. *)
Fixpoint check_all {sys : Type} `{!OS sys} (pids : list Z) (s : sys)
  : list (Z * Z) * sys :=
  match pids with
  | [] => ([], s)
  | pid :: rest =>
    let '(status0, s1) := sys_indeterminate s in
    let '(ret, status, s2) := sys_waitpid pid status0 WNOHANG s1 in
    let '(checks, s') := check_all rest s2 in
    ((ret, status) :: checks, s')
  end.

(** The reap pass in the words of the specification: the slots are visited
    in order; an empty slot stays empty; for an occupied slot the next
    observed status decides: zero clears the slot, anything else leaves the
    job in place and counts it as still running. *)
Fixpoint reapAll (slots observed : list Z) : list Z * Z :=
  match slots with
  | [] => ([], 0)
  | id :: rest =>
    if id =? 0 then
      let '(rest', running) := reapAll rest observed in (0 :: rest', running)
    else
      match observed with
      | status :: later =>
        let '(rest', running) := reapAll rest later in
        if status =? 0 then (0 :: rest', running) else (id :: rest', running + 1)
      | [] => (slots, 0)
      end
  end.

(** The log entry of one status check: [r] is (result, status). *)
Definition check_event (id : Z) (r : Z * Z) : event :=
  EvWaitpid id WNOHANG r.1 r.2.

(** The line that the listing prints for one entry. *)
Definition job_line (m : gmap Z string) (e : nat * Z * Z) : string :=
  job_text e.1.1 e.1.2 (printf_s m e.2).

(** Every entry's name pointer is null or points to a string of the
    storage: what printf can be handed for [%s]. *)
Definition names_readable (m : gmap Z string) (es : list (nat * Z * Z)) : Prop :=
  Forall (λ e : nat * Z * Z, e.2 = 0 ∨ is_Some (m !! e.2)) es.

Definition stdout_of (evs : list event) : list string :=
  omap (λ e, match e with EvStdout text => Some text | _ => None end) evs.

Definition stderr_of (evs : list event) : list string :=
  omap (λ e, match e with EvStderr text => Some text | _ => None end) evs.

(** No status check in [evs] saw the status zero, the value on which the
    reap pass gives a job up. *)
Definition no_exit_seen (evs : list event) : Prop :=
  Forall (λ e, match e with EvWaitpid _ _ _ status => status ≠ 0 | _ => True end) evs.

(** ** Reading a command line: getCommand

    [static const char *PROMPT] and [DELIMITER], and the size of
    [char* cmd[30]] in main. *)
Definition PROMPT : string := "$>".
Definition DELIMITER : ascii := " "%char.
Definition NUL : ascii := "000"%char.
Definition NEWLINE : ascii := "010"%char.
Definition CMD_SIZE : nat := 30.

(** getline (&buffer, &len, stdin) with [buffer = NULL] and [len = 0]: the
    call allocates the buffer itself.  The answer is the address of that
    buffer and the characters read, the newline included when there is
    one; [None] is the failure at the end of the input. *)
Class Stdin (sys : Type) := {
  sys_getline : sys → option (Z * string) * sys
}.

(** The bytes of a buffer up to its first NUL: what C reads as a string. *)
Fixpoint c_string (bytes : list ascii) : list ascii :=
  match bytes with
  | [] => []
  | c :: rest => if Ascii.eqb c NUL then [] else c :: c_string rest
  end.

(** [if (buffer[chars - 1] == '\n') buffer[chars - 1] = '\0';] on the
    [chars] characters that getline stored. *)
Definition chomp (line : list ascii) : list ascii :=
  match line !! (length line - 1)%nat with
  | Some c => if Ascii.eqb c NEWLINE then <[(length line - 1)%nat := NUL]> line else line
  | None => line
  end.

(** strspn (s, " ") and strcspn (s, " ") on a string without NUL. *)
Fixpoint strspn_delim (s : list ascii) : nat :=
  match s with
  | c :: rest => if Ascii.eqb c DELIMITER then S (strspn_delim rest) else O
  | [] => O
  end.

Fixpoint strcspn_delim (s : list ascii) : nat :=
  match s with
  | c :: rest => if Ascii.eqb c DELIMITER then O else S (strcspn_delim rest)
  | [] => O
  end.

(** strtok with the delimiter " ".  The position it keeps between calls is
    given as [olds]: an offset into the buffer and the characters from
    there to the buffer's NUL.  The call skips delimiters; at the NUL it
    returns NULL ([None]); otherwise it returns the token, as the offset
    where it starts and its characters, and overwrites the delimiter that
    ends it with NUL, so that the C string at the token's address is the
    token.  The new position is behind that NUL, or at the buffer's NUL
    when the token ran up to it. *)
Definition strtok (olds : nat * list ascii)
  : option (nat * list ascii) * (nat * list ascii) :=
  let start := (olds.1 + strspn_delim olds.2)%nat in
  let s := drop (strspn_delim olds.2) olds.2 in
  match s with
  | [] => (None, (start, []))
  | _ :: _ =>
    let n := strcspn_delim s in
    (Some (start, take n s),
     match drop n s with
     | [] => ((start + n)%nat, [])
     | _ :: behind => ((start + n + 1)%nat, behind)
     end)
  end.

(** How the while loop over the tokens ends: normally, with the index
    reached, the array and the character storage; with a store behind the
    end of the array; or, in the model only, with the iterations allowed
    used up. *)
Inductive tokens_result :=
| TokensDone (i : nat) (p_cmd : list Z) (m : gmap Z string)
| TokensOverrun
| TokensUnfinished.

(** [while (token != NULL) { p_cmd[i] = token; token = strtok (NULL, ...);
    ++i; }] with the buffer at address [buffer].  The storage [m] records,
    at the address of each token stored, the string strtok has made of it. *)
Fixpoint token_loop (fuel i : nat) (token : option (nat * list ascii))
    (olds : nat * list ascii) (buffer : Z) (p_cmd : list Z) (m : gmap Z string)
  : tokens_result :=
  match token with
  | None => TokensDone i p_cmd m
  | Some (off, text) =>
    match fuel with
    | O => TokensUnfinished
    | S fuel' =>
      if decide (i < length p_cmd)%nat then
        token_loop fuel' (S i) (strtok olds).1 (strtok olds).2 buffer
          (<[i := buffer + Z.of_nat off]> p_cmd)
          (<[buffer + Z.of_nat off := string_of_list_ascii text]> m)
      else TokensOverrun
    end
  end.

(** How getCommand ends: it returns, with the values of [*p_cmdc] and of
    the array [p_cmd]; it stores behind the end of [p_cmd]; it had no line
    to work on (getline failed, and the code goes on to read a buffer it
    was not given); or the model ran out of iterations. *)
Inductive command_read (sys : Type) :=
| Got (cmdc : nat) (cmd : list Z) (st : shell sys)
| Overrun (st : shell sys)
| NoLine (st : shell sys)
| Unfinished (st : shell sys).
Arguments Got {sys}.
Arguments Overrun {sys}.
Arguments NoLine {sys}.
Arguments Unfinished {sys}.

Definition read_state {sys : Type} (r : command_read sys) : shell sys :=
  match r with
  | Got _ _ st | Overrun st | NoLine st | Unfinished st => st
  end.

Section Reading.
Context {sys : Type} `{!Stdin sys}.
Implicit Types st : shell sys.

(** [cmdc] and [p_cmd] are what [*p_cmdc] and the array hold on entry. *)
Definition getCommand (cmdc : nat) (p_cmd : list Z) st : command_read sys :=
  let st := emit (EvStdout PROMPT) st in
  let '(r, s1) := sys_getline (os st) in
  let st := set_os s1 st in
  match r with
  | None => NoLine st
  | Some (buffer, line) =>
    match list_ascii_of_string line with
    | [] => NoLine st
    | c0 :: _ =>
      if Ascii.eqb c0 NEWLINE then Got cmdc p_cmd st
      else
        let text := c_string (chomp (list_ascii_of_string line)) in
        match token_loop (S (length text)) 0 (strtok (O, text)).1 (strtok (O, text)).2
                buffer p_cmd (mem st) with
        | TokensDone i p_cmd m =>
          if decide (i < length p_cmd)%nat
          then Got i (<[i := 0]> p_cmd) (set_mem m st)
          else Overrun st
        | TokensOverrun => Overrun st
        | TokensUnfinished => Unfinished st
        end
    end
  end.

End Reading.

(** One turn of main's loop with the reading of the command, and the loop
    itself for a number of turns.  [cmdc0] is what the uninitialised
    [cmdc] of a turn holds. *)
Inductive turn (sys : Type) :=
| Ran (f : flow sys)
| NotRead (r : command_read sys).
Arguments Ran {sys}.
Arguments NotRead {sys}.

Definition main_turn {sys : Type} `{!OS sys} `{!Stdin sys} (cmdc0 : nat)
  (st : shell sys) : turn sys :=
  match getCommand cmdc0 (replicate CMD_SIZE 0) st with
  | Got cmdc cmd st1 => Ran (main_iteration cmdc cmd st1)
  | r => NotRead r
  end.

Fixpoint main_loop {sys : Type} `{!OS sys} `{!Stdin sys} (turns : nat)
  (cmdc0 : nat → nat) (st : shell sys) : turn sys :=
  match turns with
  | O => Ran (Next st)
  | S turns' =>
    match main_turn (cmdc0 turns') st with
    | Ran (Next st1) => main_loop turns' cmdc0 st1
    | r => r
    end
  end.

(** The start of main: [if (optind != argc)] the usage line and
    EXIT_FAILURE. *)
Definition main_start {sys : Type} (optind argc : Z) (argv0 : string)
  (st : shell sys) : option (flow sys) :=
  if optind =? argc then None
  else Some (MainReturn EXIT_FAILURE (emit (EvStderr ("Usage: " +:+ argv0 +:+ nl)) st)).

(** The tokens that successive strtok calls return, from position [olds]
    on. *)
Fixpoint strtok_all (fuel : nat) (olds : nat * list ascii) : list (nat * list ascii) :=
  match fuel with
  | O => []
  | S fuel' =>
    match (strtok olds).1 with
    | Some t => t :: strtok_all fuel' (strtok olds).2
    | None => []
    end
  end.

(** The tokens of a line as getline stored it, and the storage after the
    strings of the tokens [toks] of the buffer at [buffer] have been
    recorded in it. *)
Definition line_tokens (chars : list ascii) : list (nat * list ascii) :=
  strtok_all (S (length (c_string (chomp chars)))) (O, c_string (chomp chars)).

Definition token_pointer (buffer : Z) (t : nat * list ascii) : Z :=
  buffer + Z.of_nat t.1.

Definition publish (buffer : Z) (toks : list (nat * list ascii)) (m : gmap Z string)
  : gmap Z string :=
  foldl (λ m t, <[token_pointer buffer t := string_of_list_ascii t.2]> m) m toks.

(** A line as it is typed: each word behind [p.1] delimiters, one more
    delimiter between two words, and [trail] delimiters behind the last
    word. *)
Fixpoint spaced_words (pws : list (nat * list ascii)) (trail : nat) : list ascii :=
  match pws with
  | [] => replicate trail DELIMITER
  | p :: rest =>
    replicate p.1 DELIMITER ++ p.2 ++
    match rest with
    | [] => replicate trail DELIMITER
    | _ :: _ => DELIMITER :: spaced_words rest trail
    end
  end.

(** A word as the tokenizer can return it: not empty, and free of
    delimiters, NULs and newlines. *)
Definition word_ok (w : list ascii) : Prop :=
  w ≠ [] ∧ Forall (λ c, c ≠ DELIMITER ∧ c ≠ NUL ∧ c ≠ NEWLINE) w.

(** The terminal: the process model together with the lines still to be
    read, each with the address of the buffer getline will allocate. *)
Record terminal := Terminal {
  tty_os : posix;
  tty_input : list (Z * string)
}.

Definition on_os {A : Type} (r : A * posix) (t : terminal) : A * terminal :=
  (r.1, Terminal r.2 (tty_input t)).

Definition terminal_getline (t : terminal) : option (Z * string) * terminal :=
  match tty_input t with
  | [] => (None, t)
  | l :: rest => (Some l, Terminal (tty_os t) rest)
  end.

Lemma terminal_chdir_failure (path : string) (t : terminal) :
  (on_os (posix_chdir path (tty_os t)) t).1 ≠ 0 →
  errno (tty_os (on_os (posix_chdir path (tty_os t)) t).2) ≠ 0 ∧
  cwd (tty_os (on_os (posix_chdir path (tty_os t)) t).2) = cwd (tty_os t).
Proof. apply posix_chdir_failure. Qed.

#[global] Instance terminal_OS : OS terminal := {
  sys_fork t := on_os (posix_fork (tty_os t)) t;
  sys_execvp file argv t :=
    (λ w, Terminal w (tty_input t)) <$> posix_execvp file argv (tty_os t);
  sys_wait t := (λ r, on_os r t) <$> posix_wait (tty_os t);
  sys_waitpid pid status options t :=
    on_os (posix_waitpid pid status options (tty_os t)) t;
  sys_indeterminate t := on_os (posix_indeterminate (tty_os t)) t;
  sys_chdir path t := on_os (posix_chdir path (tty_os t)) t;
  sys_errno t := errno (tty_os t);
  sys_cwd t := cwd (tty_os t);
  sys_gettimeofday t := on_os (posix_gettimeofday (tty_os t)) t;
  sys_getrusage_children t := usage_children (tty_os t);
  sys_chdir_failure := terminal_chdir_failure
}.

#[global] Instance terminal_Stdin : Stdin terminal := {
  sys_getline := terminal_getline
}.

(** A session at the terminal: the lines typed, the forks to come, and
    what uninitialised ints read. *)
Definition session (lines : list (Z * string)) (forks : list Z) (g : Z) : shell terminal :=
  initial ∅ (Terminal (with_forks forks (quiet g)) lines).

(** The state a turn or a session ends in. *)
Definition turn_state {sys : Type} (t : turn sys) : shell sys :=
  match t with
  | Ran f => state_of f
  | NotRead r => read_state r
  end.

(** A shell of the process model put in front of a terminal. *)
Definition at_terminal (st : shell posix) (lines : list (Z * string)) : shell terminal :=
  Shell (bProcessIds st) (bProcessNames st) (mem st) (Terminal (os st) lines) (trace st).

(** A shell with an empty table whose next two forks create the processes
    100 and 101. *)
Definition ready_to_fork : shell posix :=
  initial sample_mem (with_forks [100; 101] (quiet 7)).

(** A shell on a system where the directory named cd can be entered and
    no other. *)
Definition only_cd_dir : shell posix :=
  initial sample_mem
    (Posix [] [] [] (λ _, 7) 0 0 "/" (λ path, if String.eqb path "cd" then 0 else ENOENT)
           (λ _, 0) [] (Rusage (Timeval 0 0) (Timeval 0 0) 0 0 0 0)).

(** A line of [n] one-letter words, and sessions that begin with a given
    line, stored by getline at address 5000. *)
Definition words_line (n : nat) : string :=
  string_of_list_ascii (spaced_words (replicate n (0%nat, ["a"%char])) 0 ++ [NEWLINE]).

Definition typing (line : string) : shell terminal :=
  session [(5000, line)] [100; 101] 7.

(** A session of three lines: a background launch, a listing, and exit. *)
Definition three_lines : shell terminal :=
  session [(5000, "sleep 5 &" +:+ nl); (6000, "btasks" +:+ nl); (7000, "exit" +:+ nl)]
          [100] 0.

(** * Properties of the job table *)

Section Registry.
Context {sys : Type} `{!OS sys}.
Implicit Types st : shell sys.

Lemma reapAll_fst_length (slots observed : list Z) :
  length (reapAll slots observed).1 = length slots.
Proof.
  revert observed. induction slots as [|id rest IH]; intros observed; simpl; [done|].
  destruct (id =? 0).
  - specialize (IH observed). destruct (reapAll rest observed). simpl in *. lia.
  - destruct observed as [|status later]; [done|].
    specialize (IH later). destruct (reapAll rest later).
    destruct (status =? 0); simpl in *; lia.
Qed.

Lemma reapAll_empty_slot (rest observed : list Z) :
  reapAll (0 :: rest) observed =
  (0 :: (reapAll rest observed).1, (reapAll rest observed).2).
Proof. simpl. by destruct (reapAll rest observed). Qed.

Lemma reapAll_checked_slot (id status : Z) (rest later : list Z) :
  id ≠ 0 →
  reapAll (id :: rest) (status :: later) =
  ((if status =? 0 then 0 else id) :: (reapAll rest later).1,
   (reapAll rest later).2 + (if status =? 0 then 0 else 1)).
Proof.
  intros Hid. simpl. apply Z.eqb_neq in Hid. rewrite Hid.
  destruct (reapAll rest later) as [rest' running]. simpl.
  destruct (status =? 0); f_equal; lia.
Qed.

Lemma reapAll_unobserved (id : Z) (rest : list Z) :
  id ≠ 0 → reapAll (id :: rest) [] = (id :: rest, 0).
Proof. intros Hid. simpl. apply Z.eqb_neq in Hid. by rewrite Hid. Qed.

Lemma occupied_empty_slot (rest : list Z) : occupied (0 :: rest) = occupied rest.
Proof. done. Qed.

Lemma occupied_full_slot (id : Z) (rest : list Z) :
  id ≠ 0 → occupied (id :: rest) = id :: occupied rest.
Proof. intros Hid. simpl. apply Z.eqb_neq in Hid. by rewrite Hid. Qed.

(** The loop, started at slot [i] with the slots from [i] on still to
    visit, makes the status checks of [check_all] on the occupied ones and
    behaves like [reapAll] on the statuses read. *)
Lemma update_loop_checked (n i : nat) (count : Z) st (checks : list (Z * Z)) (s' : sys) :
  length (bProcessIds st) = (i + n)%nat →
  check_all (occupied (drop i (bProcessIds st))) (os st) = (checks, s') →
  length checks = length (occupied (drop i (bProcessIds st))) ∧
  trace (update_loop n i count st).2 =
    trace st ++ zip_with check_event (occupied (drop i (bProcessIds st))) checks ∧
  bProcessIds (update_loop n i count st).2 =
    take i (bProcessIds st) ++ (reapAll (drop i (bProcessIds st)) checks.*2).1 ∧
  (update_loop n i count st).1 =
    count + (reapAll (drop i (bProcessIds st)) checks.*2).2 ∧
  bProcessNames (update_loop n i count st).2 = bProcessNames st ∧
  mem (update_loop n i count st).2 = mem st ∧
  os (update_loop n i count st).2 = s'.
Proof.
  revert i count st checks s'. induction n as [|n IH]; intros i count st checks s' Hlen Hca.
  - rewrite drop_ge in Hca |- * by lia. rewrite take_ge by lia.
    simpl in Hca. injection Hca as <- <-. simpl.
    rewrite !app_nil_r. repeat split; lia.
  - destruct (lookup_lt_is_Some_2 (bProcessIds st) i) as [id Hid]; [lia|].
    rewrite (drop_S _ _ _ Hid) in Hca |- *.
    cbn [update_loop]. unfold update_slot. rewrite Hid.
    destruct (id =? 0) eqn:Hz.
    + apply Z.eqb_eq in Hz. subst id.
      rewrite occupied_empty_slot in Hca.
      destruct (IH (S i) count st checks s') as (H1 & H2 & H3 & H4 & H5 & H6 & H7);
        [lia|done|].
      rewrite reapAll_empty_slot, occupied_empty_slot. cbn [fst snd].
      repeat split; try done.
      rewrite H3, (take_S_r _ _ _ Hid). by rewrite <- app_assoc.
    + apply Z.eqb_neq in Hz.
      rewrite occupied_full_slot in Hca |- * by done.
      cbn [check_all] in Hca.
      destruct (sys_indeterminate (os st)) as [status0 s1].
      destruct (sys_waitpid id status0 WNOHANG s1) as [[pid status] s2].
      destruct (check_all (occupied (drop (S i) (bProcessIds st))) s2)
        as [checks' sfin] eqn:Hrest.
      injection Hca as <- <-.
      set (st1 := emit (EvWaitpid id WNOHANG pid status) (set_os s2 st)).
      assert (Hst1 : bProcessIds st1 = bProcessIds st) by done.
      assert (Htr1 : trace st1 = trace st ++ [EvWaitpid id WNOHANG pid status]) by done.
      rewrite fmap_cons. cbn [snd].
      rewrite reapAll_checked_slot by done.
      destruct (status =? 0) eqn:Hs.
      * set (st2 := set_ids (<[i:=0]> (bProcessIds st1)) st1).
        assert (Hd : drop (S i) (bProcessIds st2) = drop (S i) (bProcessIds st)).
        { subst st2. cbn [set_ids bProcessIds]. rewrite Hst1.
          apply drop_insert_lt. lia. }
        assert (Ht : take (S i) (bProcessIds st2) = take i (bProcessIds st) ++ [0]).
        { subst st2. cbn [set_ids bProcessIds]. rewrite Hst1.
          rewrite (take_S_r _ _ 0).
          - by rewrite take_insert_ge by lia.
          - apply list_lookup_insert_eq. lia. }
        destruct (IH (S i) count st2 checks' sfin) as (H1 & H2 & H3 & H4 & H5 & H6 & H7).
        { subst st2. cbn [set_ids bProcessIds]. rewrite length_insert, Hst1. lia. }
        { rewrite Hd. exact Hrest. }
        rewrite Hd in H1, H2, H3, H4. rewrite Ht in H3.
        cbn [fst snd].
        repeat split; try done.
        -- cbn [length]. by rewrite H1.
        -- rewrite H2. change (trace st2) with (trace st1). rewrite Htr1.
           by rewrite <- app_assoc.
        -- rewrite H3. by rewrite <- app_assoc.
        -- rewrite H4. lia.
      * destruct (IH (S i) (count + 1) st1 checks' sfin) as (H1 & H2 & H3 & H4 & H5 & H6 & H7).
        { rewrite Hst1. lia. }
        { rewrite Hst1. exact Hrest. }
        rewrite Hst1 in H1, H2, H3, H4.
        cbn [fst snd].
        repeat split; try done.
        -- cbn [length]. by rewrite H1.
        -- rewrite H2, Htr1. by rewrite <- app_assoc.
        -- rewrite H3, (take_S_r _ _ _ Hid). by rewrite <- app_assoc.
        -- rewrite H4. lia.
Qed.

Lemma update_checked st (count : Z) (st' : shell sys) (checks : list (Z * Z)) (s' : sys) :
  table_ok st →
  updateBackgroundProcess st = (count, st') →
  check_all (occupied (bProcessIds st)) (os st) = (checks, s') →
  length checks = live st ∧
  trace st' = trace st ++ zip_with check_event (occupied (bProcessIds st)) checks ∧
  bProcessIds st' = (reapAll (bProcessIds st) checks.*2).1 ∧
  count = (reapAll (bProcessIds st) checks.*2).2 ∧
  bProcessNames st' = bProcessNames st ∧
  mem st' = mem st ∧
  os st' = s'.
Proof.
  intros [Hids _] Hup Hca.
  pose proof (update_loop_checked BACKGROUND_PROCESS 0 0 st checks s') as H.
  unfold updateBackgroundProcess in Hup.
  generalize dependent (update_loop BACKGROUND_PROCESS 0 0 st).
  intros result -> H.
  rewrite drop_0, take_0 in H.
  destruct H as (H1 & H2 & H3 & H4 & H5 & H6 & H7); [by rewrite Hids|done|].
  unfold live. cbn [fst snd] in *.
  repeat split; assumption.
Qed.

Lemma update_reapAll st (count : Z) (st' : shell sys) :
  table_ok st →
  updateBackgroundProcess st = (count, st') →
  ∃ checks : list (Z * Z),
    length checks = live st ∧
    trace st' = trace st ++ zip_with check_event (occupied (bProcessIds st)) checks ∧
    bProcessIds st' = (reapAll (bProcessIds st) checks.*2).1 ∧
    count = (reapAll (bProcessIds st) checks.*2).2 ∧
    bProcessNames st' = bProcessNames st ∧
    mem st' = mem st.
Proof.
  intros Hok Hup.
  destruct (check_all (occupied (bProcessIds st)) (os st)) as [checks s'] eqn:Hca.
  destruct (update_checked st count st' checks s' Hok Hup Hca)
    as (H1 & H2 & H3 & H4 & H5 & H6 & _).
  by exists checks.
Qed.

Lemma occupied_length_le (ids : list Z) : (length (occupied ids) ≤ length ids)%nat.
Proof.
  induction ids as [|id rest IH]; simpl; [lia|].
  destruct (id =? 0); simpl; lia.
Qed.

(** A slot that holds a job after the pass held the same job before. *)
Lemma reapAll_kept (slots observed : list Z) (i : nat) (id : Z) :
  (reapAll slots observed).1 !! i = Some id → id ≠ 0 → slots !! i = Some id.
Proof.
  revert observed i. induction slots as [|x rest IH]; intros observed i; [done|].
  destruct (decide (x = 0)) as [->|Hx].
  - rewrite reapAll_empty_slot. destruct i as [|i]; simpl.
    + intros [= <-] Hne. done.
    + apply IH.
  - destruct observed as [|status later].
    + by rewrite reapAll_unobserved by done.
    + rewrite reapAll_checked_slot by done. destruct i as [|i]; simpl.
      * destruct (status =? 0); intros [= <-] Hne; done.
      * apply IH.
Qed.

(** An empty slot stays empty. *)
Lemma reapAll_empty_stays (slots observed : list Z) (i : nat) :
  slots !! i = Some 0 → (reapAll slots observed).1 !! i = Some 0.
Proof.
  revert observed i. induction slots as [|x rest IH]; intros observed i; [done|].
  destruct (decide (x = 0)) as [->|Hx].
  - rewrite reapAll_empty_slot. destruct i as [|i]; simpl; [done|apply IH].
  - destruct observed as [|status later].
    + by rewrite reapAll_unobserved by done.
    + rewrite reapAll_checked_slot by done. destruct i as [|i]; simpl.
      * intros [= ->]. done.
      * apply IH.
Qed.

(** The job in slot [i] is judged by the check whose position is the
    number of occupied slots before [i]. *)
Lemma reapAll_checked (slots observed : list Z) (i : nat) (id : Z) :
  length observed = length (occupied slots) →
  slots !! i = Some id → id ≠ 0 →
  ∃ status, observed !! length (occupied (take i slots)) = Some status ∧
            (reapAll slots observed).1 !! i = Some (if status =? 0 then 0 else id).
Proof.
  revert observed i. induction slots as [|x rest IH]; intros observed i Hlen; [done|].
  destruct (decide (x = 0)) as [->|Hx].
  - rewrite reapAll_empty_slot. rewrite occupied_empty_slot in Hlen.
    destruct i as [|i]; simpl; [by intros [= <-]|].
    apply IH. done.
  - rewrite occupied_full_slot in Hlen by done.
    destruct observed as [|status later]; [done|].
    rewrite reapAll_checked_slot by done.
    destruct i as [|i]; cbn [take].
    + simpl. intros [= <-] _. by exists status.
    + rewrite occupied_full_slot by done. simpl. apply IH.
      simpl in Hlen. lia.
Qed.

(** The count is the number of checks that saw a status other than zero,
    and also the number of jobs left in the table. *)
Lemma reapAll_count_checks (slots observed : list Z) :
  length observed = length (occupied slots) →
  (reapAll slots observed).2 = Z.of_nat (length (filter (λ status, status ≠ 0) observed)).
Proof.
  revert observed. induction slots as [|x rest IH]; intros observed Hlen.
  - destruct observed; done.
  - destruct (decide (x = 0)) as [->|Hx].
    + rewrite reapAll_empty_slot. simpl. by apply IH.
    + rewrite occupied_full_slot in Hlen by done.
      destruct observed as [|status later]; [done|].
      rewrite reapAll_checked_slot by done. cbn [snd].
      rewrite IH by (simpl in Hlen; lia).
      rewrite filter_cons.
      destruct (decide (status ≠ 0)) as [Hs|Hs].
      * apply Z.eqb_neq in Hs. rewrite Hs. simpl. lia.
      * apply dec_stable in Hs. subst status. simpl. lia.
Qed.

Lemma reapAll_count_left (slots observed : list Z) :
  length observed = length (occupied slots) →
  (reapAll slots observed).2 = Z.of_nat (length (occupied (reapAll slots observed).1)).
Proof.
  revert observed. induction slots as [|x rest IH]; intros observed Hlen.
  - done.
  - destruct (decide (x = 0)) as [->|Hx].
    + rewrite reapAll_empty_slot. cbn [fst snd]. rewrite occupied_empty_slot. by apply IH.
    + rewrite occupied_full_slot in Hlen by done.
      destruct observed as [|status later]; [done|].
      rewrite reapAll_checked_slot by done. cbn [fst snd].
      rewrite IH by (simpl in Hlen; lia).
      destruct (status =? 0).
      * rewrite occupied_empty_slot. lia.
      * rewrite occupied_full_slot by done. simpl. lia.
Qed.

Lemma reapAll_live_le (slots observed : list Z) :
  (length (occupied (reapAll slots observed).1) ≤ length (occupied slots))%nat.
Proof.
  revert observed. induction slots as [|x rest IH]; intros observed; [done|].
  destruct (decide (x = 0)) as [->|Hx].
  - rewrite reapAll_empty_slot. cbn [fst]. rewrite !occupied_empty_slot. apply IH.
  - destruct observed as [|status later].
    + rewrite reapAll_unobserved by done. cbn [fst]. lia.
    + rewrite reapAll_checked_slot by done. cbn [fst].
      rewrite (occupied_full_slot x) by done.
      specialize (IH later).
      destruct (status =? 0).
      * rewrite occupied_empty_slot. simpl. lia.
      * rewrite occupied_full_slot by done. simpl. lia.
Qed.

(** A pass that leaves every slot occupied changed nothing. *)
Lemma reapAll_full (slots observed : list Z) :
  length (occupied (reapAll slots observed).1) = length slots →
  (reapAll slots observed).1 = slots.
Proof.
  revert observed. induction slots as [|x rest IH]; intros observed; [done|].
  destruct (decide (x = 0)) as [->|Hx].
  - rewrite reapAll_empty_slot. cbn [fst]. rewrite occupied_empty_slot.
    pose proof (occupied_length_le (reapAll rest observed).1) as Hle.
    rewrite reapAll_fst_length in Hle. simpl. lia.
  - destruct observed as [|status later].
    + by rewrite reapAll_unobserved by done.
    + rewrite reapAll_checked_slot by done. cbn [fst].
      pose proof (occupied_length_le (reapAll rest later).1) as Hle.
      rewrite reapAll_fst_length in Hle.
      destruct (status =? 0).
      * rewrite occupied_empty_slot. simpl. lia.
      * rewrite occupied_full_slot by done. simpl. intros Hfull.
        f_equal. apply IH. lia.
Qed.

(** A pass in which no check saw the status zero changed nothing. *)
Lemma reapAll_none_exited (slots observed : list Z) :
  Forall (λ status, status ≠ 0) observed →
  (reapAll slots observed).1 = slots.
Proof.
  revert observed. induction slots as [|x rest IH]; intros observed Hobs; [done|].
  destruct (decide (x = 0)) as [->|Hx].
  - rewrite reapAll_empty_slot. cbn [fst]. f_equal. by apply IH.
  - destruct observed as [|status later].
    + by rewrite reapAll_unobserved by done.
    + rewrite reapAll_checked_slot by done. cbn [fst].
      inversion Hobs as [|? ? Hs Hlater]; subst.
      apply Z.eqb_neq in Hs. rewrite Hs. f_equal. by apply IH.
Qed.

Lemma update_table_ok st (count : Z) (st' : shell sys) :
  table_ok st → updateBackgroundProcess st = (count, st') → table_ok st'.
Proof.
  intros Hok Hup.
  destruct (update_reapAll st count st' Hok Hup) as (checks & _ & _ & H3 & _ & H5 & _).
  destruct Hok as [Hids Hnames]. split.
  - by rewrite H3, reapAll_fst_length.
  - by rewrite H5.
Qed.

(** *** The insertion loop *)

Lemma add_loop_table_ok (n i : nat) (p_pid p_cmdName : Z) st :
  table_ok st → table_ok (add_loop n i p_pid p_cmdName st).
Proof.
  revert i st. induction n as [|n IH]; intros i st Hok; [done|].
  cbn [add_loop]. unfold add_slot.
  destruct (bProcessIds st !! i) as [id|]; [|by apply IH].
  destruct (id =? 0); [|by apply IH].
  destruct Hok as [Hids Hnames].
  split; cbn [emit set_names set_ids bProcessIds bProcessNames];
    by rewrite length_insert.
Qed.

(** With every slot from [i] on occupied the loop runs off the end of the
    table and nothing is stored or printed. *)
Lemma add_loop_full (n i : nat) (p_pid p_cmdName : Z) st :
  Forall (λ id, id ≠ 0) (drop i (bProcessIds st)) →
  add_loop n i p_pid p_cmdName st = st.
Proof.
  revert i. induction n as [|n IH]; intros i Hfull; [done|].
  cbn [add_loop]. unfold add_slot.
  destruct (bProcessIds st !! i) as [id|] eqn:Hid.
  - rewrite (drop_S _ _ _ Hid) in Hfull.
    inversion Hfull as [|? ? Hne Hrest]; subst.
    apply Z.eqb_neq in Hne. rewrite Hne. by apply IH.
  - apply IH. rewrite drop_ge; [constructor|].
    apply lookup_ge_None in Hid. lia.
Qed.

(** Otherwise the first empty slot at or after [i] receives the job. *)
Lemma add_loop_first_empty (n i : nat) (p_pid p_cmdName : Z) st (before after : list Z) :
  drop i (bProcessIds st) = before ++ 0 :: after →
  Forall (λ id, id ≠ 0) before →
  (length before < n)%nat →
  add_loop n i p_pid p_cmdName st =
  emit (EvStdout (added_text (i + length before) p_pid))
    (set_names (<[(i + length before)%nat := p_cmdName]> (bProcessNames st))
      (set_ids (<[(i + length before)%nat := p_pid]> (bProcessIds st)) st)).
Proof.
  revert i before. induction n as [|n IH]; intros i before Hdrop Hbefore Hn; [lia|].
  cbn [add_loop]. unfold add_slot.
  destruct before as [|id before].
  - simpl in Hdrop.
    assert (Hid : bProcessIds st !! i = Some 0).
    { rewrite <- (Nat.add_0_r i), <- lookup_drop, Hdrop. done. }
    rewrite Hid. simpl. by rewrite Nat.add_0_r.
  - assert (Hid : bProcessIds st !! i = Some id).
    { rewrite <- (Nat.add_0_r i), <- lookup_drop, Hdrop. done. }
    rewrite Hid.
    inversion Hbefore as [|? ? Hne Hrest]; subst.
    assert (Hnext : drop (S i) (bProcessIds st) = before ++ 0 :: after).
    { rewrite (drop_S _ _ _ Hid) in Hdrop. by injection Hdrop. }
    simpl in Hn.
    apply Z.eqb_neq in Hne. rewrite Hne.
    rewrite (IH (S i) before Hnext Hrest) by lia.
    replace (S i + length before)%nat with (i + length (id :: before))%nat
      by (simpl; lia).
    done.
Qed.

(** *** The listing loop *)

Lemma list_loop_entries (n i : nat) st :
  length (bProcessIds st) = (i + n)%nat →
  length (bProcessNames st) = length (bProcessIds st) →
  list_loop n i st =
  Shell (bProcessIds st) (bProcessNames st) (mem st) (os st)
    (trace st ++
     ((λ e, EvStdout (job_line (mem st) e)) <$>
        entries_from i (drop i (bProcessIds st)) (drop i (bProcessNames st)))).
Proof.
  revert i st. induction n as [|n IH]; intros i st Hlen Hnames.
  - simpl. rewrite drop_ge by lia. simpl. rewrite app_nil_r. by destruct st.
  - destruct (lookup_lt_is_Some_2 (bProcessIds st) i) as [id Hid]; [lia|].
    destruct (lookup_lt_is_Some_2 (bProcessNames st) i) as [name Hname]; [lia|].
    rewrite (drop_S _ _ _ Hid), (drop_S _ _ _ Hname).
    cbn [list_loop entries_from]. unfold list_slot. rewrite Hid, Hname.
    destruct (id =? 0).
    + apply IH; [lia|done].
    + rewrite IH; [|simpl; lia|done].
      cbn [emit bProcessIds bProcessNames mem os trace fmap list_fmap default].
      rewrite <- app_assoc. done.
Qed.

(** *** The three operations *)

Lemma add_unfold (p_pid p_cmdName : Z) st :
  addBackgroundProcess p_pid p_cmdName st =
  add_loop BACKGROUND_PROCESS 0 p_pid p_cmdName (updateBackgroundProcess st).2.
Proof. unfold addBackgroundProcess. by destruct (updateBackgroundProcess st). Qed.

Lemma list_unfold st :
  listBackgroundProcess st = list_loop BACKGROUND_PROCESS 0 (updateBackgroundProcess st).2.
Proof. unfold listBackgroundProcess. by destruct (updateBackgroundProcess st). Qed.

(* From here on the three operations are used through the equations above. *)
#[local] Opaque updateBackgroundProcess addBackgroundProcess listBackgroundProcess.

(** The listing prints one line for every entry the reap pass left. *)
Lemma list_entries st (count : Z) (st' : shell sys) :
  table_ok st →
  updateBackgroundProcess st = (count, st') →
  listBackgroundProcess st =
  Shell (bProcessIds st') (bProcessNames st') (mem st') (os st')
        (trace st' ++ ((λ e, EvStdout (job_line (mem st) e)) <$> entries st')).
Proof.
  intros Hok Hup. rewrite list_unfold, Hup. cbn [snd].
  pose proof (update_table_ok st count st' Hok Hup) as [Hids Hnames].
  destruct (update_reapAll st count st' Hok Hup) as (checks & _ & _ & _ & _ & _ & Hmem).
  rewrite list_loop_entries; [|by rewrite Hids|by rewrite Hids, Hnames].
  rewrite !drop_0, Hmem. reflexivity.
Qed.

Lemma add_table_ok (p_pid p_cmdName : Z) st :
  table_ok st → table_ok (addBackgroundProcess p_pid p_cmdName st).
Proof.
  intros Hok. rewrite add_unfold.
  destruct (updateBackgroundProcess st) as [count st'] eqn:Hup. cbn [snd].
  apply add_loop_table_ok. by apply (update_table_ok st count st').
Qed.

Lemma list_table_ok st : table_ok st → table_ok (listBackgroundProcess st).
Proof.
  intros Hok.
  destruct (updateBackgroundProcess st) as [count st'] eqn:Hup.
  rewrite (list_entries st count st' Hok Hup).
  destruct (update_table_ok st count st' Hok Hup) as [Hids Hnames].
  split; cbn [bProcessIds bProcessNames]; assumption.
Qed.

Lemma run_op_table_ok (op : registry_op sys) st : table_ok st → table_ok (run_op op st).
Proof.
  intros Hok. destruct op; cbn [run_op].
  - by apply add_table_ok.
  - by apply list_table_ok.
  - destruct (updateBackgroundProcess st) as [count st'] eqn:Hup. cbn [snd].
    by apply (update_table_ok st count st').
  - exact Hok.
Qed.

Lemma run_ops_table_ok (ops : list (registry_op sys)) st :
  table_ok st → table_ok (run_ops ops st).
Proof.
  revert st. induction ops as [|op ops IH]; intros st Hok; [exact Hok|].
  apply IH. by apply run_op_table_ok.
Qed.

Lemma occupied_all (ids : list Z) :
  length (occupied ids) = length ids → Forall (λ id, id ≠ 0) ids.
Proof.
  induction ids as [|id rest IH]; [constructor|].
  pose proof (occupied_length_le rest) as Hle.
  destruct (decide (id = 0)) as [->|Hid].
  - rewrite occupied_empty_slot. simpl. lia.
  - rewrite occupied_full_slot by done. simpl. intros Hlen.
    constructor; [done|]. apply IH. lia.
Qed.

(** C2: the reap pass makes, for every occupied slot and in slot order,
    one waitpid call with WNOHANG on the pid of that slot, and no other
    call: [checks] holds what these calls returned and the statuses read
    after them, and the environment is left as the last call left it.  A
    slot is cleared when the status read for it is zero and keeps its pid
    when it is not; empty slots stay empty; the value returned is the number
    of checks that read a status other than zero.  In short, the pass is the
    [reapAll] of the specification run on the statuses it read. *)
Theorem reap_pass_checks_every_job st (checks : list (Z * Z)) (s' : sys) :
  table_ok st →
  check_all (occupied (bProcessIds st)) (os st) = (checks, s') →
  length checks = live st ∧
  os (updateBackgroundProcess st).2 = s' ∧
  trace (updateBackgroundProcess st).2 =
    trace st ++ zip_with check_event (occupied (bProcessIds st)) checks ∧
  (∀ i id, bProcessIds st !! i = Some id → id ≠ 0 →
     ∃ ret status,
       checks !! length (occupied (take i (bProcessIds st))) = Some (ret, status) ∧
       (status = 0 → bProcessIds (updateBackgroundProcess st).2 !! i = Some 0) ∧
       (status ≠ 0 → bProcessIds (updateBackgroundProcess st).2 !! i = Some id)) ∧
  (∀ i, bProcessIds st !! i = Some 0 →
     bProcessIds (updateBackgroundProcess st).2 !! i = Some 0) ∧
  (updateBackgroundProcess st).1 =
    Z.of_nat (length (filter (λ status, status ≠ 0) checks.*2)) ∧
  (bProcessIds (updateBackgroundProcess st).2, (updateBackgroundProcess st).1) =
    reapAll (bProcessIds st) checks.*2.
Proof.
  intros Hok Hca.
  destruct (updateBackgroundProcess st) as [count st'] eqn:Hup. cbn [fst snd].
  destruct (update_checked st count st' checks s' Hok Hup Hca)
    as (H1 & H2 & H3 & H4 & _ & _ & H7).
  assert (Hlen : length checks.*2 = length (occupied (bProcessIds st))).
  { by rewrite length_fmap. }
  split; [done|]. split; [done|]. split; [done|]. split; [|split; [|split]].
  - intros i id Hid Hne.
    destruct (reapAll_checked _ _ i id Hlen Hid Hne) as (status & Hstatus & Hslot).
    rewrite list_lookup_fmap in Hstatus.
    destruct (checks !! length (occupied (take i (bProcessIds st)))) as [[ret status']|] eqn:Hc;
      [|done].
    simpl in Hstatus. injection Hstatus as ->.
    exists ret, status. split; [done|]. rewrite H3, Hslot. split.
    + intros ->. done.
    + intros Hs. apply Z.eqb_neq in Hs. by rewrite Hs.
  - intros i Hid. rewrite H3. by apply reapAll_empty_stays.
  - rewrite H4. by apply reapAll_count_checks.
  - rewrite H3, H4. by destruct (reapAll (bProcessIds st) checks.*2).
Qed.

(** C10: a slot that holds a job after the reap pass held the same pid
    before it; the array of names and the character storage are not
    touched; the table holds no more jobs than before; and the value
    returned is the number of jobs the table holds after the pass. *)
Theorem reap_pass_only_removes st :
  table_ok st →
  (∀ i id, bProcessIds (updateBackgroundProcess st).2 !! i = Some id → id ≠ 0 →
     bProcessIds st !! i = Some id) ∧
  bProcessNames (updateBackgroundProcess st).2 = bProcessNames st ∧
  mem (updateBackgroundProcess st).2 = mem st ∧
  (live (updateBackgroundProcess st).2 ≤ live st)%nat ∧
  (updateBackgroundProcess st).1 = Z.of_nat (live (updateBackgroundProcess st).2).
Proof.
  intros Hok.
  destruct (updateBackgroundProcess st) as [count st'] eqn:Hup. cbn [fst snd].
  destruct (update_reapAll st count st' Hok Hup) as (checks & H1 & H2 & H3 & H4 & H5 & H6).
  unfold live. rewrite H3, H4.
  split; [|split; [done|split; [done|split]]].
  - intros i id. apply reapAll_kept.
  - apply reapAll_live_le.
  - apply reapAll_count_left. by rewrite length_fmap.
Qed.

(** C1, as the code has it: whatever registry operations are run, with the
    environment moving on between them in any way, both arrays keep their
    ten slots and the table holds at most ten jobs.  An add whose own reap
    pass leaves all ten slots occupied stores nothing and prints nothing: it ends
    in the state its reap pass produced, the ids and the names are those of
    before the call, and the only new log entries are the status checks. *)
Theorem table_capacity (ops : list (registry_op sys)) (p_pid p_cmdName : Z) st :
  table_ok st →
  table_ok (run_ops ops st) ∧
  (live (run_ops ops st) ≤ BACKGROUND_PROCESS)%nat ∧
  (live (updateBackgroundProcess (run_ops ops st)).2 = BACKGROUND_PROCESS →
   addBackgroundProcess p_pid p_cmdName (run_ops ops st) =
     (updateBackgroundProcess (run_ops ops st)).2 ∧
   bProcessIds (addBackgroundProcess p_pid p_cmdName (run_ops ops st)) =
     bProcessIds (run_ops ops st) ∧
   bProcessNames (addBackgroundProcess p_pid p_cmdName (run_ops ops st)) =
     bProcessNames (run_ops ops st) ∧
   live (addBackgroundProcess p_pid p_cmdName (run_ops ops st)) = live (run_ops ops st) ∧
   ∃ checks : list (Z * Z),
     trace (addBackgroundProcess p_pid p_cmdName (run_ops ops st)) =
       trace (run_ops ops st) ++
       zip_with check_event (occupied (bProcessIds (run_ops ops st))) checks).
Proof.
  intros Hok0.
  pose proof (run_ops_table_ok ops st Hok0) as Hok.
  generalize dependent (run_ops ops st). clear st Hok0. intros st Hok.
  split; [exact Hok|]. split.
  { unfold live. destruct Hok as [Hids _]. rewrite <- Hids. apply occupied_length_le. }
  rewrite add_unfold.
  destruct (updateBackgroundProcess st) as [count st'] eqn:Hup. cbn [fst snd].
  intros Hfull.
  destruct (update_reapAll st count st' Hok Hup) as (checks & H1 & H2 & H3 & H4 & H5 & H6).
  destruct Hok as [Hids Hnames].
  assert (Hsame : bProcessIds st' = bProcessIds st).
  { rewrite H3. apply reapAll_full. unfold live in Hfull. rewrite H3 in Hfull. congruence. }
  assert (Hadd : add_loop BACKGROUND_PROCESS 0 p_pid p_cmdName st' = st').
  { apply add_loop_full. rewrite drop_0.
    apply occupied_all. unfold live in Hfull. rewrite Hfull, Hsame. done. }
  rewrite Hadd. split; [done|]. split; [done|]. split; [done|]. split.
  - unfold live. by rewrite Hsame.
  - by exists checks.
Qed.

(** *** Launches in a row *)

Lemma no_exit_seen_app (evs1 evs2 : list event) :
  no_exit_seen (evs1 ++ evs2) ↔ no_exit_seen evs1 ∧ no_exit_seen evs2.
Proof. apply Forall_app. Qed.

Lemma checks_all_running (occ : list Z) (checks : list (Z * Z)) :
  length checks = length occ →
  no_exit_seen (zip_with check_event occ checks) →
  Forall (λ status, status ≠ 0) checks.*2.
Proof.
  revert checks. induction occ as [|id occ IH]; intros [|[ret status] checks] Hlen Hseen;
    try done; try constructor.
  - inversion Hseen; subst. done.
  - apply IH; [simpl in Hlen; lia|]. by inversion Hseen.
Qed.

(** A reap pass in which no check saw the status zero leaves the table as
    it was. *)
Lemma update_none_exited st (count : Z) (st' : shell sys) :
  table_ok st →
  updateBackgroundProcess st = (count, st') →
  no_exit_seen (trace st') →
  bProcessIds st' = bProcessIds st ∧ bProcessNames st' = bProcessNames st ∧
  mem st' = mem st ∧
  ∃ checks : list (Z * Z),
    trace st' = trace st ++ zip_with check_event (occupied (bProcessIds st)) checks.
Proof.
  intros Hok Hup Hseen.
  destruct (update_reapAll st count st' Hok Hup) as (checks & H1 & H2 & H3 & H4 & H5 & H6).
  rewrite H2 in Hseen. apply no_exit_seen_app in Hseen as [_ Hseen].
  split; [|split; [done|split; [done|by exists checks]]].
  rewrite H3. apply reapAll_none_exited.
  by apply (checks_all_running (occupied (bProcessIds st))).
Qed.

Lemma add_loop_extends (n i : nat) (p_pid p_cmdName : Z) st :
  ∃ evs, trace (add_loop n i p_pid p_cmdName st) = trace st ++ evs.
Proof.
  revert i. induction n as [|n IH]; intros i.
  - exists []. simpl. by rewrite app_nil_r.
  - cbn [add_loop]. unfold add_slot.
    destruct (bProcessIds st !! i) as [id|]; [|apply IH].
    destruct (id =? 0); [|apply IH].
    by exists [EvStdout (added_text i p_pid)].
Qed.

Lemma add_extends (p_pid p_cmdName : Z) st :
  table_ok st →
  ∃ evs, trace (addBackgroundProcess p_pid p_cmdName st) = trace st ++ evs.
Proof.
  intros Hok. rewrite add_unfold.
  destruct (updateBackgroundProcess st) as [count st'] eqn:Hup. cbn [snd].
  destruct (update_reapAll st count st' Hok Hup) as (checks & _ & H2 & _).
  destruct (add_loop_extends BACKGROUND_PROCESS 0 p_pid p_cmdName st') as [evs Hevs].
  rewrite Hevs, H2, <- app_assoc. by eexists.
Qed.

Lemma launch_all_extends (launches : list (Z * Z)) st :
  table_ok st →
  ∃ evs, trace (launch_all launches st) = trace st ++ evs.
Proof.
  revert st. induction launches as [|[p_pid p_cmdName] launches IH]; intros st Hok.
  - exists []. simpl. by rewrite app_nil_r.
  - cbn [launch_all foldl fst snd].
    destruct (IH (addBackgroundProcess p_pid p_cmdName st)) as [evs2 H2];
      [by apply add_table_ok|].
    destruct (add_extends p_pid p_cmdName st Hok) as [evs1 H1].
    unfold launch_all in H2. rewrite H2, H1, <- app_assoc. by eexists.
Qed.

Lemma launch_all_table_ok (launches : list (Z * Z)) st :
  table_ok st → table_ok (launch_all launches st).
Proof.
  revert st. induction launches as [|[p_pid p_cmdName] launches IH]; intros st Hok;
    [exact Hok|].
  apply IH. by apply add_table_ok.
Qed.

(** An add during which no check saw the status zero puts the job into
    the first empty slot of the table as it was before the call. *)
Lemma add_first_empty (p_pid p_cmdName : Z) st (before after : list Z) :
  table_ok st →
  bProcessIds st = before ++ 0 :: after →
  Forall (λ id, id ≠ 0) before →
  no_exit_seen (trace (addBackgroundProcess p_pid p_cmdName st)) →
  bProcessIds (addBackgroundProcess p_pid p_cmdName st) = before ++ p_pid :: after ∧
  bProcessNames (addBackgroundProcess p_pid p_cmdName st) =
    <[length before := p_cmdName]> (bProcessNames st) ∧
  mem (addBackgroundProcess p_pid p_cmdName st) = mem st.
Proof.
  intros Hok Hids Hbefore. rewrite add_unfold.
  destruct (updateBackgroundProcess st) as [count st'] eqn:Hup. cbn [snd].
  intros Hseen.
  destruct (add_loop_extends BACKGROUND_PROCESS 0 p_pid p_cmdName st') as [evs Hevs].
  rewrite Hevs in Hseen. apply no_exit_seen_app in Hseen as [Hseen _].
  destruct (update_none_exited st count st' Hok Hup Hseen) as (Hi & Hn & Hm & _).
  assert (Hlt : (length before < BACKGROUND_PROCESS)%nat).
  { destruct Hok as [Hlen _]. rewrite Hids, length_app in Hlen. simpl in Hlen. lia. }
  rewrite (add_loop_first_empty _ _ _ _ _ before after); [|by rewrite drop_0, Hi|done|done].
  cbn [emit set_names set_ids bProcessIds bProcessNames mem plus].
  rewrite Hi, Hn, Hm, Hids. split; [|done].
  rewrite insert_app_r_alt by lia. by rewrite Nat.sub_diag.
Qed.

Lemma launch_all_fills (launches : list (Z * Z)) :
  ∀ st (filled named rest : list Z),
    table_ok st →
    bProcessIds st = filled ++ replicate (BACKGROUND_PROCESS - length filled) 0 →
    Forall (λ id, id ≠ 0) filled →
    bProcessNames st = named ++ rest →
    length named = length filled →
    (length filled + length launches ≤ BACKGROUND_PROCESS)%nat →
    Forall (λ l, l.1 ≠ 0) launches →
    no_exit_seen (trace (launch_all launches st)) →
    bProcessIds (launch_all launches st) =
      filled ++ launches.*1 ++
      replicate (BACKGROUND_PROCESS - length filled - length launches) 0 ∧
    bProcessNames (launch_all launches st) =
      named ++ launches.*2 ++ drop (length launches) rest ∧
    mem (launch_all launches st) = mem st.
Proof.
  induction launches as [|[p_pid p_cmdName] launches IH];
    intros st filled named rest Hok Hids Hfilled Hnames Hlen Hroom Hpids Hseen.
  - simpl. rewrite Nat.sub_0_r, drop_0. done.
  - cbn [launch_all foldl fst snd length] in *.
    fold (launch_all launches (addBackgroundProcess p_pid p_cmdName st)) in *.
    inversion Hpids as [|? ? Hpid Hrest]; subst. cbn [fst] in Hpid.
    pose proof (add_table_ok p_pid p_cmdName st Hok) as Hok1.
    assert (Hseen1 : no_exit_seen (trace (addBackgroundProcess p_pid p_cmdName st))).
    { destruct (launch_all_extends launches _ Hok1) as [evs Hevs].
      rewrite Hevs in Hseen. by apply no_exit_seen_app in Hseen as [? _]. }
    assert (Hsplit : (BACKGROUND_PROCESS - length filled)%nat =
                     S (BACKGROUND_PROCESS - length filled - 1)) by lia.
    rewrite Hsplit in Hids. cbn [replicate] in Hids.
    destruct (add_first_empty p_pid p_cmdName st filled _ Hok Hids Hfilled Hseen1)
      as (Hi & Hn & Hm).
    assert (Hrest_len : (0 < length rest)%nat).
    { destruct Hok as [Hl1 Hl2]. rewrite Hnames, length_app in Hl2. lia. }
    destruct rest as [|old rest]; [simpl in Hrest_len; lia|].
    destruct (IH (addBackgroundProcess p_pid p_cmdName st)
                 (filled ++ [p_pid]) (named ++ [p_cmdName]) rest) as (Ji & Jn & Jm).
    + done.
    + rewrite Hi, <- app_assoc, length_app. cbn [app length].
      by replace (BACKGROUND_PROCESS - (length filled + 1))%nat
        with (BACKGROUND_PROCESS - length filled - 1)%nat by lia.
    + apply Forall_app. split; [done|]. by constructor.
    + rewrite Hn, Hnames, <- Hlen, <- app_assoc.
      rewrite insert_app_r_alt by lia. by rewrite Nat.sub_diag.
    + rewrite !length_app. simpl. lia.
    + rewrite length_app. simpl. lia.
    + done.
    + done.
    + rewrite Ji, Jn, Jm, Hm, <- !app_assoc, length_app. cbn [app length fmap list_fmap fst snd drop].
      split; [|done].
      by replace (BACKGROUND_PROCESS - (length filled + 1) - length launches)%nat
        with (BACKGROUND_PROCESS - length filled - S (length launches))%nat by lia.
Qed.

Lemma entries_from_empty (i m : nat) (names : list Z) :
  entries_from i (replicate m 0) names = [].
Proof.
  revert i names. induction m as [|m IH]; intros i [|name names]; simpl; try done.
Qed.

Lemma entries_from_numbered (i m : nat) (launches : list (Z * Z)) (rest : list Z) :
  Forall (λ l, l.1 ≠ 0) launches →
  entries_from i (launches.*1 ++ replicate m 0) (launches.*2 ++ rest) =
  numbered i launches.
Proof.
  revert i. induction launches as [|[p_pid p_cmdName] launches IH]; intros i Hpids.
  - simpl. apply entries_from_empty.
  - inversion Hpids as [|? ? Hpid Hrest]; subst. cbn [fst] in Hpid.
    apply Z.eqb_neq in Hpid. simpl. rewrite Hpid. f_equal. by apply IH.
Qed.

Lemma numbered_slots (i : nat) (launches : list (Z * Z)) :
  (λ e, e.1.1) <$> numbered i launches = seq i (length launches).
Proof.
  revert i. induction launches as [|l launches IH]; intros i; [done|].
  simpl. f_equal. apply IH.
Qed.

Lemma numbered_length (i : nat) (launches : list (Z * Z)) :
  length (numbered i launches) = length launches.
Proof.
  revert i. induction launches as [|l launches IH]; intros i; [done|].
  simpl. f_equal. apply IH.
Qed.

Lemma occupied_launched (m : nat) (launches : list (Z * Z)) :
  Forall (λ l, l.1 ≠ 0) launches →
  occupied (launches.*1 ++ replicate m 0) = launches.*1.
Proof.
  induction launches as [|[p_pid p_cmdName] launches IH]; intros Hpids.
  - simpl. induction m as [|m IHm]; [done|]. simpl. done.
  - inversion Hpids as [|? ? Hpid Hrest]; subst. cbn [fst] in Hpid.
    simpl. apply Z.eqb_neq in Hpid. rewrite Hpid. f_equal. by apply IH.
Qed.

(** Launches in a row where every status check reads a value other than
    zero: take at most ten background launches, each a pid other than zero,
    added one after the other to the empty table, and then a listing, and
    suppose that no status check made on the way saw the status zero (no
    job was taken for finished; for a process that has not changed state
    that status is what the uninitialised [status] holds).  Then the table holds exactly one entry per
    launch, the k-th launch in slot k with its pid and its name pointer, so
    all in different slots, and the listing prints exactly the lines of
    these entries, in slot order, after checking each of them once. *)
Theorem launches_are_listed (launches : list (Z * Z)) st :
  table_ok st →
  bProcessIds st = replicate BACKGROUND_PROCESS 0 →
  (length launches ≤ BACKGROUND_PROCESS)%nat →
  Forall (λ l, l.1 ≠ 0) launches →
  no_exit_seen (trace (listBackgroundProcess (launch_all launches st))) →
  entries (launch_all launches st) = numbered 0 launches ∧
  length (entries (launch_all launches st)) = length launches ∧
  NoDup ((λ e, e.1.1) <$> entries (launch_all launches st)) ∧
  ∃ checks : list (Z * Z),
    length checks = length launches ∧
    trace (listBackgroundProcess (launch_all launches st)) =
      trace (launch_all launches st) ++
      zip_with check_event launches.*1 checks ++
      ((λ e, EvStdout (job_line (mem st) e)) <$> numbered 0 launches).
Proof.
  intros Hok Hempty Hroom Hpids Hseen.
  pose proof (launch_all_table_ok launches st Hok) as Hok1.
  destruct (updateBackgroundProcess (launch_all launches st)) as [count st2] eqn:Hup.
  rewrite (list_entries _ count st2 Hok1 Hup) in Hseen |- *.
  cbn [trace] in Hseen |- *.
  apply no_exit_seen_app in Hseen as [Hseen2 _].
  destruct (update_reapAll _ count st2 Hok1 Hup) as (checks & Hc1 & Hc2 & _).
  destruct (update_none_exited _ count st2 Hok1 Hup Hseen2) as (Hi2 & Hn2 & Hm2 & _).
  assert (Hseen1 : no_exit_seen (trace (launch_all launches st))).
  { rewrite Hc2 in Hseen2. by apply no_exit_seen_app in Hseen2 as [? _]. }
  destruct (launch_all_fills launches st [] [] (bProcessNames st))
    as (Hi & Hn & Hm); try done.
  simpl in Hi, Hn.
  assert (Hentries : entries (launch_all launches st) = numbered 0 launches).
  { unfold entries. rewrite Hi, Hn. by apply entries_from_numbered. }
  assert (Hentries2 : entries st2 = numbered 0 launches).
  { unfold entries. rewrite Hi2, Hn2. exact Hentries. }
  assert (Hslots : (λ e : nat * Z * Z, e.1.1) <$> numbered 0 launches =
                   seq 0 (length launches)) by apply numbered_slots.
  split; [done|]. split; [|split].
  - rewrite Hentries. apply numbered_length.
  - rewrite Hentries, Hslots. apply NoDup_seq.
  - exists checks. unfold live in Hc1.
    rewrite Hi, occupied_launched in Hc1, Hc2 by done.
    rewrite length_fmap in Hc1. split; [done|].
    rewrite Hc2, Hentries2, Hm, <- app_assoc. done.
Qed.

(** The [exit] command: main lists the jobs and runs one more reap pass;
    the count of that pass is the number of jobs it leaves in the table.
    main returns, with value 0, exactly when that number is zero; otherwise
    it prints the number and goes back to the prompt. *)
Theorem exit_refused_while_jobs_live (cmdc : nat) (cmd : list Z) (p : Z) st :
  table_ok st →
  cmd !! 0%nat = Some p → p ≠ 0 → cstring st p = "exit" →
  ∃ (bCount : Z) (st2 : shell sys),
    updateBackgroundProcess (listBackgroundProcess st) = (bCount, st2) ∧
    bCount = Z.of_nat (live st2) ∧
    (live st2 = 0%nat ↔ main_iteration cmdc cmd st = MainReturn 0 st2) ∧
    ((0 < live st2)%nat ↔
       main_iteration cmdc cmd st =
       Next (emit (EvStdout (still_running_text (Z.of_nat (live st2)))) st2)) ∧
    (∀ code st_end, main_iteration cmdc cmd st = MainReturn code st_end →
       code = 0 ∧ st_end = st2 ∧ live st2 = 0%nat).
Proof.
  intros Hok Hcmd Hp Hexit.
  pose proof (list_table_ok st Hok) as Hok1.
  unfold main_iteration. rewrite Hcmd. cbv zeta. cbn [from_option id].
  apply Z.eqb_neq in Hp. rewrite Hp, Hexit, String.eqb_refl.
  destruct (updateBackgroundProcess (listBackgroundProcess st)) as [bCount st2] eqn:Hup.
  destruct (update_reapAll _ bCount st2 Hok1 Hup) as (checks & H1 & _ & H3 & H4 & _ & _).
  assert (Hcount : bCount = Z.of_nat (live st2)).
  { unfold live. rewrite H3, H4. apply reapAll_count_left. by rewrite length_fmap. }
  exists bCount, st2. split; [done|]. split; [done|].
  destruct (bCount =? 0) eqn:Hz.
  - apply Z.eqb_eq in Hz. split; [|split].
    + split; [done|lia].
    + split; [lia|done].
    + intros code st_end [= <- <-]. split; [done|]. split; [done|lia].
  - apply Z.eqb_neq in Hz. split; [|split].
    + split; [lia|done].
    + split; [intros _; by rewrite Hcount|lia].
    + done.
Qed.

End Registry.

(** * The cd built-in *)

Section ChangeDirectory.
Context {sys : Type} `{!OS sys}.
Implicit Types st : shell sys.

Lemma cd_message_cases (err : Z) :
  (err = ENOENT →
   cd_message err = "A component of the path does not name an existing directory") ∧
  (err = EACCES →
   cd_message err = "Search permission are denied for any component of the pathname.") ∧
  (err = ENOTDIR → cd_message err = "A component of the path is not a directory.") ∧
  (err ≠ ENOENT → err ≠ EACCES → err ≠ ENOTDIR → cd_message err = "Unhandled error.").
Proof.
  unfold cd_message. repeat split.
  - by intros ->.
  - by intros ->.
  - by intros ->.
  - intros H1 H2 H3.
    apply Z.eqb_neq in H1, H2, H3. by rewrite H1, H2, H3.
Qed.

Lemma append_inv_head (s a b : string) : s +:+ a = s +:+ b → a = b.
Proof. induction s as [|c s IH]; simpl; [done|]. intros [= H]. by apply IH. Qed.

Lemma append_inv_last (a b : string) (c : ascii) :
  a +:+ String c EmptyString = b +:+ String c EmptyString → a = b.
Proof.
  revert b. induction a as [|x a IH]; intros [|y b]; simpl; intros H.
  - done.
  - injection H as _ H. by destruct b.
  - injection H as _ H. by destruct a.
  - injection H as -> H. f_equal. by apply IH.
Qed.

Lemma cd_error_text_inj (path msg1 msg2 : string) :
  cd_error_text path msg1 = cd_error_text path msg2 → msg1 = msg2.
Proof.
  unfold cd_error_text. intros H.
  do 6 apply append_inv_head in H.
  by apply (append_inv_last _ _ "010"%char) in H.
Qed.

(** C9: when the chdir call of [cd] fails, runBuiltinCd writes one line to
    stderr: Error running builtin, the command [cd] with the path in double
    quotes, a comma, a message and a newline.  The message is chosen by
    errno: the missing-component message for ENOENT, the permission message
    for EACCES, the not-a-directory message for ENOTDIR and the unhandled
    message for every other value; the four lines differ from one another.
    The working directory is the one from before the call, the function
    returns, and main goes back to the prompt. *)
Theorem cd_failure_is_classified (p_path : Z) st :
  p_path ≠ 0 →
  (sys_chdir (cstring st p_path) (os st)).1 ≠ 0 →
  (∃ msg : string,
     trace (runBuiltinCd p_path st) =
       trace st ++
       [EvStderr ("Error running builtin " +:+ dquote +:+ "cd " +:+ cstring st p_path +:+
                  dquote +:+ ", " +:+ msg +:+ nl)] ∧
     (sys_errno (sys_chdir (cstring st p_path) (os st)).2 = ENOENT →
      msg = "A component of the path does not name an existing directory") ∧
     (sys_errno (sys_chdir (cstring st p_path) (os st)).2 = EACCES →
      msg = "Search permission are denied for any component of the pathname.") ∧
     (sys_errno (sys_chdir (cstring st p_path) (os st)).2 = ENOTDIR →
      msg = "A component of the path is not a directory.") ∧
     (sys_errno (sys_chdir (cstring st p_path) (os st)).2 ≠ ENOENT →
      sys_errno (sys_chdir (cstring st p_path) (os st)).2 ≠ EACCES →
      sys_errno (sys_chdir (cstring st p_path) (os st)).2 ≠ ENOTDIR →
      msg = "Unhandled error.")) ∧
  NoDup ((λ msg, "Error running builtin " +:+ dquote +:+ "cd " +:+ cstring st p_path +:+
                 dquote +:+ ", " +:+ msg +:+ nl) <$>
         ["A component of the path does not name an existing directory";
          "Search permission are denied for any component of the pathname.";
          "A component of the path is not a directory.";
          "Unhandled error."]) ∧
  sys_cwd (os (runBuiltinCd p_path st)) = sys_cwd (os st) ∧
  bProcessIds (runBuiltinCd p_path st) = bProcessIds st ∧
  (∀ cmdc cmd p, cmd !! 0%nat = Some p → p ≠ 0 → cstring st p = "cd" →
     cmd !! 1%nat = Some p_path →
     main_iteration cmdc cmd st = Next (runBuiltinCd p_path st)).
Proof.
  intros Hpath Hfail.
  destruct (sys_chdir_failure _ _ Hfail) as [Herrno Hcwd].
  assert (Hrun : runBuiltinCd p_path st =
    emit (EvStderr (cd_error_text (cstring st p_path)
            (cd_message (sys_errno (sys_chdir (cstring st p_path) (os st)).2))))
         (set_os (sys_chdir (cstring st p_path) (os st)).2 st)).
  { unfold runBuiltinCd. apply Z.eqb_neq in Hpath. rewrite Hpath.
    destruct (sys_chdir (cstring st p_path) (os st)) as [ret s1]. cbn [snd] in *.
    apply Z.eqb_neq in Herrno. by rewrite Herrno. }
  split; [|split; [|split; [|split]]].
  - exists (cd_message (sys_errno (sys_chdir (cstring st p_path) (os st)).2)).
    split; [by rewrite Hrun|]. apply cd_message_cases.
  - assert (Hinj : Inj (=) (=) (cd_error_text (cstring st p_path))).
    { intros msg1 msg2. apply cd_error_text_inj. }
    apply (NoDup_fmap_2 (cd_error_text (cstring st p_path))).
    apply (bool_decide_unpack _). by vm_compute.
  - by rewrite Hrun.
  - by rewrite Hrun.
  - intros cmdc cmd p Hcmd Hp Hcd Harg.
    unfold main_iteration. rewrite Hcmd, Harg. cbv zeta. cbn [from_option id].
    apply Z.eqb_neq in Hp. rewrite Hp, Hcd. reflexivity.
Qed.

End ChangeDirectory.



(** * Job names *)

Section Names.
Context {sys : Type} `{!OS sys}.
Implicit Types st : shell sys.

Lemma entries_from_lookup (i j : nat) (ids names : list Z) (id name : Z) :
  ids !! j = Some id → id ≠ 0 → names !! j = Some name →
  (i + j, id, name)%nat ∈ entries_from i ids names.
Proof.
  revert i j names. induction ids as [|x ids IH]; intros i j names Hid Hne Hname; [done|].
  destruct names as [|y names]; [done|].
  destruct j as [|j]; simpl in Hid, Hname.
  - injection Hid as ->. injection Hname as ->.
    simpl. apply Z.eqb_neq in Hne. rewrite Hne, Nat.add_0_r. apply list_elem_of_here.
  - simpl. replace (i + S j)%nat with (S i + j)%nat by lia.
    destruct (x =? 0); [|apply list_elem_of_further]; by apply IH.
Qed.

(** C8, as the code has it: add stores the pointer it is given in the
    first empty slot and copies no text.  A later listing prints, for every
    entry left by its reap pass whose name pointer is null or points to a
    string, one line with the slot, the pid and the text found at the
    pointer in the storage as it is when the listing runs.  For a job added
    under a pointer that is not null the line is tab, tab, the slot in
    brackets, the pid, tab, the text the storage then holds at the pointer,
    newline; it shows the program name whenever the storage at the pointer
    still holds what it held when the job was added. *)
Theorem stored_name_is_the_pointer (p_pid p_cmdName : Z) (m' : gmap Z string) st
    (count : Z) (st' : shell sys) (before after : list Z) :
  table_ok st →
  p_pid ≠ 0 →
  p_cmdName ≠ 0 →
  updateBackgroundProcess st = (count, st') →
  bProcessIds st' = before ++ 0 :: after →
  Forall (λ id, id ≠ 0) before →
  bProcessIds (addBackgroundProcess p_pid p_cmdName st) !! length before = Some p_pid ∧
  bProcessNames (addBackgroundProcess p_pid p_cmdName st) !! length before = Some p_cmdName ∧
  mem (addBackgroundProcess p_pid p_cmdName st) = mem st ∧
  ∀ (count2 : Z) (st3 : shell sys),
    updateBackgroundProcess (set_mem m' (addBackgroundProcess p_pid p_cmdName st)) =
      (count2, st3) →
    (names_readable m' (entries st3) →
     trace (listBackgroundProcess (set_mem m' (addBackgroundProcess p_pid p_cmdName st))) =
       trace st3 ++ ((λ e, EvStdout (job_line m' e)) <$> entries st3)) ∧
    (bProcessIds st3 !! length before = Some p_pid →
     (length before, p_pid, p_cmdName) ∈ entries st3 ∧
     (∀ text : string, m' !! p_cmdName = Some text →
        job_line m' (length before, p_pid, p_cmdName) =
          tab +:+ tab +:+ "[" +:+ dec (Z.of_nat (length before)) +:+ "] " +:+ dec p_pid +:+
          tab +:+ text +:+ nl) ∧
     (∀ text : string, mem st !! p_cmdName = Some text →
        m' !! p_cmdName = mem st !! p_cmdName →
        job_line m' (length before, p_pid, p_cmdName) =
          job_text (length before) p_pid (cstring st p_cmdName))).
Proof.
  intros Hok Hpid Hname Hup Hids Hbefore.
  pose proof (update_table_ok st count st' Hok Hup) as [Hlen1 Hlen2].
  destruct (update_reapAll st count st' Hok Hup) as (_ & _ & _ & _ & _ & _ & Hmem).
  assert (Hlt : (length before < BACKGROUND_PROCESS)%nat).
  { rewrite Hids, length_app in Hlen1. simpl in Hlen1. lia. }
  pose proof (add_table_ok p_pid p_cmdName st Hok) as Hok1.
  assert (Hadd : addBackgroundProcess p_pid p_cmdName st =
    emit (EvStdout (added_text (length before) p_pid))
      (set_names (<[length before := p_cmdName]> (bProcessNames st'))
        (set_ids (<[length before := p_pid]> (bProcessIds st')) st'))).
  { rewrite add_unfold, Hup. cbn [snd].
    by rewrite (add_loop_first_empty _ _ _ _ _ before after); [|rewrite drop_0|..]. }
  generalize dependent (addBackgroundProcess p_pid p_cmdName st).
  intros st1 Hok1 ->.
  cbn [emit set_names set_ids bProcessIds bProcessNames mem].
  split; [apply list_lookup_insert_eq; lia|].
  split; [apply list_lookup_insert_eq; lia|].
  split; [exact Hmem|].
  intros count2 st3 Hup2.
  match type of Hup2 with updateBackgroundProcess ?x = _ => set (st2 := x) in * end.
  assert (Hok2 : table_ok st2) by exact Hok1.
  destruct (update_reapAll st2 count2 st3 Hok2 Hup2) as (_ & _ & _ & _ & _ & Hn3 & _).
  split; [intros _; by rewrite (list_entries st2 count2 st3 Hok2 Hup2)|].
  assert (Hline : job_line m' (length before, p_pid, p_cmdName) =
                  job_text (length before) p_pid (default EmptyString (m' !! p_cmdName))).
  { unfold job_line, printf_s. cbn [fst snd].
    apply Z.eqb_neq in Hname. by rewrite Hname. }
  intros Hslot. split; [|split].
  - apply (entries_from_lookup 0 (length before)); [exact Hslot|exact Hpid|].
    rewrite Hn3. subst st2. cbn [set_mem emit set_names set_ids bProcessNames].
    apply list_lookup_insert_eq. lia.
  - intros text Htext. rewrite Hline, Htext. reflexivity.
  - intros text Htext Hsame. rewrite Hline. unfold cstring. by rewrite Hsame.
Qed.

End Names.

(** * Launching commands and dispatching them *)

Section Dispatch.
Context {sys : Type} `{!OS sys}.
Implicit Types st : shell sys.

#[local] Opaque updateBackgroundProcess addBackgroundProcess listBackgroundProcess.

Lemma statistics_frame (startTime endTime : timeval) st :
  bProcessIds (printChildrenStatistics startTime endTime st) = bProcessIds st ∧
  bProcessNames (printChildrenStatistics startTime endTime st) = bProcessNames st ∧
  mem (printChildrenStatistics startTime endTime st) = mem st ∧
  os (printChildrenStatistics startTime endTime st) = os st.
Proof. done. Qed.

(** A foreground run leaves both arrays of the job table and the character
    storage as they were, however the run ends and in whichever of the
    three processes the code finds itself. *)
Theorem foreground_run_leaves_table (p_cmd : list Z) st :
  bProcessIds (state_of (runCommand p_cmd false st)) = bProcessIds st ∧
  bProcessNames (state_of (runCommand p_cmd false st)) = bProcessNames st ∧
  mem (state_of (runCommand p_cmd false st)) = mem st.
Proof.
  unfold runCommand.
  destruct (sys_fork (os st)) as [pid s1].
  destruct (pid =? -1); [done|].
  destruct (pid =? 0).
  - cbn [set_os os].
    destruct (sys_gettimeofday s1) as [startTime s2]. cbn [set_os os].
    destruct (sys_fork s2) as [childPid s3].
    destruct (childPid =? -1); [done|].
    destruct (childPid =? 0).
    + cbn [set_os os]. destruct (default 0 (p_cmd !! 0%nat) =? 0); [done|].
      by destruct (sys_execvp _ _ s3).
    + cbn [set_os os]. destruct (sys_wait s3) as [[r s4]|]; [|done].
      cbn [emit set_os os]. by destruct (sys_gettimeofday s4).
  - cbn [set_os os]. by destruct (sys_wait s1) as [[r s2]|].
Qed.



(** In the shell itself (fork did not return 0) a background run always
    comes back to the prompt and never calls wait.  When fork failed the
    table is left alone and one line goes to stderr; otherwise the run is
    an add of the pid fork returned, which is neither 0 nor -1, under the
    name pointer [p_cmd[0]]. *)
Theorem background_run_returns_at_once (p_cmd : list Z) st :
  (sys_fork (os st)).1 ≠ 0 →
  ((sys_fork (os st)).1 = -1 →
   runCommand p_cmd true st =
     Next (emit (EvStderr "Couldn't fork the program, please retry.")
             (set_os (sys_fork (os st)).2 st))) ∧
  ((sys_fork (os st)).1 ≠ -1 →
   runCommand p_cmd true st =
     Next (addBackgroundProcess (sys_fork (os st)).1 (default 0 (p_cmd !! 0%nat))
             (set_os (sys_fork (os st)).2 st))) ∧
  (table_ok st →
   ∃ evs, trace (state_of (runCommand p_cmd true st)) = trace st ++ evs ∧
          Forall (λ e, ∀ r, e ≠ EvWait r) evs).
Proof.
  intros Hparent. unfold runCommand.
  destruct (sys_fork (os st)) as [pid s1]. cbn [fst snd] in *.
  apply Z.eqb_neq in Hparent.
  split; [|split].
  - intros ->. done.
  - intros Hok. apply Z.eqb_neq in Hok. by rewrite Hok, Hparent.
  - intros Hok. destruct (pid =? -1).
    + cbn [state_of emit trace set_os]. eexists. split; [done|].
      by repeat constructor.
    + rewrite Hparent. cbn [state_of].
      rewrite add_unfold.
      destruct (updateBackgroundProcess (set_os s1 st)) as [count st1] eqn:Hup.
      cbn [snd].
      assert (Hok1 : table_ok (set_os s1 st)) by exact Hok.
      destruct (update_reapAll _ count st1 Hok1 Hup) as (checks & _ & Htr & _).
      cbn [set_os trace bProcessIds] in Htr.
      assert (Hchecks : ∀ occ, Forall (λ e, ∀ r, e ≠ EvWait r)
                                 (zip_with check_event occ checks)).
      { clear. induction checks as [|c checks IH]; intros [|id occ]; simpl;
          constructor; [done|apply IH]. }
      assert (Hloop : ∀ n i,
        ∃ evs, trace (add_loop n i pid (default 0 (p_cmd !! 0%nat)) st1) = trace st1 ++ evs ∧
               Forall (λ e, ∀ r, e ≠ EvWait r) evs).
      { clear. induction n as [|n IH]; intros i.
        - exists []. simpl. by rewrite app_nil_r.
        - cbn [add_loop]. unfold add_slot.
          destruct (bProcessIds st1 !! i) as [id|]; [|apply IH].
          destruct (id =? 0); [|apply IH].
          eexists. split; [done|]. by repeat constructor. }
      destruct (Hloop BACKGROUND_PROCESS 0%nat) as (evs & Hevs & Hno).
      rewrite Hevs, Htr, <- app_assoc. eexists. split; [done|].
      apply Forall_app. split; [apply Hchecks|done].
Qed.

Lemma runCommand_table_ok (p_cmd : list Z) (p_isBackground : bool) st :
  table_ok st → table_ok (state_of (runCommand p_cmd p_isBackground st)).
Proof.
  intros Hok. unfold runCommand.
  destruct (sys_fork (os st)) as [pid s1].
  destruct (pid =? -1); [exact Hok|].
  destruct (pid =? 0).
  - cbn [set_os os].
    destruct (sys_gettimeofday s1) as [startTime s2]. cbn [set_os os].
    destruct (sys_fork s2) as [childPid s3].
    destruct (childPid =? -1); [exact Hok|].
    destruct (childPid =? 0).
    + cbn [set_os os]. destruct (default 0 (p_cmd !! 0%nat) =? 0); [exact Hok|].
      destruct (sys_execvp _ _ s3); exact Hok.
    + cbn [set_os os]. destruct (sys_wait s3) as [[r s4]|]; [|exact Hok].
      cbn [emit set_os os]. destruct (sys_gettimeofday s4). exact Hok.
  - destruct p_isBackground.
    + cbn [state_of]. apply add_table_ok. exact Hok.
    + cbn [set_os os]. destruct (sys_wait s1) as [[r s2]|]; exact Hok.
Qed.

Lemma runCommand_never_main_return (p_cmd : list Z) (p_isBackground : bool) st
    (code : Z) (st' : shell sys) :
  runCommand p_cmd p_isBackground st ≠ MainReturn code st'.
Proof.
  unfold runCommand.
  destruct (sys_fork (os st)) as [pid s1].
  destruct (pid =? -1); [done|].
  destruct (pid =? 0).
  - cbn [set_os os].
    destruct (sys_gettimeofday s1) as [startTime s2]. cbn [set_os os].
    destruct (sys_fork s2) as [childPid s3].
    destruct (childPid =? -1); [done|].
    destruct (childPid =? 0).
    + cbn [set_os os]. destruct (default 0 (p_cmd !! 0%nat) =? 0); [done|].
      by destruct (sys_execvp _ _ s3).
    + cbn [set_os os]. destruct (sys_wait s3) as [[r s4]|]; [|done].
      cbn [emit set_os os]. by destruct (sys_gettimeofday s4).
  - destruct p_isBackground; [done|].
    cbn [set_os os]. by destruct (sys_wait s1) as [[r s2]|].
Qed.

Lemma cd_frame (p_path : Z) st :
  bProcessIds (runBuiltinCd p_path st) = bProcessIds st ∧
  bProcessNames (runBuiltinCd p_path st) = bProcessNames st ∧
  mem (runBuiltinCd p_path st) = mem st.
Proof.
  unfold runBuiltinCd. destruct (p_path =? 0); [done|].
  destruct (sys_chdir (cstring st p_path) (os st)) as [ret s1].
  by destruct (sys_errno s1 =? 0).
Qed.

(** A turn of the loop that ends in a return from main had [exit] as its
    first word, returned 0, and left no job in the table. *)
Lemma main_iteration_return (cmdc : nat) (cmd : list Z) st
    (code : Z) (st' : shell sys) :
  table_ok st →
  main_iteration cmdc cmd st = MainReturn code st' →
  default 0 (cmd !! 0%nat) ≠ 0 ∧
  cstring st (default 0 (cmd !! 0%nat)) = "exit" ∧ code = 0 ∧ live st' = 0%nat.
Proof.
  intros Hok. unfold main_iteration. cbv zeta.
  destruct (default 0 (cmd !! 0%nat) =? 0) eqn:Hnull; [done|].
  apply Z.eqb_neq in Hnull. intros H. split; [exact Hnull|]. revert H.
  destruct (String.eqb (cstring st (default 0 (cmd !! 0%nat))) "exit") eqn:Hexit.
  - apply String.eqb_eq in Hexit.
    pose proof (list_table_ok st Hok) as Hok1.
    destruct (updateBackgroundProcess (listBackgroundProcess st)) as [bCount st2] eqn:Hup.
    destruct (update_reapAll _ bCount st2 Hok1 Hup) as (checks & H1 & _ & H3 & H4 & _ & _).
    assert (Hcount : bCount = Z.of_nat (live st2)).
    { unfold live. rewrite H3, H4. apply reapAll_count_left. by rewrite length_fmap. }
    destruct (bCount =? 0) eqn:Hz; [|done].
    apply Z.eqb_eq in Hz. intros [= <- <-]. split; [done|]. split; [done|lia].
  - destruct (String.eqb _ "btasks" || String.eqb _ "ap"); [done|].
    destruct (String.eqb _ "cd"); [done|].
    destruct (String.eqb _ "&"); intros H; by apply runCommand_never_main_return in H.
Qed.

(** Every turn of main's loop keeps both arrays of the job table at their
    ten slots, whatever the command and however the turn ends. *)
Lemma main_iteration_table_ok (cmdc : nat) (cmd : list Z) st :
  table_ok st → table_ok (state_of (main_iteration cmdc cmd st)).
Proof.
  intros Hok. unfold main_iteration. cbv zeta.
  destruct (default 0 (cmd !! 0%nat) =? 0); [exact Hok|].
  destruct (String.eqb (cstring st (default 0 (cmd !! 0%nat))) "exit").
  - pose proof (list_table_ok st Hok) as Hok1.
    destruct (updateBackgroundProcess (listBackgroundProcess st)) as [bCount st2] eqn:Hup.
    pose proof (update_table_ok _ bCount st2 Hok1 Hup) as Hok2.
    destruct (bCount =? 0); exact Hok2.
  - destruct (String.eqb _ "btasks" || String.eqb _ "ap").
    { cbn [state_of]. by apply list_table_ok. }
    destruct (String.eqb _ "cd").
    { cbn [state_of]. destruct (cd_frame (default 0 (cmd !! 1%nat)) st) as (H1 & H2 & _).
      destruct Hok as [Hids Hnames]. unfold table_ok. by rewrite H1, H2. }
    destruct (String.eqb _ "&"); by apply runCommand_table_ok.
Qed.

End Dispatch.

(** * More on the registry operations and the built-ins *)

Section Operations.
Context {sys : Type} `{!OS sys}.
Implicit Types st : shell sys.

#[local] Opaque updateBackgroundProcess addBackgroundProcess listBackgroundProcess.

(** The entries of a table are its occupied slots in ascending order,
    each with its pid and its name pointer. *)
Lemma entries_from_filter (i : nat) (ids names : list Z) :
  length names = length ids →
  entries_from i ids names =
  filter (λ e : nat * Z * Z, e.1.2 ≠ 0) (numbered i (zip ids names)).
Proof.
  revert i names. induction ids as [|id ids IH]; intros i [|name names] Hlen; try done.
  simpl in Hlen. cbn [entries_from zip zip_with numbered fst snd].
  rewrite filter_cons. cbn [fst snd].
  destruct (decide (id ≠ 0)) as [Hid|Hid].
  - apply Z.eqb_neq in Hid. rewrite Hid. f_equal. apply IH. lia.
  - apply dec_stable in Hid. subst id. simpl. apply IH. lia.
Qed.

(** The listing changes the table, the storage and the environment
    exactly as a reap pass does, and then prints one line for every slot
    that pass left occupied, in ascending slot order: tab, tab, the slot
    number in brackets, the pid, tab, the name, newline.  The name is the
    text at the slot's name pointer, and (null) where that pointer is null.
    The name pointers of the slots left occupied are taken to be null or to
    point to strings; printf reads through them. *)
Theorem list_prints_what_the_reap_pass_leaves st :
  table_ok st →
  names_readable (mem st) (entries (updateBackgroundProcess st).2) →
  bProcessIds (listBackgroundProcess st) = bProcessIds (updateBackgroundProcess st).2 ∧
  bProcessNames (listBackgroundProcess st) = bProcessNames st ∧
  mem (listBackgroundProcess st) = mem st ∧
  os (listBackgroundProcess st) = os (updateBackgroundProcess st).2 ∧
  trace (listBackgroundProcess st) =
    trace (updateBackgroundProcess st).2 ++
    ((λ e : nat * Z * Z,
        EvStdout (tab +:+ tab +:+ "[" +:+ dec (Z.of_nat e.1.1) +:+ "] " +:+ dec e.1.2 +:+
                  tab +:+ (if e.2 =? 0 then "(null)" else cstring st e.2) +:+ nl)) <$>
       filter (λ e : nat * Z * Z, e.1.2 ≠ 0)
         (numbered 0 (zip (bProcessIds (updateBackgroundProcess st).2)
                          (bProcessNames st)))).
Proof.
  intros Hok _.
  destruct (updateBackgroundProcess st) as [count st1] eqn:Hup. cbn [snd].
  rewrite (list_entries st count st1 Hok Hup).
  destruct (update_reapAll st count st1 Hok Hup) as (_ & _ & _ & _ & _ & Hn & Hm).
  destruct (update_table_ok st count st1 Hok Hup) as [Hl1 Hl2].
  cbn [bProcessIds bProcessNames mem os trace].
  split; [done|]. split; [done|]. split; [done|]. split; [done|].
  unfold entries. rewrite entries_from_filter by (by rewrite Hl1, Hl2).
  by rewrite Hn.
Qed.


Lemma occupied_none (ids : list Z) :
  occupied ids = [] → ids = replicate (length ids) 0.
Proof.
  induction ids as [|id ids IH]; [done|].
  simpl. destruct (id =? 0) eqn:Hid; [|done].
  apply Z.eqb_eq in Hid. subst id. intros H. by rewrite <- IH.
Qed.

Lemma entries_from_no_jobs (i n : nat) (names : list Z) :
  entries_from i (replicate n 0) names = [].
Proof.
  revert i names. induction n as [|n IH]; intros i [|name names]; simpl; try done.
Qed.

Lemma shell_eq (st st' : shell sys) :
  bProcessIds st' = bProcessIds st → bProcessNames st' = bProcessNames st →
  mem st' = mem st → os st' = os st → trace st' = trace st → st' = st.
Proof. destruct st, st'. simpl. by intros -> -> -> -> ->. Qed.

(** With no job in the table the registry is silent: the reap pass makes
    no system call and returns 0 with the state as it was, the listing
    prints nothing, and [exit] returns from main at once. *)
Theorem empty_table_is_left_alone st :
  table_ok st →
  live st = 0%nat →
  updateBackgroundProcess st = (0, st) ∧
  listBackgroundProcess st = st ∧
  (∀ cmdc cmd p, cmd !! 0%nat = Some p → p ≠ 0 → cstring st p = "exit" →
     main_iteration cmdc cmd st = MainReturn 0 st).
Proof.
  intros Hok Hlive.
  assert (Hocc : occupied (bProcessIds st) = []).
  { unfold live in Hlive. by destruct (occupied (bProcessIds st)). }
  assert (Hup : updateBackgroundProcess st = (0, st)).
  { destruct (updateBackgroundProcess st) as [count st1] eqn:Hup.
    destruct (update_checked st count st1 [] (os st) Hok Hup) as (_ & H2 & H3 & H4 & H5 & H6 & H7).
    { by rewrite Hocc. }
    rewrite Hocc in H2. simpl in H2. rewrite app_nil_r in H2.
    cbn [fmap list_fmap] in H3, H4.
    rewrite reapAll_none_exited in H3 by constructor.
    f_equal.
    - rewrite H4. pose proof (reapAll_count_left (bProcessIds st) []) as Hc.
      rewrite Hc by (by rewrite Hocc).
      rewrite reapAll_none_exited by constructor. by rewrite Hocc.
    - by apply shell_eq. }
  assert (Hlist : listBackgroundProcess st = st).
  { rewrite (list_entries st 0 st Hok Hup). unfold entries.
    rewrite (occupied_none _ Hocc), entries_from_no_jobs. simpl.
    rewrite app_nil_r. rewrite <- (occupied_none _ Hocc). by destruct st. }
  split; [done|]. split; [done|].
  intros cmdc cmd p Hcmd Hp Hexit.
  unfold main_iteration. rewrite Hcmd. cbv zeta. cbn [from_option id].
  apply Z.eqb_neq in Hp. rewrite Hp, Hexit, String.eqb_refl, Hlist, Hup. done.
Qed.

Lemma until_null_app (ptrs tail : list Z) :
  Forall (λ p, p ≠ 0) ptrs → until_null (ptrs ++ 0 :: tail) = ptrs.
Proof.
  induction ptrs as [|p ptrs IH]; intros Hptrs; [done|].
  inversion Hptrs as [|? ? Hp Hrest]; subst.
  simpl. apply Z.eqb_neq in Hp. rewrite Hp. f_equal. by apply IH.
Qed.

(** A command whose last word is [&] and whose first word is no built-in
    is run in the background with the [&] taken off: the argument vector
    handed on ends before it.  [ptrs] are the words before the [&]; when
    there is none, the program name handed on is the null pointer. *)
Theorem trailing_ampersand_is_stripped (ptrs tail : list Z) (amp : Z) st :
  Forall (λ p, p ≠ 0) ptrs →
  amp ≠ 0 →
  cstring st amp = "&" →
  cstring st (default amp (ptrs !! 0%nat)) ≠ "exit" →
  cstring st (default amp (ptrs !! 0%nat)) ≠ "btasks" →
  cstring st (default amp (ptrs !! 0%nat)) ≠ "ap" →
  cstring st (default amp (ptrs !! 0%nat)) ≠ "cd" →
  main_iteration (S (length ptrs)) (ptrs ++ amp :: tail) st =
    runCommand (ptrs ++ 0 :: tail) true st ∧
  argv_of st (ptrs ++ 0 :: tail) = cstring st <$> ptrs ∧
  default 0 ((ptrs ++ 0 :: tail) !! 0%nat) = default 0 (ptrs !! 0%nat).
Proof.
  intros Hptrs Hamp Hand H1 H2 H3 H4.
  assert (Hfirst : default 0 ((ptrs ++ amp :: tail) !! 0%nat) = default amp (ptrs !! 0%nat)).
  { by destruct ptrs. }
  assert (Hnz : default amp (ptrs !! 0%nat) ≠ 0).
  { destruct ptrs as [|p ptrs]; [done|]. by inversion Hptrs. }
  split; [|split].
  - unfold main_iteration. cbv zeta. rewrite Hfirst.
    apply Z.eqb_neq in Hnz. rewrite Hnz.
    apply String.eqb_neq in H1, H2, H3, H4. rewrite H1, H2, H3, H4. cbn [orb].
    replace (S (length ptrs) - 1)%nat with (length ptrs + 0)%nat by lia.
    rewrite lookup_app_r by lia.
    replace (length ptrs + 0 - length ptrs)%nat with 0%nat by lia.
    cbn [lookup list_lookup from_option id]. rewrite Hand. cbn.
    rewrite insert_app_r. done.
  - unfold argv_of. by rewrite until_null_app.
  - by destruct ptrs.
Qed.

End Operations.

(** * cd after a failed cd *)

(** The shell never clears errno, and runBuiltinCd looks at errno and not
    at what chdir returned.  So on a system whose chdir leaves errno alone
    when it succeeds (the process model), a cd that fails is followed by
    cds that are reported as failures although they succeed: the second
    call below changes the working directory to its path and still prints
    the diagnostic, with the message of the first call's error. *)
Theorem cd_after_failed_cd_is_reported_as_failed (p1 p2 : Z) (st : shell posix) :
  p1 ≠ 0 → p2 ≠ 0 →
  chdir_errno (os st) (cstring st p1) ≠ 0 →
  chdir_errno (os st) (cstring st p2) = 0 →
  (sys_chdir (cstring st p2) (os (runBuiltinCd p1 st))).1 = 0 ∧
  cwd (os (runBuiltinCd p1 st)) = cwd (os st) ∧
  cwd (os (runBuiltinCd p2 (runBuiltinCd p1 st))) = cstring st p2 ∧
  trace (runBuiltinCd p2 (runBuiltinCd p1 st)) =
    trace st ++
    [EvStderr ("Error running builtin " +:+ dquote +:+ "cd " +:+ cstring st p1 +:+ dquote +:+
               ", " +:+ cd_message (chdir_errno (os st) (cstring st p1)) +:+ nl);
     EvStderr ("Error running builtin " +:+ dquote +:+ "cd " +:+ cstring st p2 +:+ dquote +:+
               ", " +:+ cd_message (chdir_errno (os st) (cstring st p1)) +:+ nl)].
Proof.
  intros Hp1 Hp2 Hfail Hdone.
  apply Z.eqb_neq in Hp1, Hp2. pose proof Hfail as Hfail'. apply Z.eqb_neq in Hfail'.
  pose proof Hdone as Hdone'. apply Z.eqb_eq in Hdone'.
  assert (H1 : runBuiltinCd p1 st =
    emit (EvStderr (cd_error_text (cstring st p1)
                      (cd_message (chdir_errno (os st) (cstring st p1)))))
         (set_os (with_errno (chdir_errno (os st) (cstring st p1)) (os st)) st)).
  { unfold runBuiltinCd. rewrite Hp1.
    cbn [sys_chdir sys_errno posix_OS]. unfold posix_chdir. rewrite Hfail'.
    cbn [with_errno errno]. by rewrite Hfail'. }
  rewrite H1. unfold runBuiltinCd. rewrite Hp2.
  cbn [sys_chdir sys_errno posix_OS]. unfold posix_chdir, cstring.
  cbn [emit set_os os mem with_errno chdir_errno].
  fold (cstring st p2). fold (cstring st p1). rewrite Hdone'.
  unfold with_cwd, with_errno.
  cbn [fst snd errno cwd set_os os emit trace]. rewrite Hfail'.
  cbn [emit trace os cwd set_os]. repeat split; try done.
  rewrite <- app_assoc. done.
Qed.

(** * Reading the command line *)

Section Tokens.

Lemma strcspn_le (s : list ascii) : (strcspn_delim s ≤ length s)%nat.
Proof. induction s as [|c s IH]; simpl; [lia|]. destruct (Ascii.eqb c DELIMITER); simpl; lia. Qed.

Lemma strspn_le (s : list ascii) : (strspn_delim s ≤ length s)%nat.
Proof. induction s as [|c s IH]; simpl; [lia|]. destruct (Ascii.eqb c DELIMITER); simpl; lia. Qed.

Lemma strcspn_take (s : list ascii) :
  Forall (λ c, c ≠ DELIMITER) (take (strcspn_delim s) s).
Proof.
  induction s as [|c s IH]; simpl; [constructor|].
  destruct (Ascii.eqb c DELIMITER) eqn:E; simpl; [constructor|].
  constructor; [by apply Ascii.eqb_neq|done].
Qed.

Lemma strspn_drop (s : list ascii) (c : ascii) (rest : list ascii) :
  drop (strspn_delim s) s = c :: rest → c ≠ DELIMITER.
Proof.
  induction s as [|c' s IH]; simpl; [done|].
  destruct (Ascii.eqb c' DELIMITER) eqn:E; simpl; [done|].
  intros [= <- <-]. by apply Ascii.eqb_neq.
Qed.

(** What a strtok call that returns a token does: the token starts at or
    behind the position kept, is not empty, holds no delimiter and only
    characters of the buffer; the position kept afterwards lies behind
    the token, and less of the buffer is left. *)
Lemma strtok_token (olds : nat * list ascii) (off : nat) (text : list ascii) :
  (strtok olds).1 = Some (off, text) →
  (olds.1 ≤ off)%nat ∧ text ≠ [] ∧
  Forall (λ c, c ≠ DELIMITER) text ∧
  (off + length text ≤ (strtok olds).2.1)%nat ∧
  (length (strtok olds).2.2 < length olds.2)%nat ∧
  ((strtok olds).2.1 + length (strtok olds).2.2 ≤ olds.1 + length olds.2)%nat ∧
  (∀ P : ascii → Prop, Forall P olds.2 → Forall P text ∧ Forall P (strtok olds).2.2).
Proof.
  destruct olds as [o rest]. unfold strtok. cbn [fst snd].
  pose proof (strspn_le rest) as Hk.
  destruct (drop (strspn_delim rest) rest) as [|c s] eqn:Hs; [done|].
  cbn [fst snd]. intros [= <- <-].
  change (if Ascii.eqb c DELIMITER then 0%nat else S (strcspn_delim s))
    with (strcspn_delim (c :: s)).
  pose proof (strspn_drop _ _ _ Hs) as Hc.
  assert (Hlen : length (c :: s) = (length rest - strspn_delim rest)%nat).
  { by rewrite <- Hs, length_drop. }
  pose proof (strcspn_le (c :: s)) as Hn.
  assert (Hpos : (0 < strcspn_delim (c :: s))%nat).
  { simpl. apply Ascii.eqb_neq in Hc. rewrite Hc. lia. }
  assert (Hsub : ∀ P : ascii → Prop, Forall P rest → Forall P (c :: s)).
  { intros P HP. rewrite <- Hs. by apply Forall_drop. }
  pose proof (strcspn_take (c :: s)) as Htake.
  remember (strcspn_delim (c :: s)) as n eqn:En. clear En.
  cbn [length] in Hlen, Hn.
  split; [lia|]. split.
  { intros Hnil. apply (f_equal length) in Hnil. rewrite length_take in Hnil.
    cbn [length] in Hnil. lia. }
  split; [done|].
  rewrite length_take. cbn [length].
  destruct (drop n (c :: s)) as [|d behind] eqn:Hd; cbn [fst snd length].
  - assert (H : length (drop n (c :: s)) = 0%nat) by by rewrite Hd.
    rewrite length_drop in H. cbn [length] in H.
    split; [lia|]. split; [lia|]. split; [lia|].
    intros P HP. split; [by apply Forall_take, Hsub|constructor].
  - assert (Hb : length (d :: behind) = (length (c :: s) - n)%nat).
    { by rewrite <- Hd, length_drop. }
    cbn [length] in Hb.
    split; [lia|]. split; [lia|]. split; [lia|].
    intros P HP. split; [by apply Forall_take, Hsub|].
    assert (Forall P (d :: behind)) as Hdb.
    { rewrite <- Hd. by apply Forall_drop, Hsub. }
    by inversion Hdb.
Qed.

Lemma strtok_at_end (o : nat) : (strtok (o, [])).1 = None.
Proof. done. Qed.

(** More iterations than the buffer has characters left change nothing. *)
Lemma strtok_all_enough (fuel1 fuel2 : nat) (olds : nat * list ascii) :
  (length olds.2 ≤ fuel1)%nat → (length olds.2 ≤ fuel2)%nat →
  strtok_all fuel1 olds = strtok_all fuel2 olds.
Proof.
  revert fuel2 olds. induction fuel1 as [|fuel1 IH]; intros fuel2 olds H1 H2.
  - destruct olds as [o [|c rest]]; [|simpl in H1; lia].
    by destruct fuel2.
  - destruct fuel2 as [|fuel2].
    + destruct olds as [o [|c rest]]; [done|simpl in H2; lia].
    + cbn [strtok_all].
      destruct (strtok olds).1 as [[off text]|] eqn:Htok; [|done].
      destruct (strtok_token olds off text Htok) as (_ & _ & _ & _ & Hless & _).
      f_equal. apply IH; lia.
Qed.

Lemma strtok_all_fuel (fuel : nat) (olds : nat * list ascii) :
  (length olds.2 ≤ fuel)%nat →
  strtok_all fuel olds = strtok_all (length olds.2) olds.
Proof. intros H. by apply strtok_all_enough. Qed.

(** The tokens come one behind the other, each at or behind the position
    the calls started from. *)
Lemma strtok_all_tokens (fuel : nat) (olds : nat * list ascii) (P : ascii → Prop) :
  Forall P olds.2 →
  Forall (λ t : nat * list ascii,
            (olds.1 ≤ t.1)%nat ∧ (t.1 + length t.2 ≤ olds.1 + length olds.2)%nat ∧
            t.2 ≠ [] ∧ Forall (λ c, c ≠ DELIMITER) t.2 ∧ Forall P t.2)
         (strtok_all fuel olds).
Proof.
  revert olds. induction fuel as [|fuel IH]; intros olds HP; [constructor|].
  cbn [strtok_all].
  destruct (strtok olds).1 as [[off text]|] eqn:Htok; [|constructor].
  destruct (strtok_token olds off text Htok) as (H1 & H2 & H3 & H4 & H5 & H6 & H7).
  destruct (H7 P HP) as [HPt HPr].
  constructor.
  - cbn [fst snd]. repeat split; try done. lia.
  - eapply Forall_impl; [apply (IH _ HPr)|].
    intros [off' text'] (J1 & J2 & J3 & J4 & J5). cbn [fst snd] in *.
    repeat split; try done; lia.
Qed.

Lemma strtok_all_behind (fuel : nat) (olds : nat * list ascii) (off : nat) (text : list ascii) :
  (strtok olds).1 = Some (off, text) →
  Forall (λ t : nat * list ascii, (off < t.1)%nat) (strtok_all fuel (strtok olds).2).
Proof.
  intros Htok.
  destruct (strtok_token olds off text Htok) as (H1 & H2 & H3 & H4 & _).
  eapply Forall_impl; [apply (strtok_all_tokens fuel _ (λ _, True))|].
  - by apply Forall_true.
  - intros [off' text'] (J1 & _). cbn [fst snd] in *.
    destruct text; [done|]. simpl in H4. lia.
Qed.

Lemma publish_cons (buffer : Z) (t : nat * list ascii) (toks : list (nat * list ascii))
    (m : gmap Z string) :
  publish buffer (t :: toks) m =
  publish buffer toks (<[token_pointer buffer t := string_of_list_ascii t.2]> m).
Proof. done. Qed.

(** The storage after the tokens have been recorded: untouched away from
    the tokens' addresses. *)
Lemma publish_frame (buffer : Z) (toks : list (nat * list ascii)) (m : gmap Z string) (p : Z) :
  Forall (λ t, token_pointer buffer t ≠ p) toks →
  publish buffer toks m !! p = m !! p.
Proof.
  revert m. induction toks as [|t toks IH]; intros m Hne; [done|].
  inversion Hne as [|? ? Ht Hrest]; subst.
  rewrite publish_cons, IH by done. by rewrite lookup_insert_ne.
Qed.

(** With iterations for every character left the loop comes to its end:
    it stores the pointers of the tokens one after the other from index
    [i] on, or runs over the end of the array when they do not fit. *)
Lemma token_loop_tokens (fuel i : nat) (token : option (nat * list ascii))
    (olds : nat * list ascii) (buffer : Z) (p_cmd : list Z) (m : gmap Z string) :
  (i ≤ length p_cmd)%nat →
  (length olds.2 < fuel)%nat →
  token_loop fuel i token olds buffer p_cmd m =
  let toks := match token with
              | None => []
              | Some t => t :: strtok_all (length olds.2) olds
              end in
  if decide (i + length toks ≤ length p_cmd)%nat
  then TokensDone (i + length toks)
         (take i p_cmd ++ (token_pointer buffer <$> toks) ++ drop (i + length toks) p_cmd)
         (publish buffer toks m)
  else TokensOverrun.
Proof.
  revert i token olds p_cmd m.
  induction fuel as [|fuel IH]; intros i token olds p_cmd m Hi Hfuel; [lia|].
  destruct token as [[off text]|]; cbn [token_loop].
  2:{ cbv zeta. cbn [length fmap list_fmap app].
      rewrite Nat.add_0_r. rewrite decide_True by done.
      by rewrite take_drop. }
  destruct (decide (i < length p_cmd)%nat) as [Hlt|Hge].
  2:{ cbv zeta. rewrite decide_False; [done|]. cbn [length]. lia. }
  cbv zeta.
  assert (Hrest : match (strtok olds).1 with
                  | None => []
                  | Some t => t :: strtok_all (length (strtok olds).2.2) (strtok olds).2
                  end = strtok_all (length olds.2) olds).
  { destruct (length olds.2) as [|n] eqn:Hn.
    - destruct olds as [o [|c rest]]; [done|done].
    - cbn [strtok_all].
      destruct (strtok olds).1 as [[off' text']|] eqn:Htok; [|done].
      destruct (strtok_token olds off' text' Htok) as (_ & _ & _ & _ & Hless & _).
      f_equal. symmetry. apply strtok_all_fuel. lia. }
  destruct (decide (length (strtok olds).2.2 < fuel)%nat) as [Hf|Hf].
  - rewrite IH; [|rewrite length_insert; lia|done].
    cbv zeta. rewrite Hrest. rewrite length_insert. cbn [length].
    replace (S i + length (strtok_all (length olds.2) olds))%nat
      with (i + S (length (strtok_all (length olds.2) olds)))%nat by lia.
    destruct (decide (i + S (length (strtok_all (length olds.2) olds)) ≤ length p_cmd)%nat);
      [|done].
    f_equal.
    rewrite (take_S_r _ _ (token_pointer buffer (off, text)))
      by (apply list_lookup_insert_eq; lia).
    rewrite take_insert_ge by lia.
    rewrite drop_insert_lt by lia.
    cbn [fmap list_fmap app]. by rewrite <- app_assoc.
  - (* the buffer is used up: the next call returns NULL *)
    assert (Hnone : (strtok olds).1 = None).
    { destruct (strtok olds).1 as [[off' text']|] eqn:Htok; [|done].
      destruct (strtok_token olds off' text' Htok) as (_ & _ & _ & _ & Hless & _). lia. }
    rewrite Hnone in Hrest. rewrite <- Hrest. rewrite Hnone.
    destruct fuel as [|fuel']; cbn [token_loop length fmap list_fmap app foldl publish].
    + rewrite decide_True by lia.
      replace (i + 1)%nat with (S i) by lia. f_equal.
      rewrite <- (take_drop (S i) (<[i:=token_pointer buffer (off, text)]> p_cmd)) at 1.
      rewrite (take_S_r _ _ (token_pointer buffer (off, text)))
        by (apply list_lookup_insert_eq; lia).
      rewrite take_insert_ge by lia. rewrite drop_insert_lt by lia.
      cbn [app]. by rewrite <- app_assoc.
    + rewrite decide_True by lia.
      replace (i + 1)%nat with (S i) by lia. f_equal.
      rewrite <- (take_drop (S i) (<[i:=token_pointer buffer (off, text)]> p_cmd)) at 1.
      rewrite (take_S_r _ _ (token_pointer buffer (off, text)))
        by (apply list_lookup_insert_eq; lia).
      rewrite take_insert_ge by lia. rewrite drop_insert_lt by lia.
      cbn [app]. by rewrite <- app_assoc.
Qed.

End Tokens.

Section ReadingACommand.
Context {sys : Type} `{!Stdin sys}.
Implicit Types st : shell sys.

Lemma strtok_rest_le (olds : nat * list ascii) :
  (length (strtok olds).2.2 ≤ length olds.2)%nat.
Proof.
  destruct (strtok olds).1 as [[off text]|] eqn:Htok.
  - destruct (strtok_token olds off text Htok) as (_ & _ & _ & _ & H & _). lia.
  - destruct olds as [o rest]. unfold strtok in *. cbn [fst snd] in *.
    destruct (drop (strspn_delim rest) rest); [simpl; lia|done].
Qed.

(** What getCommand does with a line that does not begin with a newline:
    it stores the pointers of the line's tokens and a null pointer behind
    them, unless the array is too small for that. *)
Lemma getCommand_tokens (cmdc : nat) (p_cmd : list Z) st (buffer : Z) (line : string)
    (s1 : sys) (c0 : ascii) (rest : list ascii) :
  sys_getline (os st) = (Some (buffer, line), s1) →
  list_ascii_of_string line = c0 :: rest →
  c0 ≠ NEWLINE →
  getCommand cmdc p_cmd st =
  if decide (length (line_tokens (c0 :: rest)) < length p_cmd)%nat
  then Got (length (line_tokens (c0 :: rest)))
         ((token_pointer buffer <$> line_tokens (c0 :: rest)) ++
          0 :: drop (S (length (line_tokens (c0 :: rest)))) p_cmd)
         (set_mem (publish buffer (line_tokens (c0 :: rest)) (mem st))
            (set_os s1 (emit (EvStdout PROMPT) st)))
  else Overrun (set_os s1 (emit (EvStdout PROMPT) st)).
Proof.
  intros Hline Hchars Hc0. unfold getCommand. cbn [emit os].
  rewrite Hline, Hchars. apply Ascii.eqb_neq in Hc0. rewrite Hc0.
  set (text := c_string (chomp (c0 :: rest))).
  rewrite token_loop_tokens; [|lia|pose proof (strtok_rest_le (0%nat, text)); simpl in *; lia].
  cbv zeta.
  assert (Htoks : match (strtok (0%nat, text)).1 with
                  | None => []
                  | Some t => t :: strtok_all (length (strtok (0%nat, text)).2.2)
                                    (strtok (0%nat, text)).2
                  end = line_tokens (c0 :: rest)).
  { unfold line_tokens. fold text. cbn [strtok_all].
    destruct (strtok (0%nat, text)).1 as [[off t]|] eqn:Htok; [|done].
    f_equal. apply strtok_all_enough; [lia|].
    pose proof (strtok_rest_le (0%nat, text)). simpl in *. lia. }
  rewrite Htoks. rewrite take_0. cbn [plus app emit set_os mem].
  set (toks := line_tokens (c0 :: rest)).
  destruct (decide (length toks ≤ length p_cmd)%nat) as [Hle|Hgt].
  - rewrite length_app, length_fmap, length_drop.
    replace (length toks + (length p_cmd - length toks))%nat with (length p_cmd) by lia.
    destruct (decide (length toks < length p_cmd)%nat) as [Hlt|Heq]; [|done].
    f_equal.
    rewrite insert_app_r_alt by (rewrite length_fmap; lia).
    rewrite length_fmap, Nat.sub_diag.
    destruct (drop (length toks) p_cmd) as [|x tail] eqn:Hd.
    { apply (f_equal length) in Hd. rewrite length_drop in Hd. simpl in Hd. lia. }
    cbn [insert list_insert Nat.pred]. simpl.
    do 2 f_equal.
    replace (S (length toks)) with (length toks + 1)%nat by lia.
    rewrite <- drop_drop, Hd. done.
  - rewrite decide_False by lia. done.
Qed.

Lemma getCommand_frame (cmdc : nat) (p_cmd : list Z) st :
  bProcessIds (read_state (getCommand cmdc p_cmd st)) = bProcessIds st ∧
  bProcessNames (read_state (getCommand cmdc p_cmd st)) = bProcessNames st ∧
  trace (read_state (getCommand cmdc p_cmd st)) = trace st ++ [EvStdout PROMPT].
Proof.
  unfold getCommand. cbn [emit os].
  destruct (sys_getline (os st)) as [[[buffer line]|] s1]; [|done].
  destruct (list_ascii_of_string line) as [|c0 rest]; [done|].
  destruct (Ascii.eqb c0 NEWLINE); [done|].
  destruct (token_loop _ _ _ _ _ _ _) as [i cmd m| |]; [|done|done].
  by destruct (decide _).
Qed.

Lemma getCommand_finishes (cmdc : nat) (p_cmd : list Z) st (st' : shell sys) :
  getCommand cmdc p_cmd st ≠ Unfinished st'.
Proof.
  destruct (sys_getline (os st)) as [[[buffer line]|] s1] eqn:Hline.
  - destruct (list_ascii_of_string line) as [|c0 rest] eqn:Hchars.
    { unfold getCommand. cbn [emit os]. by rewrite Hline, Hchars. }
    destruct (decide (c0 = NEWLINE)) as [->|Hc0].
    + unfold getCommand. cbn [emit os]. by rewrite Hline, Hchars.
    + rewrite (getCommand_tokens cmdc p_cmd st buffer line s1 c0 rest) by done.
      by destruct (decide _).
  - unfold getCommand. cbn [emit os]. by rewrite Hline.
Qed.

(** getCommand always comes to an end.  It runs over the end of [p_cmd]
    exactly when the line has as many tokens as the array has elements, or
    more; otherwise it returns. *)
Theorem getCommand_overruns_only_a_full_array (cmdc : nat) (p_cmd : list Z) st
    (buffer : Z) (line : string) (s1 : sys) :
  sys_getline (os st) = (Some (buffer, line), s1) →
  line ≠ EmptyString →
  match getCommand cmdc p_cmd st with
  | Got _ _ _ =>
    String.get 0 line = Some NEWLINE ∨
    (length (line_tokens (list_ascii_of_string line)) < length p_cmd)%nat
  | Overrun _ =>
    String.get 0 line ≠ Some NEWLINE ∧
    (length p_cmd ≤ length (line_tokens (list_ascii_of_string line)))%nat
  | NoLine _ | Unfinished _ => False
  end.
Proof.
  intros Hline Hne.
  destruct line as [|c0 rest]; [done|].
  destruct (decide (c0 = NEWLINE)) as [->|Hc0].
  - unfold getCommand. cbn [emit os]. rewrite Hline. by left.
  - rewrite (getCommand_tokens cmdc p_cmd st buffer _ s1 c0 (list_ascii_of_string rest))
      by done.
    cbn [list_ascii_of_string].
    destruct (decide _) as [Hlt|Hge].
    + by right.
    + split; [|lia]. simpl. congruence.
Qed.

Lemma publish_lookup (fuel : nat) (olds : nat * list ascii) (buffer : Z)
    (m : gmap Z string) (k : nat) (t : nat * list ascii) :
  strtok_all fuel olds !! k = Some t →
  publish buffer (strtok_all fuel olds) m !! token_pointer buffer t =
  Some (string_of_list_ascii t.2).
Proof.
  revert olds m k. induction fuel as [|fuel IH]; intros olds m k; [done|].
  cbn [strtok_all].
  destruct (strtok olds).1 as [[off text]|] eqn:Htok; [|done].
  rewrite publish_cons.
  destruct k as [|k]; simpl.
  - intros [= <-]. rewrite publish_frame; [by rewrite lookup_insert_eq|].
    eapply Forall_impl; [apply (strtok_all_behind fuel olds off text Htok)|].
    intros [off' text'] Hlt. unfold token_pointer. cbn [fst] in *. lia.
  - apply IH.
Qed.

Lemma length_list_ascii_of_string (s : string) :
  length (list_ascii_of_string s) = String.length s.
Proof. induction s as [|c s IH]; simpl; congruence. Qed.

Lemma c_string_length (bytes : list ascii) : (length (c_string bytes) ≤ length bytes)%nat.
Proof.
  induction bytes as [|c bytes IH]; simpl; [lia|].
  destruct (Ascii.eqb c NUL); simpl; lia.
Qed.

Lemma c_string_no_nul (bytes : list ascii) : Forall (λ c, c ≠ NUL) (c_string bytes).
Proof.
  induction bytes as [|c bytes IH]; simpl; [constructor|].
  destruct (Ascii.eqb c NUL) eqn:E; [constructor|].
  constructor; [by apply Ascii.eqb_neq|done].
Qed.

Lemma chomp_length (chars : list ascii) : length (chomp chars) = length chars.
Proof.
  unfold chomp. destruct (chars !! (length chars - 1)%nat) as [c|]; [|done].
  destruct (Ascii.eqb c NEWLINE); [|done]. by rewrite length_insert.
Qed.

Lemma line_tokens_ok (chars : list ascii) :
  Forall (λ t : nat * list ascii,
            (t.1 < length chars)%nat ∧ t.2 ≠ [] ∧
            Forall (λ c, c ≠ DELIMITER) t.2 ∧ Forall (λ c, c ≠ NUL) t.2)
         (line_tokens chars).
Proof.
  unfold line_tokens.
  eapply Forall_impl;
    [apply (strtok_all_tokens _ _ (λ c, c ≠ NUL)), c_string_no_nul|].
  intros [off text] (_ & H2 & H3 & H4 & H5). cbn [fst snd] in *.
  pose proof (c_string_length (chomp chars)). rewrite chomp_length in H.
  repeat split; try done.
  destruct text; [done|]. simpl in H2. lia.
Qed.

(** The command that getCommand hands back.  The table is not touched and
    the only output is the prompt.  After a line that is just a newline the
    array, the count and the storage are as they were.  Otherwise the count
    is smaller than the array, the element at the count is the null
    pointer, the elements behind it are as they were, and every element
    before it points into the line buffer, to a string that is not empty
    and holds no delimiter. *)
Theorem read_command_is_well_formed (cmdc0 : nat) (p_cmd : list Z) st
    (buffer : Z) (line : string) (s1 : sys) (cmdc : nat) (cmd : list Z) (st' : shell sys) :
  sys_getline (os st) = (Some (buffer, line), s1) →
  getCommand cmdc0 p_cmd st = Got cmdc cmd st' →
  bProcessIds st' = bProcessIds st ∧ bProcessNames st' = bProcessNames st ∧
  os st' = s1 ∧ trace st' = trace st ++ [EvStdout PROMPT] ∧
  length cmd = length p_cmd ∧
  ((String.get 0 line = Some NEWLINE ∧ cmd = p_cmd ∧ cmdc = cmdc0 ∧ mem st' = mem st) ∨
   (String.get 0 line ≠ Some NEWLINE ∧
    (cmdc < length p_cmd)%nat ∧ cmd !! cmdc = Some 0 ∧
    drop (S cmdc) cmd = drop (S cmdc) p_cmd ∧
    ∀ k, (k < cmdc)%nat →
      ∃ off : nat,
        cmd !! k = Some (buffer + Z.of_nat off) ∧ (off < String.length line)%nat ∧
        cstring st' (buffer + Z.of_nat off) ≠ EmptyString ∧
        Forall (λ c, c ≠ DELIMITER)
               (list_ascii_of_string (cstring st' (buffer + Z.of_nat off))))).
Proof.
  intros Hline.
  destruct line as [|c0 rest].
  { unfold getCommand. cbn [emit os]. rewrite Hline. done. }
  destruct (decide (c0 = NEWLINE)) as [->|Hc0].
  - unfold getCommand. cbn [emit os]. rewrite Hline. cbn.
    intros [= <- <- <-]. repeat split; try done. by left.
  - rewrite (getCommand_tokens cmdc0 p_cmd st buffer _ s1 c0 (list_ascii_of_string rest))
      by done.
    set (toks := line_tokens (c0 :: list_ascii_of_string rest)).
    destruct (decide (length toks < length p_cmd)%nat) as [Hlt|]; [|done].
    intros [= <- <- <-].
    cbn [set_mem set_os emit bProcessIds bProcessNames os trace mem].
    assert (Hlen : length ((token_pointer buffer <$> toks) ++
                           0 :: drop (S (length toks)) p_cmd) = length p_cmd).
    { rewrite length_app, length_fmap. cbn [length]. rewrite length_drop. lia. }
    split; [done|]. split; [done|]. split; [done|]. split; [done|]. split; [done|].
    right. split; [simpl; congruence|]. split; [done|]. split; [|split].
    + rewrite lookup_app_r by (rewrite length_fmap; lia).
      by rewrite length_fmap, Nat.sub_diag.
    + rewrite drop_app_ge by (rewrite length_fmap; lia).
      rewrite length_fmap. replace (S (length toks) - length toks)%nat with 1%nat by lia.
      done.
    + intros k Hk.
      destruct (lookup_lt_is_Some_2 toks k Hk) as [[off text] Ht].
      pose proof (line_tokens_ok (c0 :: list_ascii_of_string rest)) as Hall.
      rewrite Forall_lookup in Hall. destruct (Hall k _ Ht) as (H1 & H2 & H3 & H4).
      cbn [fst snd] in *.
      exists off. split; [|split].
      * rewrite lookup_app_l by (rewrite length_fmap; lia).
        by rewrite list_lookup_fmap, Ht.
      * simpl. rewrite <- (length_list_ascii_of_string rest). exact H1.
      * unfold cstring. cbn [mem set_mem].
        assert (Hp : publish buffer toks (mem st) !! (buffer + Z.of_nat off) =
                     Some (string_of_list_ascii text))
          by exact (publish_lookup _ _ buffer (mem st) k (off, text) Ht).
        rewrite Hp. cbn [from_option id].
        split; [by destruct text|].
        by rewrite list_ascii_of_string_of_list_ascii.
Qed.

(** Reading a command leaves every string that was in the storage where it
    was, provided the buffer getline allocates lies where the storage held
    nothing: the names of the jobs in the table still read as before. *)
Theorem reading_keeps_stored_strings (cmdc0 : nat) (p_cmd : list Z) st
    (buffer : Z) (line : string) (s1 : sys) (cmdc : nat) (cmd : list Z) (st' : shell sys) :
  sys_getline (os st) = (Some (buffer, line), s1) →
  (∀ off : nat, (off < String.length line)%nat → mem st !! (buffer + Z.of_nat off) = None) →
  getCommand cmdc0 p_cmd st = Got cmdc cmd st' →
  (∀ p text, mem st !! p = Some text → mem st' !! p = Some text) ∧
  (∀ i name, bProcessNames st !! i = Some name → is_Some (mem st !! name) →
     bProcessNames st' !! i = Some name ∧ cstring st' name = cstring st name).
Proof.
  intros Hline Hfresh Hgot.
  assert (Hmem : ∀ p text, mem st !! p = Some text → mem st' !! p = Some text).
  { destruct line as [|c0 rest].
    { unfold getCommand in Hgot. cbn [emit os] in Hgot. by rewrite Hline in Hgot. }
    destruct (decide (c0 = NEWLINE)) as [->|Hc0].
    - unfold getCommand in Hgot. cbn [emit os] in Hgot. rewrite Hline in Hgot.
      cbn in Hgot. by injection Hgot as <- <- <-.
    - rewrite (getCommand_tokens cmdc0 p_cmd st buffer _ s1 c0 (list_ascii_of_string rest))
        in Hgot by done.
      destruct (decide _) as [Hlt|] in Hgot; [|done].
      injection Hgot as <- <- <-. cbn [set_mem mem].
      intros p text Hp. rewrite publish_frame; [done|].
      eapply Forall_impl; [apply line_tokens_ok|].
      intros [off t] (H1 & _) Heq. unfold token_pointer in Heq. cbn [fst] in *.
      rewrite <- Heq, Hfresh in Hp; [done|].
      simpl. by rewrite <- (length_list_ascii_of_string rest). }
  split; [exact Hmem|].
  intros i name Hname [text Htext].
  destruct (getCommand_frame cmdc0 p_cmd st) as (_ & Hn & _).
  rewrite Hgot in Hn. cbn [read_state] in Hn.
  split; [by rewrite Hn|].
  unfold cstring. by rewrite (Hmem _ _ Htext), Htext.
Qed.

Lemma strspn_replicate (n : nat) (s : list ascii) :
  match s with [] => True | c :: _ => c ≠ DELIMITER end →
  strspn_delim (replicate n DELIMITER ++ s) = n.
Proof.
  intros Hs. induction n as [|n IH]; cbn [replicate app strspn_delim].
  - destruct s as [|c s]; [done|]. apply Ascii.eqb_neq in Hs.
    cbn [strspn_delim]. by rewrite Hs.
  - by rewrite Ascii.eqb_refl, IH.
Qed.

Lemma strcspn_word (w r : list ascii) :
  Forall (λ c, c ≠ DELIMITER) w →
  match r with [] => True | c :: _ => c = DELIMITER end →
  strcspn_delim (w ++ r) = length w.
Proof.
  intros Hw Hr. induction Hw as [|c w Hc Hw IH]; cbn [app length strcspn_delim].
  - destruct r as [|c r]; [done|]. subst c. cbn [strcspn_delim].
    by rewrite Ascii.eqb_refl.
  - apply Ascii.eqb_neq in Hc. by rewrite Hc, IH.
Qed.

Lemma strtok_unfold (o : nat) (text : list ascii) :
  drop (strspn_delim text) text ≠ [] →
  strtok (o, text) =
  (Some ((o + strspn_delim text)%nat,
         take (strcspn_delim (drop (strspn_delim text) text)) (drop (strspn_delim text) text)),
   match drop (strcspn_delim (drop (strspn_delim text) text)) (drop (strspn_delim text) text) with
   | [] => ((o + strspn_delim text + strcspn_delim (drop (strspn_delim text) text))%nat, [])
   | _ :: behind =>
     ((o + strspn_delim text + strcspn_delim (drop (strspn_delim text) text) + 1)%nat, behind)
   end).
Proof.
  intros Hne. unfold strtok. cbn [fst snd].
  destruct (drop (strspn_delim text) text); done.
Qed.

Lemma strtok_word (o n : nat) (w r : list ascii) :
  w ≠ [] → Forall (λ c, c ≠ DELIMITER) w →
  match r with [] => True | c :: _ => c = DELIMITER end →
  strtok (o, replicate n DELIMITER ++ w ++ r) =
  (Some ((o + n)%nat, w),
   match r with
   | [] => ((o + n + length w)%nat, [])
   | _ :: behind => ((o + n + length w + 1)%nat, behind)
   end).
Proof.
  intros Hne Hw Hr.
  assert (Hspn : strspn_delim (replicate n DELIMITER ++ w ++ r) = n).
  { apply strspn_replicate. destruct w as [|c w]; [done|]. by inversion Hw. }
  assert (Hdrop : drop n (replicate n DELIMITER ++ w ++ r) = w ++ r).
  { apply drop_app_length'. by rewrite length_replicate. }
  rewrite strtok_unfold; rewrite Hspn, Hdrop; [|by destruct w].
  rewrite strcspn_word by done.
  by rewrite take_app_length, drop_app_length.
Qed.

Lemma strtok_all_spaces (fuel o trail : nat) :
  strtok_all fuel (o, replicate trail DELIMITER) = [].
Proof.
  destruct fuel as [|fuel]; [done|]. cbn [strtok_all].
  replace (strtok (o, replicate trail DELIMITER)).1 with (@None (nat * list ascii)); [done|].
  unfold strtok. cbn [fst snd].
  pose proof (strspn_replicate trail [] I) as H. rewrite app_nil_r in H. rewrite H.
  rewrite drop_ge by (by rewrite length_replicate). done.
Qed.

Lemma strtok_all_spaced (pws : list (nat * list ascii)) (trail fuel o : nat) :
  Forall word_ok pws.*2 →
  (length pws ≤ fuel)%nat →
  (strtok_all fuel (o, spaced_words pws trail)).*2 = pws.*2.
Proof.
  revert fuel o. induction pws as [|[n w] pws IH]; intros fuel o Hok Hfuel.
  - cbn [spaced_words]. by rewrite strtok_all_spaces.
  - inversion Hok as [|? ? [Hne Hw] Hrest]; subst.
    destruct fuel as [|fuel]; [simpl in Hfuel; lia|].
    assert (Hd : Forall (λ c, c ≠ DELIMITER) w)
      by (eapply Forall_impl; [exact Hw|]; by intros c (? & _)).
    cbn [spaced_words strtok_all fst snd].
    destruct pws as [|p pws].
    + destruct trail as [|trail].
      * cbn [replicate]. rewrite (strtok_word o n w []) by done.
        cbn [fst snd]. destruct fuel; done.
      * cbn [replicate]. rewrite (strtok_word o n w (DELIMITER :: _)) by done.
        cbn [fst snd fmap list_fmap]. f_equal.
        by rewrite strtok_all_spaces.
    + rewrite (strtok_word o n w (DELIMITER :: _)) by done.
      cbn [fst snd]. rewrite !(fmap_cons snd). cbn [snd]. f_equal.
      rewrite IH; [done|done|]. cbn [length] in *. lia.
Qed.

Lemma spaced_words_chars (pws : list (nat * list ascii)) (trail : nat) :
  Forall word_ok pws.*2 →
  Forall (λ c, c ≠ NUL ∧ c ≠ NEWLINE) (spaced_words pws trail).
Proof.
  assert (Hsp : ∀ k, Forall (λ c, c ≠ NUL ∧ c ≠ NEWLINE) (replicate k DELIMITER)).
  { intros k. apply Forall_replicate. by split. }
  induction pws as [|[n w] pws IH]; intros Hok; [apply Hsp|].
  inversion Hok as [|? ? [Hne Hw] Hrest]; subst.
  cbn [spaced_words fst snd].
  apply Forall_app. split; [apply Hsp|].
  apply Forall_app. split.
  { eapply Forall_impl; [exact Hw|]. by intros c (_ & ? & ?). }
  destruct pws as [|p pws]; [apply Hsp|].
  constructor; [by split|]. by apply IH.
Qed.

Lemma c_string_all (text rest : list ascii) :
  Forall (λ c, c ≠ NUL) text →
  match rest with [] => True | c :: _ => c = NUL end →
  c_string (text ++ rest) = text.
Proof.
  intros Htext Hrest. induction Htext as [|c text Hc Htext IH]; cbn [app c_string].
  - destruct rest as [|c rest]; [done|]. subst c. cbn [c_string].
    by rewrite Ascii.eqb_refl.
  - apply Ascii.eqb_neq in Hc. by rewrite Hc, IH.
Qed.

Lemma chomp_line (text : list ascii) (newline : bool) :
  Forall (λ c, c ≠ NUL ∧ c ≠ NEWLINE) text →
  c_string (chomp (text ++ if newline then [NEWLINE] else [])) = text.
Proof.
  intros Htext.
  assert (Hnul : Forall (λ c, c ≠ NUL) text)
    by (eapply Forall_impl; [exact Htext|]; by intros c (? & _)).
  unfold chomp. destruct newline.
  - rewrite length_app. cbn [length].
    replace (length text + 1 - 1)%nat with (length text + 0)%nat by lia.
    rewrite lookup_app_r by lia.
    replace (length text + 0 - length text)%nat with 0%nat by lia.
    cbn [lookup list_lookup].
    rewrite insert_app_r. cbn [insert list_insert].
    by apply c_string_all.
  - rewrite app_nil_r.
    destruct (text !! (length text - 1)%nat) as [c|] eqn:Hc.
    + rewrite Forall_lookup in Htext. destruct (Htext _ _ Hc) as [_ Hnl].
      apply Ascii.eqb_neq in Hnl. rewrite Hnl.
      rewrite <- (app_nil_r text) at 1. by apply c_string_all.
    + rewrite <- (app_nil_r text) at 1. by apply c_string_all.
Qed.

(** What is typed comes back as the argument vector: for a line of words
    with any number of spaces before, between and behind them, ended by a
    newline or by the end of the input, getCommand counts the words, and
    the array it fills reads, up to its null pointer, as exactly these
    words, in their order. *)
Theorem typed_words_come_back (pws : list (nat * list ascii)) (trail : nat) (newline : bool)
    (cmdc0 : nat) (p_cmd : list Z) st (buffer : Z) (s1 : sys) :
  Forall word_ok pws.*2 →
  spaced_words pws trail ≠ [] →
  (length pws < length p_cmd)%nat →
  0 < buffer →
  sys_getline (os st) =
    (Some (buffer, string_of_list_ascii
                     (spaced_words pws trail ++ if newline then [NEWLINE] else [])), s1) →
  ∃ cmd st',
    getCommand cmdc0 p_cmd st = Got (length pws) cmd st' ∧
    cmd !! length pws = Some 0 ∧
    argv_of st' cmd = string_of_list_ascii <$> pws.*2.
Proof.
  intros Hok Hne Hlen Hbuf Hline.
  pose proof (spaced_words_chars pws trail Hok) as Hchars.
  destruct (spaced_words pws trail) as [|c0 rest] eqn:Hsp; [done|].
  assert (Hc0 : c0 ≠ NEWLINE) by (inversion Hchars as [|? ? [_ ?] _]; done).
  rewrite (getCommand_tokens cmdc0 p_cmd st buffer _ s1 c0
             (rest ++ if newline then [NEWLINE] else []))
    by (done || by rewrite list_ascii_of_string_of_list_ascii).
  assert (Htoks : (line_tokens (c0 :: rest ++ if newline then [NEWLINE] else [])).*2 = pws.*2).
  { unfold line_tokens.
    change (c0 :: rest ++ if newline then [NEWLINE] else [])
      with ((c0 :: rest) ++ if newline then [NEWLINE] else []).
    rewrite chomp_line by done. rewrite <- Hsp.
    apply strtok_all_spaced; [done|].
    pose proof (f_equal length Hsp) as Hl.
    assert (Hw : ∀ (l : list (nat * list ascii)) t,
               Forall word_ok l.*2 → (length l ≤ length (spaced_words l t))%nat).
    { clear. induction l as [|[n w] l IH]; intros t Hok'; [simpl; lia|].
      inversion Hok' as [|? ? [Hne' _] Hrest]; subst.
      cbn [spaced_words fst snd length]. rewrite !length_app.
      destruct w as [|c w]; [done|]. cbn [length].
      destruct l as [|p l]; [simpl; lia|].
      specialize (IH t Hrest). cbn [length] in *. lia. }
    specialize (Hw pws trail Hok). lia. }
  set (toks := line_tokens (c0 :: rest ++ if newline then [NEWLINE] else [])) in *.
  assert (Hn : length toks = length pws).
  { rewrite <- (length_fmap snd toks), Htoks. by rewrite length_fmap. }
  rewrite Hn. rewrite decide_True by done.
  eexists _, _. split; [reflexivity|]. split.
  - rewrite lookup_app_r by (rewrite length_fmap; lia).
    by rewrite length_fmap, Hn, Nat.sub_diag.
  - unfold argv_of. rewrite until_null_app.
    + rewrite <- Htoks, <- !list_fmap_compose.
      apply list_fmap_ext. intros k t Ht.
      unfold compose, cstring. cbn [mem set_mem].
      assert (Hp : publish buffer toks (mem st) !! token_pointer buffer t =
                   Some (string_of_list_ascii t.2))
        by exact (publish_lookup _ _ buffer (mem st) k t Ht).
      by rewrite Hp.
    + apply Forall_fmap, Forall_forall. intros t _. unfold token_pointer. simpl. lia.
Qed.

End ReadingACommand.

(** * The loop of main *)

Section Shell.
Context {sys : Type} `{!OS sys} `{!Stdin sys}.
Implicit Types st : shell sys.

#[local] Opaque updateBackgroundProcess addBackgroundProcess listBackgroundProcess.

Lemma getCommand_table_ok (cmdc : nat) (p_cmd : list Z) st :
  table_ok st → table_ok (read_state (getCommand cmdc p_cmd st)).
Proof.
  intros [Hids Hnames].
  destruct (getCommand_frame cmdc p_cmd st) as (H1 & H2 & _).
  unfold table_ok. by rewrite H1, H2.
Qed.

(** main declares [cmdc] without a value and getCommand leaves it alone
    after an empty line, yet the value it happens to hold never matters:
    a turn of the loop does the same whatever that value is. *)
Theorem uninitialised_count_is_never_read (cmdc0 cmdc0' : nat) st :
  main_turn cmdc0 st = main_turn cmdc0' st.
Proof.
  unfold main_turn, getCommand. cbn [emit os].
  destruct (sys_getline (os st)) as [[[buffer line]|] s1]; [|done].
  destruct (list_ascii_of_string line) as [|c0 rest]; [done|].
  destruct (Ascii.eqb c0 NEWLINE); done.
Qed.

(** A line of nothing but spaces, or of nothing at all, before its newline
    brings the prompt back and does nothing else: no job is reaped, nothing
    is stored, and the one thing printed is the prompt. *)
Theorem blank_line_prompts_again (spaces cmdc0 : nat) st (buffer : Z) (s1 : sys) :
  sys_getline (os st) =
    (Some (buffer, string_of_list_ascii (replicate spaces DELIMITER ++ [NEWLINE])), s1) →
  main_turn cmdc0 st = Ran (Next (set_os s1 (emit (EvStdout PROMPT) st))).
Proof.
  intros Hline. unfold main_turn.
  destruct spaces as [|spaces].
  - unfold getCommand. cbn [emit os]. rewrite Hline. done.
  - rewrite (getCommand_tokens cmdc0 _ st buffer _ s1 DELIMITER
               (replicate spaces DELIMITER ++ [NEWLINE]) Hline);
      [|by rewrite list_ascii_of_string_of_list_ascii|done].
    assert (Htoks : line_tokens (DELIMITER :: replicate spaces DELIMITER ++ [NEWLINE]) = []).
    { unfold line_tokens.
      change (DELIMITER :: replicate spaces DELIMITER ++ [NEWLINE])
        with (replicate (S spaces) DELIMITER ++ if true then [NEWLINE] else []).
      rewrite chomp_line by (apply Forall_replicate; by split).
      apply strtok_all_spaces. }
    rewrite Htoks. cbn [length]. rewrite decide_True by (rewrite length_replicate; unfold CMD_SIZE; lia).
    unfold main_iteration. cbn. by destruct st.
Qed.

(** The way out of the shell is the word [exit]: a turn of the loop in
    which main returns has read a line whose first word is [exit]; main
    returns 0, and no job is left in the table. *)
Theorem exit_line_is_the_only_way_out (cmdc0 : nat) st (code : Z) (st' : shell sys) :
  table_ok st →
  main_turn cmdc0 st = Ran (MainReturn code st') →
  ∃ (buffer : Z) (line : string) (s1 : sys) (t : nat * list ascii),
    sys_getline (os st) = (Some (buffer, line), s1) ∧
    line_tokens (list_ascii_of_string line) !! 0%nat = Some t ∧
    t.2 = list_ascii_of_string "exit" ∧
    code = 0 ∧ live st' = 0%nat.
Proof.
  intros Hok. unfold main_turn.
  pose proof (getCommand_table_ok cmdc0 (replicate CMD_SIZE 0) st Hok) as Hok1.
  destruct (sys_getline (os st)) as [[[buffer line]|] s1] eqn:Hline.
  2: { unfold getCommand. cbn [emit os]. by rewrite Hline. }
  destruct (list_ascii_of_string line) as [|c0 rest] eqn:Hchars.
  { unfold getCommand. cbn [emit os]. by rewrite Hline, Hchars. }
  destruct (decide (c0 = NEWLINE)) as [->|Hc0].
  { unfold getCommand. cbn [emit os]. rewrite Hline, Hchars. done. }
  rewrite (getCommand_tokens cmdc0 _ st buffer line s1 c0 rest) in Hok1 |- * by done.
  destruct (decide _) as [Hlt|]; [|done].
  cbn [read_state] in Hok1. intros [= Hret].
  destruct (main_iteration_return _ _ _ _ _ Hok1 Hret) as (Hnull & Hexit & -> & Hlive).
  destruct (line_tokens (c0 :: rest)) as [|t toks] eqn:Htoks; [done|].
  exists buffer, line, s1, t. split; [done|].
  split; [by rewrite Hchars, Htoks|]. split; [|done].
  cbn [fmap list_fmap app lookup list_lookup from_option id] in Hexit.
  unfold cstring in Hexit. cbn [mem set_mem] in Hexit.
  assert (Hp : publish buffer (t :: toks) (mem st) !! token_pointer buffer t =
               Some (string_of_list_ascii t.2)).
  { rewrite <- Htoks. apply (publish_lookup _ _ buffer (mem st) 0%nat t).
    fold (line_tokens (c0 :: rest)). by rewrite Htoks. }
  rewrite Hp in Hexit. cbn [from_option id] in Hexit.
  by rewrite <- Hexit, list_ascii_of_string_of_list_ascii.
Qed.

(** Through a session of any number of turns the two arrays of the job
    table keep their ten slots.  When main returns, it returns 0 and the
    table holds no job.  The reading of a command never goes on for ever;
    a session that stops in getCommand stops there because getline gave no
    line or because the line had too many words for the array. *)
Theorem shell_loop_keeps_table (turns : nat) (cmdc0 : nat → nat) st :
  table_ok st →
  match main_loop turns cmdc0 st with
  | Ran f =>
    table_ok (state_of f) ∧
    (∀ code st', f = MainReturn code st' → code = 0 ∧ live st' = 0%nat)
  | NotRead r =>
    table_ok (read_state r) ∧ (∃ st', r = NoLine st' ∨ r = Overrun st')
  end.
Proof.
  revert st. induction turns as [|turns IH]; intros st Hok; [done|].
  cbn [main_loop]. unfold main_turn.
  pose proof (getCommand_table_ok (cmdc0 turns) (replicate CMD_SIZE 0) st Hok) as Hok1.
  pose proof (getCommand_finishes (cmdc0 turns) (replicate CMD_SIZE 0) st) as Hfin.
  destruct (getCommand (cmdc0 turns) (replicate CMD_SIZE 0) st) as [cmdc cmd st1|st1|st1|st1].
  - cbn [read_state] in Hok1.
    pose proof (main_iteration_table_ok cmdc cmd st1 Hok1) as Hok2.
    destruct (main_iteration cmdc cmd st1) as [st2|code st2|code st2|st2|st2|st2] eqn:Hturn;
      cbn [state_of] in Hok2.
    + by apply IH.
    + split; [done|]. intros code' st' [= <- <-].
      by destruct (main_iteration_return _ _ _ _ _ Hok1 Hturn) as (_ & _ & ? & ?).
    + done.
    + done.
    + done.
    + done.
  - split; [done|]. exists st1. by right.
  - split; [done|]. exists st1. by left.
  - by destruct (Hfin st1).
Qed.

End Shell.

(** * Concrete runs *)

Lemma reap_pass_checks_every_job_witness :
  table_ok two_jobs ∧
  check_all (occupied (bProcessIds two_jobs)) (os two_jobs) =
    ([(100, 0); (0, 7)], os (updateBackgroundProcess two_jobs).2) ∧
  (bProcessIds (updateBackgroundProcess two_jobs).2, (updateBackgroundProcess two_jobs).1) =
    reapAll (bProcessIds two_jobs) [0; 7].
Proof.
  assert (Hok : table_ok two_jobs) by (split; reflexivity).
  assert (Hca : check_all (occupied (bProcessIds two_jobs)) (os two_jobs) =
                ([(100, 0); (0, 7)], os (updateBackgroundProcess two_jobs).2))
    by (vm_compute; reflexivity).
  split; [exact Hok|]. split; [exact Hca|].
  destruct (reap_pass_checks_every_job two_jobs _ _ Hok Hca)
    as (_ & _ & _ & _ & _ & _ & H).
  exact H.
Defined.

Lemma reap_pass_only_removes_witness :
  table_ok two_jobs ∧
  (updateBackgroundProcess two_jobs).1 = Z.of_nat (live (updateBackgroundProcess two_jobs).2).
Proof.
  assert (Hok : table_ok two_jobs) by (split; reflexivity).
  split; [exact Hok|].
  destruct (reap_pass_only_removes two_jobs Hok) as (_ & _ & _ & _ & H). exact H.
Defined.

Lemma table_capacity_witness :
  table_ok full_table ∧
  live (updateBackgroundProcess full_table).2 = BACKGROUND_PROCESS ∧
  bProcessIds (addBackgroundProcess 110 1000 full_table) = bProcessIds full_table.
Proof.
  assert (Hok : table_ok full_table) by (split; reflexivity).
  assert (Hfull : live (updateBackgroundProcess full_table).2 = BACKGROUND_PROCESS)
    by (vm_compute; reflexivity).
  split; [exact Hok|]. split; [exact Hfull|].
  destruct (table_capacity [] 110 1000 full_table Hok) as (_ & _ & Hadd).
  destruct (Hadd Hfull) as (_ & Hids & _). exact Hids.
Defined.

Lemma exit_refused_while_jobs_live_witness :
  table_ok two_jobs ∧ cstring two_jobs 2000 = "exit" ∧
  ∃ (bCount : Z) (st2 : shell posix),
    updateBackgroundProcess (listBackgroundProcess two_jobs) = (bCount, st2) ∧
    bCount = Z.of_nat (live st2).
Proof.
  assert (Hok : table_ok two_jobs) by (split; reflexivity).
  assert (Hexit : cstring two_jobs 2000 = "exit") by (vm_compute; reflexivity).
  split; [exact Hok|]. split; [exact Hexit|].
  destruct (exit_refused_while_jobs_live 1 [2000; 0] 2000 two_jobs Hok eq_refl
              ltac:(discriminate) Hexit) as (bCount & st2 & H1 & H2 & _).
  exists bCount, st2. split; [exact H1|exact H2].
Defined.

Lemma launches_are_listed_witness :
  table_ok two_running ∧
  no_exit_seen
    (trace (listBackgroundProcess (launch_all [(100, 1000); (101, 1000)] two_running))) ∧
  entries (launch_all [(100, 1000); (101, 1000)] two_running) =
    [(0%nat, 100, 1000); (1%nat, 101, 1000)].
Proof.
  assert (Hok : table_ok two_running) by (split; reflexivity).
  assert (Hseen : no_exit_seen
    (trace (listBackgroundProcess (launch_all [(100, 1000); (101, 1000)] two_running)))).
  { vm_compute. repeat (constructor; [done|]). constructor. }
  split; [exact Hok|]. split; [exact Hseen|].
  destruct (launches_are_listed [(100, 1000); (101, 1000)] two_running Hok eq_refl
              ltac:(unfold BACKGROUND_PROCESS; simpl; lia)
              ltac:(repeat (constructor; [done|]); constructor) Hseen)
    as (H & _).
  exact H.
Defined.

Lemma cd_failure_is_classified_witness :
  3003 ≠ 0 ∧
  (sys_chdir (cstring nowhere_to_go 3003) (os nowhere_to_go)).1 ≠ 0 ∧
  trace (runBuiltinCd 3003 nowhere_to_go) =
    [EvStderr ("Error running builtin " +:+ dquote +:+ "cd /nowhere" +:+ dquote +:+
               ", A component of the path does not name an existing directory" +:+ nl)] ∧
  sys_cwd (os (runBuiltinCd 3003 nowhere_to_go)) = "/".
Proof.
  assert (Hptr : 3003 ≠ 0) by discriminate.
  assert (Hfail : (sys_chdir (cstring nowhere_to_go 3003) (os nowhere_to_go)).1 ≠ 0)
    by (vm_compute; discriminate).
  split; [exact Hptr|]. split; [exact Hfail|].
  destruct (cd_failure_is_classified 3003 nowhere_to_go Hptr Hfail)
    as ((msg & Htrace & Hmsg & _) & _ & Hcwd & _).
  split; [|exact Hcwd].
  rewrite Htrace, (Hmsg eq_refl). reflexivity.
Defined.

Lemma stored_name_is_the_pointer_witness :
  table_ok one_running ∧
  bProcessNames (addBackgroundProcess 100 1000 one_running) !! 0%nat = Some 1000 ∧
  mem (addBackgroundProcess 100 1000 one_running) = mem one_running ∧
  job_line (<[1000 := "rm"]> (mem sleep_added)) (0%nat, 100, 1000) =
    tab +:+ tab +:+ "[0] 100" +:+ tab +:+ "rm" +:+ nl ∧
  stdout_of (trace (listBackgroundProcess sleep_overwritten)) =
    [tab +:+ tab +:+ "[0] 100" +:+ nl +:+ nl;
     tab +:+ tab +:+ "[0] 100" +:+ tab +:+ "rm" +:+ nl].
Proof.
  assert (Hok : table_ok one_running) by (split; reflexivity).
  split; [exact Hok|].
  destruct (stored_name_is_the_pointer 100 1000 (<[1000 := "rm"]> (mem sleep_added)) one_running
              (updateBackgroundProcess one_running).1 (updateBackgroundProcess one_running).2
              [] (replicate 9 0) Hok ltac:(discriminate) ltac:(discriminate)
              (surjective_pairing _) eq_refl ltac:(constructor))
    as (_ & Hname & Hmem & Hlist).
  split; [exact Hname|]. split; [exact Hmem|].
  destruct (Hlist (updateBackgroundProcess sleep_overwritten).1
                  (updateBackgroundProcess sleep_overwritten).2 (surjective_pairing _))
    as (Htrace & Hjob).
  destruct (Hjob ltac:(by vm_compute)) as (_ & Hline & _).
  split; [exact (Hline "rm" ltac:(by vm_compute))|].
  change (listBackgroundProcess sleep_overwritten)
    with (listBackgroundProcess
            (set_mem (<[1000 := "rm"]> (mem sleep_added))
               (addBackgroundProcess 100 1000 one_running))).
  rewrite Htrace; [by vm_compute|].
  unfold names_readable. apply (bool_decide_unpack _). by vm_compute.
Defined.

(** C1, as the claim words it, fails: all ten slots are occupied, and the
    processes of the jobs in slots 0 and 1 have ended with status 0.  An add
    is then not dropped: its reap pass frees the two slots, the new job goes
    into slot 0 and is announced, and nine slots are occupied afterwards. *)
Lemma add_to_full_table_after_exits :
  live full_two_done = 10%nat ∧
  child_state (children (os full_two_done)) 100 = Some (Zombie 0) ∧
  child_state (children (os full_two_done)) 101 = Some (Zombie 0) ∧
  bProcessIds (addBackgroundProcess 110 1000 full_two_done) =
    [110; 0; 102; 103; 104; 105; 106; 107; 108; 109] ∧
  stdout_of (trace (addBackgroundProcess 110 1000 full_two_done)) =
    [tab +:+ tab +:+ "[0] 110" +:+ nl +:+ nl] ∧
  live (addBackgroundProcess 110 1000 full_two_done) = 9%nat ∧
  live (addBackgroundProcess 110 1000 full_two_done) ≠ live full_two_done.
Proof. repeat apply conj; by vm_compute. Qed.

(** C8, as the claim words it, fails: job 100 is added while address 1000
    holds the text sleep; once that storage holds rm the listing reports
    rm for the job. *)
Lemma listed_name_changes_with_storage :
  cstring one_running 1000 = "sleep" ∧
  stdout_of (trace (listBackgroundProcess sleep_added)) =
    [added_text 0 100; job_text 0 100 "sleep"] ∧
  stdout_of (trace (listBackgroundProcess sleep_overwritten)) =
    [added_text 0 100; job_text 0 100 "rm"] ∧
  stdout_of (trace (listBackgroundProcess sleep_overwritten)) ≠
    stdout_of (trace (listBackgroundProcess sleep_added)).
Proof.
  split; [by vm_compute|]. split; [by vm_compute|]. split; [by vm_compute|].
  vm_compute. discriminate.
Qed.

(** C3 (defect): the shell has run [sleep &], job 100 sits in slot 0, and
    its process has ended with exit status 1.  Whichever registry operation
    comes next (a listing, a reap pass, an add), it collects the process,
    reads the status 256 and keeps the slot; the listing prints the job.
    An operation after that finds no such child, reads what the
    uninitialised [status] holds, and keeps and prints the job again. *)
Theorem failed_job_is_never_reaped :
  bProcessIds (failed_job 7) !! 0%nat = Some 100 ∧
  child_state (children (os (failed_job 7))) 100 = Some (Zombie 256) ∧
  trace (listBackgroundProcess (failed_job 7)) =
    [EvStdout (added_text 0 100);
     EvWaitpid 100 WNOHANG 100 256; EvStdout (job_text 0 100 "sleep")] ∧
  bProcessIds (listBackgroundProcess (failed_job 7)) !! 0%nat = Some 100 ∧
  children (os (listBackgroundProcess (failed_job 7))) = [] ∧
  (updateBackgroundProcess (failed_job 7)).1 = 1 ∧
  bProcessIds (updateBackgroundProcess (failed_job 7)).2 !! 0%nat = Some 100 ∧
  bProcessIds (addBackgroundProcess 101 1000 (failed_job 7)) =
    100 :: 101 :: replicate 8 0 ∧
  trace (listBackgroundProcess (listBackgroundProcess (failed_job 7))) =
    [EvStdout (added_text 0 100);
     EvWaitpid 100 WNOHANG 100 256; EvStdout (job_text 0 100 "sleep");
     EvWaitpid 100 WNOHANG (-1) 7; EvStdout (job_text 0 100 "sleep")].
Proof. repeat split; by vm_compute. Qed.

(** C6 (defect): the shell has run [sleep &]; process 100 has ended and
    has not been collected.  The foreground command [sleep] is started:
    fork creates process 101 and wait (NULL) returns at once with 100.
    The shell is back at the prompt while 101 is still running. *)
Theorem foreground_wait_takes_finished_job :
  children (os finished_in_background) = [(100, Zombie 0)] ∧
  ∃ st' : shell posix,
    main_iteration 1 [1000; 0] finished_in_background = Next st' ∧
    trace st' = [EvStdout (added_text 0 100); EvWait 100] ∧
    children (os st') = [(101, Running)] ∧
    bProcessIds st' !! 0%nat = Some 100.
Proof. split; [by vm_compute|]. eexists. repeat split; by vm_compute. Qed.

(** C7 (defect): in the process that calls execvp, on a system where
    execvp fails with ENOENT, the diagnostic carries -1, the value execvp
    returned, and not the error code 2 that errno holds; the process ends
    with exit (-1), which its parent reads as exit status 255.  The process
    in between collects that child, prints the nine lines of the statistics
    block and ends with exit (0). *)
Theorem exec_failure_reports_minus_one :
  (∃ st' : shell posix,
     runCommand [1000; 0] false in_grandchild = Exit (-1) st' ∧
     trace st' = [EvStderr (exec_error_text (-1))] ∧
     errno (os st') = ENOENT) ∧
  exec_error_text (-1) ≠ exec_error_text ENOENT ∧
  W_EXITCODE (-1) = Z.shiftl 255 8 ∧
  (∃ st' : shell posix,
     runCommand [1000; 0] false in_intermediate = Exit 0 st' ∧
     trace st' =
       EvWait 4242 ::
       trace (printChildrenStatistics (Timeval 5 100) (Timeval 5 900) in_intermediate)).
Proof.
  split; [eexists; repeat split; by vm_compute|].
  split; [vm_compute; discriminate|].
  split; [by vm_compute|].
  eexists. split; by vm_compute.
Qed.

(** C4 (defect): what [exit] does is decided by the status the reap pass
    reads and not by whether a job runs.  First run: the shell has launched
    [sleep &], process 100 runs and sits in slot 0, and the uninitialised
    [status] reads 0 (waitpid stores nothing for a running child).  The
    command [exit] drops the job without a word and main returns 0 while
    process 100 is still running.  Second run: process 100 has ended with
    exit (EXIT_FAILURE).  [exit] collects it, reads status 256, lists the
    job, prints that one process is still running and goes back to the
    prompt, although no process is left. *)
Theorem exit_returns_while_job_runs :
  bProcessIds (sleep_in_background 0) !! 0%nat = Some 100 ∧
  child_state (children (os (sleep_in_background 0))) 100 = Some Running ∧
  main_iteration 1 [2000; 0] (sleep_in_background 0) =
    MainReturn 0 (state_of (main_iteration 1 [2000; 0] (sleep_in_background 0))) ∧
  child_state
    (children (os (state_of (main_iteration 1 [2000; 0] (sleep_in_background 0))))) 100 =
    Some Running ∧
  stdout_of (trace (state_of (main_iteration 1 [2000; 0] (sleep_in_background 0)))) =
    [tab +:+ tab +:+ "[0] 100" +:+ nl +:+ nl] ∧
  child_state (children (os (failed_job 7))) 100 = Some (Zombie 256) ∧
  main_iteration 1 [2000; 0] (failed_job 7) =
    Next (state_of (main_iteration 1 [2000; 0] (failed_job 7))) ∧
  children (os (state_of (main_iteration 1 [2000; 0] (failed_job 7)))) = [] ∧
  stdout_of (trace (state_of (main_iteration 1 [2000; 0] (failed_job 7)))) =
    [tab +:+ tab +:+ "[0] 100" +:+ nl +:+ nl;
     tab +:+ tab +:+ "[0] 100" +:+ tab +:+ "sleep" +:+ nl;
     "There's still 1 background(s) process(es) running" +:+ nl].
Proof. repeat apply conj; by vm_compute. Qed.

(** C5 (defect): the command line [sleep &] is entered twice and no
    process ends; the uninitialised [status] reads 0.  The reap pass of the
    second add takes the running job 100 for finished and gives its slot to
    job 101, and the reap pass of the listing does the same to job 101: the
    listing prints no job and the table is empty, while both processes are
    still running.  Where the same int reads 7, both jobs are kept and
    listed. *)
Theorem launches_are_lost_when_status_reads_zero :
  children (os (two_sleeps_in_background 0)) = [(100, Running); (101, Running)] ∧
  stdout_of (trace (two_sleeps_in_background 0)) =
    [tab +:+ tab +:+ "[0] 100" +:+ nl +:+ nl; tab +:+ tab +:+ "[0] 101" +:+ nl +:+ nl] ∧
  entries (two_sleeps_in_background 0) = [(0%nat, 101, 1000)] ∧
  stdout_of (trace (listBackgroundProcess (two_sleeps_in_background 0))) =
    stdout_of (trace (two_sleeps_in_background 0)) ∧
  entries (listBackgroundProcess (two_sleeps_in_background 0)) = [] ∧
  children (os (listBackgroundProcess (two_sleeps_in_background 0))) =
    [(100, Running); (101, Running)] ∧
  stdout_of (trace (listBackgroundProcess (two_sleeps_in_background 7))) =
    [tab +:+ tab +:+ "[0] 100" +:+ nl +:+ nl; tab +:+ tab +:+ "[1] 101" +:+ nl +:+ nl;
     tab +:+ tab +:+ "[0] 100" +:+ tab +:+ "sleep" +:+ nl;
     tab +:+ tab +:+ "[1] 101" +:+ tab +:+ "sleep" +:+ nl].
Proof. repeat apply conj; by vm_compute. Qed.

(** What the reap pass does to a running job depends on the value the
    uninitialised [status] happens to hold: waitpid stores nothing for a
    child that has not changed state.  Where that value is zero, a running
    job is given up. *)
Remark running_job_dropped_when_status_reads_zero :
  children (os (initial sample_mem (with_children [(100, Running)] (quiet 0)))) =
    [(100, Running)] ∧
  bProcessIds
    (listBackgroundProcess
       (launch_all [(100, 1000)]
          (initial sample_mem (with_children [(100, Running)] (quiet 0))))) =
    replicate 10 0 ∧
  children
    (os (listBackgroundProcess
           (launch_all [(100, 1000)]
              (initial sample_mem (with_children [(100, Running)] (quiet 0)))))) =
    [(100, Running)].
Proof. repeat split; by vm_compute. Qed.

(** ** Runs of the dispatcher, the reader and the loop *)

(** The command line that consists of [&] alone: main hands runCommand an
    array that begins with the null pointer.  The shell stores the job under
    the null name, and the listing prints (null) for it; the process that
    calls execvp is killed there. *)
Remark lone_ampersand :
  main_iteration 1 [1008; 0] ready_to_fork =
    Next (addBackgroundProcess 100 0 (set_os (sys_fork (os ready_to_fork)).2 ready_to_fork)) ∧
  entries (state_of (main_iteration 1 [1008; 0] ready_to_fork)) = [(0%nat, 100, 0)] ∧
  stdout_of (trace (listBackgroundProcess
                      (state_of (main_iteration 1 [1008; 0] ready_to_fork)))) =
    [tab +:+ tab +:+ "[0] 100" +:+ nl +:+ nl;
     tab +:+ tab +:+ "[0] 100" +:+ tab +:+ "(null)" +:+ nl] ∧
  runCommand [0; 0] true in_grandchild =
    Crash (state_of (runCommand [0; 0] true in_grandchild)) ∧
  trace (state_of (runCommand [0; 0] true in_grandchild)) = [].
Proof. repeat apply conj; by vm_compute. Qed.


Lemma background_run_returns_at_once_witness :
  (sys_fork (os ready_to_fork)).1 ≠ 0 ∧
  runCommand [1000; 0] true ready_to_fork =
    Next (addBackgroundProcess (sys_fork (os ready_to_fork)).1 (default 0 ([1000; 0] !! 0%nat))
            (set_os (sys_fork (os ready_to_fork)).2 ready_to_fork)).
Proof.
  assert (Hparent : (sys_fork (os ready_to_fork)).1 ≠ 0) by (vm_compute; discriminate).
  assert (Hforked : (sys_fork (os ready_to_fork)).1 ≠ -1) by (vm_compute; discriminate).
  split; [exact Hparent|].
  destruct (background_run_returns_at_once [1000; 0] ready_to_fork Hparent) as (_ & H & _).
  exact (H Hforked).
Defined.

Lemma list_prints_what_the_reap_pass_leaves_witness :
  table_ok two_jobs ∧
  names_readable (mem two_jobs) (entries (updateBackgroundProcess two_jobs).2) ∧
  bProcessIds (listBackgroundProcess two_jobs) = 0 :: 101 :: replicate 8 0 ∧
  stdout_of (trace (listBackgroundProcess two_jobs)) =
    [tab +:+ tab +:+ "[1] 101" +:+ tab +:+ "sleep" +:+ nl].
Proof.
  assert (Hok : table_ok two_jobs) by (split; reflexivity).
  assert (Hnames : names_readable (mem two_jobs) (entries (updateBackgroundProcess two_jobs).2)).
  { unfold names_readable. apply (bool_decide_unpack _). by vm_compute. }
  split; [exact Hok|]. split; [exact Hnames|].
  destruct (list_prints_what_the_reap_pass_leaves two_jobs Hok Hnames)
    as (Hids & _ & _ & _ & Htrace).
  split; [rewrite Hids; by vm_compute|].
  rewrite Htrace. by vm_compute.
Defined.


Lemma empty_table_is_left_alone_witness :
  table_ok one_running ∧ live one_running = 0%nat ∧
  updateBackgroundProcess one_running = (0, one_running).
Proof.
  assert (Hok : table_ok one_running) by (split; reflexivity).
  assert (Hlive : live one_running = 0%nat) by reflexivity.
  split; [exact Hok|]. split; [exact Hlive|].
  destruct (empty_table_is_left_alone one_running Hok Hlive) as (H & _). exact H.
Defined.

Lemma cd_after_failed_cd_is_reported_as_failed_witness :
  3003 ≠ 0 ∧ 3000 ≠ 0 ∧
  chdir_errno (os only_cd_dir) (cstring only_cd_dir 3003) ≠ 0 ∧
  chdir_errno (os only_cd_dir) (cstring only_cd_dir 3000) = 0 ∧
  cwd (os (runBuiltinCd 3000 (runBuiltinCd 3003 only_cd_dir))) = "cd" ∧
  stderr_of (trace (runBuiltinCd 3000 (runBuiltinCd 3003 only_cd_dir))) =
    ["Error running builtin " +:+ dquote +:+ "cd /nowhere" +:+ dquote +:+
       ", A component of the path does not name an existing directory" +:+ nl;
     "Error running builtin " +:+ dquote +:+ "cd cd" +:+ dquote +:+
       ", A component of the path does not name an existing directory" +:+ nl].
Proof.
  assert (H1 : 3003 ≠ 0) by discriminate.
  assert (H2 : 3000 ≠ 0) by discriminate.
  assert (Hfail : chdir_errno (os only_cd_dir) (cstring only_cd_dir 3003) ≠ 0)
    by (vm_compute; discriminate).
  assert (Hdone : chdir_errno (os only_cd_dir) (cstring only_cd_dir 3000) = 0)
    by reflexivity.
  split; [exact H1|]. split; [exact H2|]. split; [exact Hfail|]. split; [exact Hdone|].
  destruct (cd_after_failed_cd_is_reported_as_failed 3003 3000 only_cd_dir H1 H2 Hfail Hdone)
    as (_ & _ & Hcwd & Htrace).
  split; [rewrite Hcwd; reflexivity|].
  rewrite Htrace. by vm_compute.
Defined.

Lemma trailing_ampersand_is_stripped_witness :
  cstring ready_to_fork 1008 = "&" ∧
  main_iteration 2 ([1000] ++ 1008 :: [0]) ready_to_fork =
    runCommand ([1000] ++ 0 :: [0]) true ready_to_fork ∧
  argv_of ready_to_fork ([1000] ++ 0 :: [0]) = cstring ready_to_fork <$> [1000].
Proof.
  assert (Hamp : cstring ready_to_fork 1008 = "&") by reflexivity.
  split; [exact Hamp|].
  destruct (trailing_ampersand_is_stripped [1000] [0] 1008 ready_to_fork
              ltac:(by repeat constructor) ltac:(discriminate) Hamp
              ltac:(vm_compute; discriminate) ltac:(vm_compute; discriminate)
              ltac:(vm_compute; discriminate) ltac:(vm_compute; discriminate))
    as (H1 & H2 & _).
  split; [exact H1|exact H2].
Defined.

Lemma getCommand_overruns_only_a_full_array_witness :
  sys_getline (os (typing (words_line 30))) =
    (Some (5000, words_line 30), (sys_getline (os (typing (words_line 30)))).2) ∧
  words_line 30 ≠ EmptyString ∧
  match getCommand 0 (replicate CMD_SIZE 0) (typing (words_line 30)) with
  | Got _ _ _ =>
    String.get 0 (words_line 30) = Some NEWLINE ∨
    (length (line_tokens (list_ascii_of_string (words_line 30))) <
     length (replicate CMD_SIZE 0))%nat
  | Overrun _ =>
    String.get 0 (words_line 30) ≠ Some NEWLINE ∧
    (length (replicate CMD_SIZE 0) ≤
     length (line_tokens (list_ascii_of_string (words_line 30))))%nat
  | NoLine _ | Unfinished _ => False
  end.
Proof.
  assert (Hline : sys_getline (os (typing (words_line 30))) =
                  (Some (5000, words_line 30), (sys_getline (os (typing (words_line 30)))).2))
    by reflexivity.
  assert (Hne : words_line 30 ≠ EmptyString) by (vm_compute; discriminate).
  split; [exact Hline|]. split; [exact Hne|].
  pose proof (getCommand_overruns_only_a_full_array 0 (replicate CMD_SIZE 0)
           (typing (words_line 30)) 5000 (words_line 30)
           (sys_getline (os (typing (words_line 30)))).2 Hline Hne) as H.
  exact H.
Defined.

Lemma read_command_is_well_formed_witness :
  sys_getline (os (typing ("sleep 5 &" +:+ nl))) =
    (Some (5000, "sleep 5 &" +:+ nl), (sys_getline (os (typing ("sleep 5 &" +:+ nl)))).2) ∧
  getCommand 0 (replicate CMD_SIZE 0) (typing ("sleep 5 &" +:+ nl)) =
    Got 3 ([5000; 5006; 5008] ++ replicate 27 0)
        (read_state (getCommand 0 (replicate CMD_SIZE 0) (typing ("sleep 5 &" +:+ nl)))) ∧
  trace (read_state (getCommand 0 (replicate CMD_SIZE 0) (typing ("sleep 5 &" +:+ nl)))) =
    trace (typing ("sleep 5 &" +:+ nl)) ++ [EvStdout PROMPT].
Proof.
  assert (Hline : sys_getline (os (typing ("sleep 5 &" +:+ nl))) =
    (Some (5000, "sleep 5 &" +:+ nl), (sys_getline (os (typing ("sleep 5 &" +:+ nl)))).2))
    by reflexivity.
  assert (Hgot : getCommand 0 (replicate CMD_SIZE 0) (typing ("sleep 5 &" +:+ nl)) =
    Got 3 ([5000; 5006; 5008] ++ replicate 27 0)
        (read_state (getCommand 0 (replicate CMD_SIZE 0) (typing ("sleep 5 &" +:+ nl)))))
    by (vm_compute; reflexivity).
  split; [exact Hline|]. split; [exact Hgot|].
  destruct (read_command_is_well_formed _ _ _ _ _ _ _ _ _ Hline Hgot) as (_ & _ & _ & H & _).
  exact H.
Defined.

Lemma reading_keeps_stored_strings_witness :
  sys_getline (os (at_terminal sleep_added [(5000, "ls" +:+ nl)])) =
    (Some (5000, "ls" +:+ nl),
     (sys_getline (os (at_terminal sleep_added [(5000, "ls" +:+ nl)]))).2) ∧
  getCommand 0 (replicate CMD_SIZE 0) (at_terminal sleep_added [(5000, "ls" +:+ nl)]) =
    Got 1 (5000 :: replicate 29 0)
        (read_state (getCommand 0 (replicate CMD_SIZE 0)
                       (at_terminal sleep_added [(5000, "ls" +:+ nl)]))) ∧
  cstring (read_state (getCommand 0 (replicate CMD_SIZE 0)
                         (at_terminal sleep_added [(5000, "ls" +:+ nl)]))) 1000 =
    cstring (at_terminal sleep_added [(5000, "ls" +:+ nl)]) 1000.
Proof.
  assert (Hline : sys_getline (os (at_terminal sleep_added [(5000, "ls" +:+ nl)])) =
    (Some (5000, "ls" +:+ nl),
     (sys_getline (os (at_terminal sleep_added [(5000, "ls" +:+ nl)]))).2))
    by reflexivity.
  assert (Hfresh : ∀ off : nat, (off < String.length ("ls" +:+ nl))%nat →
            mem (at_terminal sleep_added [(5000, "ls" +:+ nl)]) !! (5000 + Z.of_nat off) = None).
  { intros [|[|[|off]]] Hoff; [by vm_compute..|]. simpl in Hoff. lia. }
  assert (Hgot : getCommand 0 (replicate CMD_SIZE 0)
                   (at_terminal sleep_added [(5000, "ls" +:+ nl)]) =
    Got 1 (5000 :: replicate 29 0)
        (read_state (getCommand 0 (replicate CMD_SIZE 0)
                       (at_terminal sleep_added [(5000, "ls" +:+ nl)]))))
    by (vm_compute; reflexivity).
  split; [exact Hline|]. split; [exact Hgot|].
  destruct (reading_keeps_stored_strings _ _ _ _ _ _ _ _ _ Hline Hfresh Hgot) as (_ & H).
  destruct (H 0%nat 1000 eq_refl ltac:(by eexists)) as (_ & Hname).
  exact Hname.
Defined.

Lemma typed_words_come_back_witness :
  sys_getline (os (typing ("ls   -l  " +:+ nl))) =
    (Some (5000, string_of_list_ascii
                   (spaced_words [(0%nat, list_ascii_of_string "ls");
                                  (2%nat, list_ascii_of_string "-l")] 2 ++
                    if true then [NEWLINE] else [])),
     (sys_getline (os (typing ("ls   -l  " +:+ nl)))).2) ∧
  ∃ cmd st',
    getCommand 0 (replicate CMD_SIZE 0) (typing ("ls   -l  " +:+ nl)) = Got 2 cmd st' ∧
    cmd !! 2%nat = Some 0 ∧
    argv_of st' cmd = ["ls"; "-l"].
Proof.
  assert (Hline : sys_getline (os (typing ("ls   -l  " +:+ nl))) =
    (Some (5000, string_of_list_ascii
                   (spaced_words [(0%nat, list_ascii_of_string "ls");
                                  (2%nat, list_ascii_of_string "-l")] 2 ++
                    if true then [NEWLINE] else [])),
     (sys_getline (os (typing ("ls   -l  " +:+ nl)))).2))
    by reflexivity.
  split; [exact Hline|].
  apply (typed_words_come_back
           [(0%nat, list_ascii_of_string "ls"); (2%nat, list_ascii_of_string "-l")]
           2 true 0 (replicate CMD_SIZE 0) (typing ("ls   -l  " +:+ nl)) 5000
           (sys_getline (os (typing ("ls   -l  " +:+ nl)))).2).
  - repeat constructor; discriminate.
  - discriminate.
  - unfold CMD_SIZE. simpl. lia.
  - lia.
  - exact Hline.
Defined.

Lemma blank_line_prompts_again_witness :
  sys_getline (os (typing ("   " +:+ nl))) =
    (Some (5000, string_of_list_ascii (replicate 3 DELIMITER ++ [NEWLINE])),
     (sys_getline (os (typing ("   " +:+ nl)))).2) ∧
  main_turn 0 (typing ("   " +:+ nl)) =
    Ran (Next (set_os (sys_getline (os (typing ("   " +:+ nl)))).2
                 (emit (EvStdout PROMPT) (typing ("   " +:+ nl))))).
Proof.
  assert (Hline : sys_getline (os (typing ("   " +:+ nl))) =
    (Some (5000, string_of_list_ascii (replicate 3 DELIMITER ++ [NEWLINE])),
     (sys_getline (os (typing ("   " +:+ nl)))).2))
    by reflexivity.
  split; [exact Hline|].
  pose proof (blank_line_prompts_again 3 0 (typing ("   " +:+ nl)) 5000
           (sys_getline (os (typing ("   " +:+ nl)))).2 Hline) as H.
  exact H.
Defined.

Lemma exit_line_is_the_only_way_out_witness :
  table_ok (typing ("exit" +:+ nl)) ∧
  main_turn 0 (typing ("exit" +:+ nl)) =
    Ran (MainReturn 0 (turn_state (main_turn 0 (typing ("exit" +:+ nl))))) ∧
  ∃ (buffer : Z) (line : string) (s1 : terminal) (t : nat * list ascii),
    sys_getline (os (typing ("exit" +:+ nl))) = (Some (buffer, line), s1) ∧
    line_tokens (list_ascii_of_string line) !! 0%nat = Some t ∧
    t.2 = list_ascii_of_string "exit" ∧
    0 = 0 ∧ live (turn_state (main_turn 0 (typing ("exit" +:+ nl)))) = 0%nat.
Proof.
  assert (Hok : table_ok (typing ("exit" +:+ nl))) by (split; reflexivity).
  assert (Hret : main_turn 0 (typing ("exit" +:+ nl)) =
                 Ran (MainReturn 0 (turn_state (main_turn 0 (typing ("exit" +:+ nl))))))
    by (vm_compute; reflexivity).
  split; [exact Hok|]. split; [exact Hret|].
  pose proof (exit_line_is_the_only_way_out 0 (typing ("exit" +:+ nl)) 0 _ Hok Hret) as H.
  exact H.
Defined.

Lemma shell_loop_keeps_table_witness :
  table_ok three_lines ∧
  match main_loop 3 (λ _, 0%nat) three_lines with
  | Ran f =>
    table_ok (state_of f) ∧
    (∀ code st', f = MainReturn code st' → code = 0 ∧ live st' = 0%nat)
  | NotRead r =>
    table_ok (read_state r) ∧ (∃ st', r = NoLine st' ∨ r = Overrun st')
  end.
Proof.
  assert (Hok : table_ok three_lines) by (split; reflexivity).
  split; [exact Hok|].
  pose proof (shell_loop_keeps_table 3 (λ _, 0%nat) three_lines Hok) as H.
  exact H.
Defined.

